(** * caller: client-side orchestration against a notebook backend

    A shallow embedding of [caller/pdf_uploader.py] (class [PdfUploader]) and
    [caller/query_client.py] (class [QueryClient]), and the properties of the
    matcher, the normalizer, the status poller and the two ask strategies.

    Conventions of the embedding.
    - A Python [str] is a [string] of ASCII characters; the character classes
      ([str.isspace], [\d], [str.lower]) are Python's on codes below 128.
    - A decoded JSON value is a [json]; a [dict] is an association list in
      insertion order (a decoded object has no repeated key); a number is an
      integer, of which the code only asks whether it is zero.
    - A Python exception is the [Raise] alternative of [result].
    - The network, the clock and the file system are the fields of [Backend];
      the built-ins of the interpreter that the code calls and the repository
      does not define ([json.loads], [json.dumps], [<] on values that are not
      both strings) are the fields of [Builtins].
    - [pathlib.Path] is the POSIX flavour. *)

From Stdlib Require Import String Ascii List ZArith Bool Arith Lia DecimalString.
From Stdlib Require OrderedTypeEx.
Import ListNotations.
Local Open Scope string_scope.
Local Open Scope list_scope.

(* ================================================================== *)
(** * Exceptions and results *)

Inductive exn : Set :=
| AttributeError
| TypeError
| KeyError
| IndexError
| ValueError
| OSError
| TimeoutError
| HTTPError
| ConnectionError.

Inductive result (A : Type) : Type :=
| Ok (a : A)
| Raise (e : exn).

Arguments Ok {A} a.
Arguments Raise {A} e.

Definition rbind {A B : Type} (r : result A) (k : A -> result B) : result B :=
  match r with
  | Ok a => k a
  | Raise e => Raise e
  end.

Declare Scope result_scope.
Delimit Scope result_scope with result.
Notation "x <- c ;; k" := (rbind c (fun x => k))
  (at level 61, c at next level, right associativity) : result_scope.

(** [[f(i) for i in l]], stopping at the first exception. *)
Fixpoint mapM {A B : Type} (f : A -> result B) (l : list A) : result (list B) :=
  match l with
  | [] => Ok []
  | x :: xs =>
      (y <- f x ;;
       ys <- mapM f xs ;;
       Ok (y :: ys))%result
  end.

(* ================================================================== *)
(** * Python strings *)

Module PyStr.

Definition code (c : ascii) : nat := nat_of_ascii c.

(** [str.isspace] on one character, which is also the class [\s]. *)
Definition is_space (c : ascii) : bool :=
  (((9 <=? code c) && (code c <=? 13)) || ((28 <=? code c) && (code c <=? 32)))%nat.

(** The class [\d]. *)
Definition is_digit (c : ascii) : bool :=
  ((48 <=? code c) && (code c <=? 57))%nat.

Definition lower_char (c : ascii) : ascii :=
  if ((65 <=? code c) && (code c <=? 90))%nat then ascii_of_nat (code c + 32) else c.

(** [s.lower()] *)
Fixpoint lower (s : string) : string :=
  match s with
  | EmptyString => EmptyString
  | String c t => String (lower_char c) (lower t)
  end.

Fixpoint lstrip (s : string) : string :=
  match s with
  | EmptyString => EmptyString
  | String c t => if is_space c then lstrip t else s
  end.

Fixpoint rstrip (s : string) : string :=
  match s with
  | EmptyString => EmptyString
  | String c t =>
      match rstrip t with
      | EmptyString => if is_space c then EmptyString else String c EmptyString
      | r => String c r
      end
  end.

(** [s.strip()] *)
Definition strip (s : string) : string := rstrip (lstrip s).

(** [c in s] for a one-character [c]. *)
Fixpoint contains (c : ascii) (s : string) : bool :=
  match s with
  | EmptyString => false
  | String a t => Ascii.eqb a c || contains c t
  end.

(** [s.rsplit(sep, 1)] when [sep] occurs in [s]: the text before the last
    [sep] and the text after it. *)
Fixpoint rsplit1 (sep : ascii) (s : string) : option (string * string) :=
  match s with
  | EmptyString => None
  | String c t =>
      match rsplit1 sep t with
      | Some (a, b) => Some (String c a, b)
      | None => if Ascii.eqb c sep then Some (EmptyString, t) else None
      end
  end.

(** [s.split(sep)] *)
Fixpoint split_on (sep : ascii) (s : string) : list string :=
  match s with
  | EmptyString => [EmptyString]
  | String c t =>
      if Ascii.eqb c sep then EmptyString :: split_on sep t
      else match split_on sep t with
           | h :: r => String c h :: r
           | [] => [String c EmptyString]
           end
  end.

(** [s.startswith(p)] *)
Definition startswith (p s : string) : bool := String.prefix p s.

(** [s[n:]] *)
Fixpoint drop (n : nat) (s : string) : string :=
  match n, s with
  | O, _ => s
  | S m, String _ t => drop m t
  | S _, EmptyString => EmptyString
  end.

(** [str(n)] for an integer. *)
Definition of_int (n : Z) : string := NilZero.string_of_int (Z.to_int n).

(** [Path(s).name]: the last component of the path that is neither empty
    nor ["."], the empty string when there is none. *)
Definition path_part (c : string) : bool :=
  negb (String.eqb c "") && negb (String.eqb c ".").

Definition path_name (s : string) : string :=
  last (filter path_part (split_on "/" s)) "".

(** The pattern [\s*\(\d+\)\s*$] of [normalize_filename], matched from the
    start of [s] to its end.  The classes of the pattern are disjoint, so
    matching needs no backtracking. *)
Fixpoint all_space (s : string) : bool :=
  match s with
  | EmptyString => true
  | String c t => is_space c && all_space t
  end.

(** [\d*\)\s*$] *)
Fixpoint digits_close (s : string) : bool :=
  match s with
  | EmptyString => false
  | String c t =>
      if is_digit c then digits_close t
      else if Ascii.eqb c ")" then all_space t
      else false
  end.

(** [\d+\)\s*$] *)
Definition digit_digits_close (s : string) : bool :=
  match s with
  | EmptyString => false
  | String c t => is_digit c && digits_close t
  end.

(** [\s*\(\d+\)\s*$] *)
Fixpoint suffix_here (s : string) : bool :=
  match s with
  | EmptyString => false
  | String c t =>
      if is_space c then suffix_here t
      else if Ascii.eqb c "(" then digit_digits_close t
      else false
  end.

(** [re.sub(r'\s*\(\d+\)\s*$', '', s)]: the leftmost match runs to the end
    of [s], so the result is what stands before it. *)
Fixpoint sub_numbered_suffix (s : string) : string :=
  if suffix_here s then EmptyString
  else match s with
       | EmptyString => EmptyString
       | String c t => String c (sub_numbered_suffix t)
       end.

(** [sep.join(l)] with [sep = ""]. *)
Definition join (l : list string) : string := String.concat "" l.

End PyStr.

(* ================================================================== *)
(** * JSON values as Python sees them *)

#[warnings="-register-all"] Inductive json : Type :=
| JNull
| JBool (b : bool)
| JNum (n : Z)
| JStr (s : string)
| JList (l : list json)
| JDict (d : list (string * json)).

(** Truth value of a decoded value ([if v:], [v or w]). *)
Definition truthy (v : json) : bool :=
  match v with
  | JNull => false
  | JBool b => b
  | JNum n => negb (n =? 0)%Z
  | JStr s => negb (String.eqb s "")
  | JList l => match l with [] => false | _ => true end
  | JDict d => match d with [] => false | _ => true end
  end.

(** [a or b], both already evaluated. *)
Definition py_or (a b : json) : json := if truthy a then a else b.

Fixpoint lookup (k : string) (d : list (string * json)) : option json :=
  match d with
  | [] => None
  | (k', v) :: r => if String.eqb k' k then Some v else lookup k r
  end.

(** [d.get(k)], [d.get(k, dflt)], [k in d], [d.values()] *)
Definition dict_get (k : string) (d : list (string * json)) : json :=
  match lookup k d with Some v => v | None => JNull end.

Definition dict_get_or (k : string) (dflt : json) (d : list (string * json)) : json :=
  match lookup k d with Some v => v | None => dflt end.

Definition dict_has (k : string) (d : list (string * json)) : bool :=
  match lookup k d with Some _ => true | None => false end.

Definition dict_values (d : list (string * json)) : list json := map snd d.

(** [v.get(k)] on a value that may not be a dict. *)
Definition py_get (v : json) (k : string) : result json :=
  match v with
  | JDict d => Ok (dict_get k d)
  | _ => Raise AttributeError
  end.

Definition py_get_or (v : json) (k : string) (dflt : json) : result json :=
  match v with
  | JDict d => Ok (dict_get_or k dflt d)
  | _ => Raise AttributeError
  end.

(** [v == "literal"] *)
Definition eq_str (v : json) (s : string) : bool :=
  match v with
  | JStr t => String.eqb t s
  | _ => false
  end.

(** An [Optional[str]] argument as a value. *)
Definition of_opt (o : option string) : json :=
  match o with
  | Some s => JStr s
  | None => JNull
  end.

(* ================================================================== *)
(** * The interpreter's built-ins *)

Class Builtins : Type := {
  (** [json.loads]: [None] when the text does not decode. *)
  json_loads : string -> option json;
  (** [json.dumps] *)
  json_dumps : json -> string;
  (** [a < b] when [a] and [b] are not both strings. *)
  lt_other : json -> json -> result bool
}.

(** [a < b] as [list.sort] asks it of two sort keys: strings compare
    character by character. *)
Definition py_lt `{B : Builtins} (a b : json) : result bool :=
  match a, b with
  | JStr x, JStr y => Ok (String.ltb x y)
  | _, _ => lt_other a b
  end.

(* ================================================================== *)
(** * PdfUploader: the response normalizer *)

(** The dict that [_normalize_source_item] builds. *)
Record Source : Type := {
  id : json;
  title : json;
  asset_file_path : json;
  asset_url : json;
  embedded : json;
  embedded_chunks : json;
  insights_count : json;
  created : json;
  updated : json;
  file_available : json;
  command_id : json;
  status : json;
  processing_info : json;
  raw : json
}.

Definition _normalize_source_item (item : json) : result Source :=
  match item with
  | JDict d =>
      let asset := py_or (dict_get "asset" d) (JDict []) in
      Ok {| id := dict_get "id" d;
            title := dict_get "title" d;
            asset_file_path :=
              match asset with JDict a => dict_get "file_path" a | _ => JNull end;
            asset_url :=
              match asset with JDict a => dict_get "url" a | _ => JNull end;
            embedded := dict_get_or "embedded" (JBool false) d;
            embedded_chunks := dict_get_or "embedded_chunks" (JNum 0) d;
            insights_count := dict_get_or "insights_count" (JNum 0) d;
            created := dict_get "created" d;
            updated := dict_get "updated" d;
            file_available := dict_get "file_available" d;
            command_id := dict_get "command_id" d;
            status := dict_get "status" d;
            processing_info := dict_get "processing_info" d;
            raw := item |}
  | _ => Raise AttributeError   (* item.get on a value that is no dict *)
  end.

(** [isinstance(v, list) and v and isinstance(v[0], dict) and "id" in v[0]] *)
Definition nested_source_list (v : json) : bool :=
  match v with
  | JList (JDict d0 :: _) => dict_has "id" d0
  | _ => false
  end.

Definition _normalize_sources (data : json) : result (list Source) :=
  match data with
  | JNull => Ok []
  | JList l => mapM _normalize_source_item l
  | JDict d =>
      match lookup "results" d with
      | Some (JList l) => mapM _normalize_source_item l
      | _ =>
          if truthy (py_or (dict_get "id" d) (dict_get "title" d)) then
            (s <- _normalize_source_item data ;; Ok [s])%result
          else
            match find nested_source_list (dict_values d) with
            | Some (JList v) => mapM _normalize_source_item v
            | _ => Ok []
            end
      end
  | _ => Ok []
  end.

(* ================================================================== *)
(** * PdfUploader: the document matcher *)

(** The local function [normalize_filename] of [find_source_for_file]. *)
Definition normalize_filename (fname : string) : string :=
  let base := PyStr.path_name fname in
  if PyStr.contains "." base then
    match PyStr.rsplit1 "." base with
    | Some (name_part, ext) =>
        let name_part := PyStr.strip (PyStr.sub_numbered_suffix name_part) in
        PyStr.lower (name_part ++ "." ++ ext)%string
    | None => PyStr.lower base   (* not reached: "." is in base *)
    end
  else PyStr.lower base.

(** [Path(v)] and [.lower()] want a string. *)
Definition as_path (v : json) : result string :=
  match v with
  | JStr s => Ok s
  | _ => Raise TypeError
  end.

Definition str_lower (v : json) : result string :=
  match v with
  | JStr s => Ok (PyStr.lower s)
  | _ => Raise AttributeError
  end.

(** The three lists that the loop over the candidates fills. *)
Record Matches : Type := {
  exact_matches : list Source;
  basename_matches : list Source;
  normalized_matches : list Source
}.

Definition no_matches : Matches :=
  {| exact_matches := []; basename_matches := []; normalized_matches := [] |}.

Definition add_exact (s : Source) (m : Matches) : Matches :=
  {| exact_matches := exact_matches m ++ [s];
     basename_matches := basename_matches m;
     normalized_matches := normalized_matches m |}.

Definition add_basename (s : Source) (m : Matches) : Matches :=
  {| exact_matches := exact_matches m;
     basename_matches := basename_matches m ++ [s];
     normalized_matches := normalized_matches m |}.

Definition add_normalized (s : Source) (m : Matches) : Matches :=
  {| exact_matches := exact_matches m;
     basename_matches := basename_matches m;
     normalized_matches := normalized_matches m ++ [s] |}.

(** One turn of [for s in candidates]. *)
Definition match_step (target : string) (s : Source) (m : Matches) : result Matches :=
  let target_normalized := normalize_filename target in
  let target_basename := PyStr.lower (PyStr.path_name target) in
  let file_path := py_or (py_or (asset_file_path s) (JStr "")) (JStr "") in
  let title := py_or (py_or (title s) (JStr "")) (JStr "") in
  if truthy file_path && eq_str file_path target then Ok (add_exact s m)
  else
    (is_base <-
       (if truthy file_path then
          (p <- as_path file_path ;;
           Ok (String.eqb (PyStr.lower (PyStr.path_name p)) target_basename))
        else Ok false) ;;
     if is_base : bool then Ok (add_basename s m)
     else
       is_title <-
         (if truthy title then
            (t <- str_lower title ;; Ok (String.eqb t target_basename))
          else Ok false) ;;
       if is_title : bool then Ok (add_basename s m)
       else
         if truthy title then
           (t <- as_path title ;;
            if String.eqb (normalize_filename t) target_normalized
            then Ok (add_normalized s m)
            else Ok m)
         else Ok m)%result.

Fixpoint match_loop (target : string) (candidates : list Source) (m : Matches)
  : result Matches :=
  match candidates with
  | [] => Ok m
  | s :: rest => (m' <- match_step target s m ;; match_loop target rest m')%result
  end.

(** [it.get("updated") or it.get("created") or ""] *)
Definition sort_key (it : Source) : json :=
  py_or (py_or (updated it) (created it)) (JStr "").

(** [results.sort(key=sort_key, reverse=True)]: a stable sort into
    descending order of the keys, which asks only [<] of two keys.  On keys
    that [<] orders, every stable sort builds this list. *)
Fixpoint insert_desc `{B : Builtins} (x : Source) (l : list Source) : result (list Source) :=
  match l with
  | [] => Ok [x]
  | y :: r =>
      (b <- py_lt (sort_key x) (sort_key y) ;;
       if b : bool then (r' <- insert_desc x r ;; Ok (y :: r'))
       else Ok (x :: y :: r))%result
  end.

Fixpoint sort_desc `{B : Builtins} (l : list Source) : result (list Source) :=
  match l with
  | [] => Ok []
  | x :: r => (r' <- sort_desc r ;; insert_desc x r')%result
  end.

(** [a or b] on lists. *)
Definition list_or {A : Type} (a b : list A) : list A :=
  match a with
  | [] => b
  | _ => a
  end.

(** Lines 276 to 321 of [find_source_for_file]: the choice among the
    candidates of one listing. *)
Definition find_best_match `{B : Builtins} (target : string) (candidates : list Source)
  : result (option Source) :=
  (m <- match_loop target candidates no_matches ;;
   let results :=
     list_or (exact_matches m)
       (list_or (basename_matches m) (list_or (normalized_matches m) [])) in
   match results with
   | [] => Ok None
   | _ =>
       sorted <- sort_desc results ;;
       match sorted with
       | r0 :: _ => Ok (Some r0)
       | [] => Raise IndexError   (* results[0] of an empty list; not reached *)
       end
   end)%result.

(* ================================================================== *)
(** * The backend, the clock and the file system *)

Inductive method : Set := GET | POST.

(** The URLs that the two classes build under [self.base], with the values
    they substitute in the path. *)
Inductive endpoint : Type :=
| Sources                                              (* /sources *)
| SourceStatus (source_id : string)                    (* /sources/{id}/status *)
| SourceChatSessions (source_id : string)              (* /sources/{id}/chat/sessions *)
| SourceChatMessages (source_id : string) (session_id : json)
                                      (* /sources/{id}/chat/sessions/{sid}/messages *)
| ModelsDefaults                                       (* /models/defaults *)
| SearchAskSimple                                      (* /search/ask/simple *)
| Notebooks                                            (* /notebooks *)
| NotebookSource (notebook_id : json) (source_id : string)
                                      (* /notebooks/{nid}/sources/{id} *)
| ChatContext                                          (* /chat/context *)
| ChatSessions                                         (* /chat/sessions *)
| ChatExecute.                                         (* /chat/execute *)

Record request : Type := {
  meth : method;
  url : endpoint;
  (** [params=], [data=] or [json=], as a dict. *)
  payload : json;
  (** [files={"file": open(path, "rb")}] *)
  attached : option string
}.

Record response : Type := {
  resp_status_code : Z;
  resp_ok : bool;
  resp_text : string;
  (** [iter_lines(decode_unicode=True)] *)
  resp_lines : list string
}.

Class Backend : Type := {
  (** The answer to a request after the requests sent before it; [None] when
      [requests] raises instead of answering. *)
  server : list request -> request -> option response;
  (** The value of the n-th reading of [time.time()], in whole units of the
      clock; intervals and timeouts are counted in the same unit. *)
  clock : nat -> Z;
  (** Whether [open(path, "rb")] succeeds. *)
  file_exists : string -> bool
}.

Record world : Type := {
  sent : list request;
  clock_reads : nat;
  slept : list Z
}.

Definition start_world : world := {| sent := []; clock_reads := 0; slept := [] |}.

(** A method that talks to the backend: it ends in a value or an exception,
    and in the world it leaves. *)
Definition IO (A : Type) : Type := world -> result A * world.

Definition ret {A : Type} (a : A) : IO A := fun w => (Ok a, w).

Definition raise {A : Type} (e : exn) : IO A := fun w => (Raise e, w).

Definition lift {A : Type} (r : result A) : IO A := fun w => (r, w).

Definition bind {A B : Type} (c : IO A) (k : A -> IO B) : IO B :=
  fun w =>
    match c w with
    | (Ok a, w') => k a w'
    | (Raise e, w') => (Raise e, w')
    end.

(** [try: c  except Exception: h] *)
Definition try_except {A : Type} (c : IO A) (h : IO A) : IO A :=
  fun w =>
    match c w with
    | (Ok a, w') => (Ok a, w')
    | (Raise _, w') => h w'
    end.

Declare Scope io_scope.
Delimit Scope io_scope with io.
Notation "x <- c ;; k" := (bind c (fun x => k))
  (at level 61, c at next level, right associativity) : io_scope.
Notation "c ;;; k" := (bind c (fun _ => k))
  (at level 61, right associativity) : io_scope.

Definition send `{K : Backend} (rq : request) : IO response :=
  fun w =>
    let w' := {| sent := sent w ++ [rq];
                 clock_reads := clock_reads w;
                 slept := slept w |} in
    match server (sent w) rq with
    | Some r => (Ok r, w')
    | None => (Raise ConnectionError, w')
    end.

Definition requests_get `{K : Backend} (u : endpoint) (params : json) : IO response :=
  send {| meth := GET; url := u; payload := params; attached := None |}.

Definition requests_post `{K : Backend} (u : endpoint) (body : json) (file : option string)
  : IO response :=
  send {| meth := POST; url := u; payload := body; attached := file |}.

Definition time_time `{K : Backend} : IO Z :=
  fun w =>
    (Ok (clock (clock_reads w)),
     {| sent := sent w; clock_reads := S (clock_reads w); slept := slept w |}).

Definition time_sleep (d : Z) : IO unit :=
  fun w =>
    (Ok tt, {| sent := sent w; clock_reads := clock_reads w; slept := slept w ++ [d] |}).

(** [resp.raise_for_status()] and [resp.json()] *)
Definition raise_for_status (r : response) : result unit :=
  if resp_ok r then Ok tt else Raise HTTPError.

Definition resp_json `{B : Builtins} (r : response) : result json :=
  match json_loads (resp_text r) with
  | Some v => Ok v
  | None => Raise ValueError
  end.

(** How many of the requests [l] are [m] requests to [u]. *)
Definition is_request (m : method) (u : endpoint -> bool) (rq : request) : bool :=
  match meth rq, m with
  | GET, GET | POST, POST => u (url rq)
  | _, _ => false
  end.

Definition count_requests (m : method) (u : endpoint -> bool) (l : list request) : nat :=
  length (filter (is_request m u) l).

Definition to_sources (u : endpoint) : bool :=
  match u with Sources => true | _ => false end.

Definition to_notebooks (u : endpoint) : bool :=
  match u with Notebooks => true | _ => false end.

Definition to_chat_sessions (u : endpoint) : bool :=
  match u with ChatSessions => true | _ => false end.

(* ================================================================== *)
(** * PdfUploader: the methods that talk to the backend *)

(** The dict of [_wrap_response]. *)
Record Wrapped : Type := {
  w_ok : bool;
  w_status_code : Z;
  w_data : json;
  w_text : string;
  w_error : json
}.

Definition _wrap_response `{B : Builtins} (resp : response) : Wrapped :=
  {| w_ok := resp_ok resp;
     w_status_code := resp_status_code resp;
     w_data :=
       if String.eqb (resp_text resp) "" then JNull
       else match json_loads (resp_text resp) with
            | Some v => v
            | None => JStr (resp_text resp)
            end;
     w_text := resp_text resp;
     w_error := JNull |}.

Definition find_source_for_file `{B : Builtins} `{K : Backend}
    (filename_or_path : string) (notebook_id : option string) : IO (option Source) :=
  let params :=
    if truthy (of_opt notebook_id) then [("notebook_id", of_opt notebook_id)] else [] in
  (resp <- requests_get Sources (JDict params) ;;
   let wrapped := _wrap_response resp in
   if negb (w_ok wrapped) then ret None
   else
     candidates <- lift (_normalize_sources (w_data wrapped)) ;;
     lift (find_best_match filename_or_path candidates))%io.

Definition source_exists `{B : Builtins} `{K : Backend} (filename : string) : IO bool :=
  (found <- find_source_for_file filename None ;;
   ret (match found with Some _ => true | None => false end))%io.

Definition get_source_id `{B : Builtins} `{K : Backend} (filename : string) : IO json :=
  (src <- find_source_for_file filename None ;;
   ret (match src with Some s => id s | None => JNull end))%io.

(** What [upload_file_and_process] and [reference_existing_file] return:
    [{"ok": True, "status_code", "sources", "raw"}], or the wrapped response
    of a refused request with ["sources": []] added. *)
Inductive UploadResult : Type :=
| Uploaded (status_code : Z) (sources : list Source) (raw : json)
| Refused (wrapped : Wrapped).

Definition upload_ok (r : UploadResult) : bool :=
  match r with
  | Uploaded _ _ _ => true
  | Refused w => w_ok w
  end.

Definition upload_sources (r : UploadResult) : list Source :=
  match r with
  | Uploaded _ l _ => l
  | Refused _ => []
  end.

(** [str(b).lower()] *)
Definition bool_lower (b : bool) : json := JStr (if b then "true" else "false").

(** [a or b] where [a] is an [Optional[str]]. *)
Definition opt_or (a : option string) (b : string) : string :=
  match a with
  | Some s => if String.eqb s "" then b else s
  | None => b
  end.

Definition given_list (l : option (list json)) : bool :=
  match l with
  | Some (_ :: _) => true
  | _ => false
  end.

Definition upload_file_and_process `{B : Builtins} `{K : Backend}
    (file_path : string) (title : option string) (notebooks : option (list json))
    (embed async_processing : bool) : IO UploadResult :=
  let filename := opt_or title (PyStr.path_name file_path) in
  (existing <- find_source_for_file filename None ;;
   match existing with
   | Some found => ret (Uploaded 200 [found] JNull)
   | None =>
       if negb (file_exists file_path) then raise OSError
       else
         let data :=
           [("type", JStr "upload"); ("title", JStr filename);
            ("embed", bool_lower embed);
            ("async_processing", bool_lower async_processing)]
           ++ (if given_list notebooks
               then [("notebooks",
                      JStr (json_dumps (JList (match notebooks with
                                               | Some l => l
                                               | None => []
                                               end))))]
               else []) in
         resp <- requests_post Sources (JDict data) (Some file_path) ;;
         let wrapped := _wrap_response resp in
         if negb (w_ok wrapped) then ret (Refused wrapped)
         else
           sources <- lift (_normalize_sources (w_data wrapped)) ;;
           ret (Uploaded (w_status_code wrapped) sources (w_data wrapped))
   end)%io.

Definition reference_existing_file `{B : Builtins} `{K : Backend}
    (server_file_path : string) (title : option string) (notebooks : option (list json))
    (embed async_processing : bool) : IO UploadResult :=
  let body :=
    [("type", JStr "upload");
     ("title", JStr (opt_or title (PyStr.path_name server_file_path)));
     ("file_path", JStr server_file_path);
     ("embed", JBool embed);
     ("async_processing", JBool async_processing)]
    ++ (if given_list notebooks
        then [("notebooks", JList (match notebooks with Some l => l | None => [] end))]
        else []) in
  (resp <- requests_post Sources (JDict body) None ;;
   let wrapped := _wrap_response resp in
   if negb (w_ok wrapped) then ret (Refused wrapped)
   else
     sources <- lift (_normalize_sources (w_data wrapped)) ;;
     ret (Uploaded (w_status_code wrapped) sources (w_data wrapped)))%io.

(** The dict that [poll_source_status] returns. *)
Record PollResult : Type := {
  poll_status_code : Z;
  poll_status : json;
  poll_processing_info : json;
  poll_raw : json
}.

(** What one status response means to the loop: a result to return, or
    nothing yet; [data.get] raises on a body that is no dict. *)
Definition poll_look (wrapped : Wrapped) : result (option PollResult) :=
  if w_ok wrapped then
    let data := py_or (w_data wrapped) (JDict []) in
    (st <- py_get data "status" ;;
     if eq_str st "completed" || eq_str st "failed" then
       info <- py_get data "processing_info" ;;
       Ok (Some {| poll_status_code := w_status_code wrapped;
                   poll_status := st;
                   poll_processing_info := info;
                   poll_raw := data |})
     else Ok None)%result
  else Ok None.

(** The [while True] of [poll_source_status], unrolled at most [fuel] times;
    [None] when the loop is still running after that many turns. *)
Fixpoint poll_loop `{B : Builtins} `{K : Backend} (fuel : nat) (source_id : string)
    (poll_interval timeout start : Z) : IO (option PollResult) :=
  match fuel with
  | O => ret None
  | S fuel' =>
      (resp <- requests_get (SourceStatus source_id) JNull ;;
       looked <- lift (poll_look (_wrap_response resp)) ;;
       match looked with
       | Some r => ret (Some r)
       | None =>
           now <- time_time ;;
           if (now - start >? timeout)%Z then raise TimeoutError
           else
             time_sleep poll_interval ;;;
             poll_loop fuel' source_id poll_interval timeout start
       end)%io
  end.

Definition poll_source_status `{B : Builtins} `{K : Backend} (fuel : nat) (source_id : string)
    (poll_interval timeout : Z) : IO (option PollResult) :=
  (start <- time_time ;;
   poll_loop fuel source_id poll_interval timeout start)%io.

(* ================================================================== *)
(** * QueryClient *)

(** What [ask] returns: the dict of the session-scoped strategy
    ([search_results] is always empty), or the payload of [/search/ask/simple]. *)
Inductive AskResult : Type :=
| SessionAnswer (total : nat) (answer : string) (events : list json)
| SimpleAnswer (data : json).

(** The body of one stream line: the line stripped, without a leading
    ["data:"]. *)
Definition line_body (raw_line : string) : string :=
  let line := PyStr.strip raw_line in
  if PyStr.startswith "data:" line then PyStr.strip (PyStr.drop 5 line) else line.

Definition text_event (body : string) : json :=
  JDict [("type", JStr "text"); ("text", JStr body)].

(** [ev.get("type") or ev.get("event") or "message"] *)
Definition event_type (ev : json) : result json :=
  (t <- py_get ev "type" ;;
   if truthy t then Ok t
   else e <- py_get ev "event" ;; Ok (py_or e (JStr "message")))%result.

(** [ev.get("content") or ev.get("data") or ""] *)
Definition event_content (ev : json) : result json :=
  (c <- py_get ev "content" ;;
   if truthy c then Ok c
   else d <- py_get ev "data" ;; Ok (py_or d (JStr "")))%result.

(** [for raw in r.iter_lines(...)], with the two lists it appends to. *)
Fixpoint read_stream `{B : Builtins} (lines : list string) (events ai_chunks : list json)
  : result (list json * list json) :=
  match lines with
  | [] => Ok (events, ai_chunks)
  | raw_line :: rest =>
      if String.eqb raw_line "" then read_stream rest events ai_chunks
      else
        let body := line_body raw_line in
        match json_loads body with
        | None => read_stream rest (events ++ [text_event body]) ai_chunks
        | Some ev =>
            (ev_type <- event_type ev ;;
             if eq_str ev_type "ai_message" then
               content <- event_content ev ;;
               read_stream rest (events ++ [ev]) (ai_chunks ++ [content])
             else read_stream rest (events ++ [ev]) ai_chunks)%result
        end
  end.

(** ["".join(ai_chunks)]: every item must be a string. *)
Definition as_str (v : json) : result string :=
  match v with
  | JStr s => Ok s
  | _ => Raise TypeError
  end.

Definition join_chunks (chunks : list json) : result string :=
  (strs <- mapM as_str chunks ;; Ok (PyStr.join strs))%result.

(** The [try] that fetches [/models/defaults] in [ask] with source ids and
    in [notebook_ask]: any failure leaves [{}]. *)
Definition fetch_defaults `{B : Builtins} `{K : Backend} : IO json :=
  try_except
    (dresp <- requests_get ModelsDefaults JNull ;;
     lift (raise_for_status dresp) ;;;
     v <- lift (resp_json dresp) ;;
     ret (py_or v (JDict [])))%io
    (ret (JDict [])).

(** [a or defaults.get(k1) or defaults.get(k2)], evaluated from the left. *)
Definition get_or_get (defaults : json) (k1 k2 : string) : result json :=
  (a <- py_get defaults k1 ;;
   if truthy a then Ok a else py_get defaults k2)%result.

Definition ask `{B : Builtins} `{K : Backend}
    (prompt : string) (source_ids : option (list string))
    (model_override : option string) : IO AskResult :=
  let override := of_opt model_override in
  match source_ids with
  | Some (src :: _) =>
      let source_id := src in
      (defaults <- fetch_defaults ;;
       strategy_model <-
         lift (if truthy override then Ok override
               else get_or_get defaults "default_transformation_model"
                               "default_chat_model") ;;
       now <- time_time ;;
       let session_payload :=
         JDict [("source_id", JStr source_id);
                ("title", JStr ("query-" ++ PyStr.of_int now));
                ("model_override", strategy_model)] in
       cresp <- requests_post (SourceChatSessions source_id) session_payload None ;;
       lift (raise_for_status cresp) ;;;
       session <- lift (resp_json cresp) ;;
       session_id <- lift (py_get session "id") ;;
       let stream_payload :=
         JDict ([("message", JStr prompt)]
                ++ (if truthy override then [("model_override", override)]
                    else if truthy strategy_model
                         then [("model_override", strategy_model)]
                         else [])) in
       r <- requests_post (SourceChatMessages source_id session_id) stream_payload None ;;
       lift (raise_for_status r) ;;;
       read <- lift (read_stream (resp_lines r) [] []) ;;
       let (events, ai_chunks) := read : list json * list json in
       answer_text <- lift (join_chunks ai_chunks) ;;
       ret (SessionAnswer (length ai_chunks) answer_text events))%io
  | _ =>
      (defaults <-
         try_except
           (dresp <- requests_get ModelsDefaults JNull ;;
            lift (raise_for_status dresp) ;;;
            lift (resp_json dresp))
           (ret (JDict [])) ;;
       strategy <-
         lift (get_or_get defaults "default_transformation_model" "default_chat_model") ;;
       answer <- lift (py_get defaults "default_chat_model") ;;
       final <- lift (py_get defaults "default_chat_model") ;;
       let ask_payload :=
         if truthy override then
           JDict [("question", JStr prompt); ("strategy_model", override);
                  ("answer_model", override); ("final_answer_model", override)]
         else
           JDict [("question", JStr prompt); ("strategy_model", strategy);
                  ("answer_model", answer); ("final_answer_model", final)] in
       resp <- requests_post SearchAskSimple ask_payload None ;;
       lift (raise_for_status resp) ;;;
       data <- lift (resp_json resp) ;;
       ret (SimpleAnswer data))%io
  end.

(** The dict that [notebook_ask] returns. *)
Record NotebookAnswer : Type := {
  nb_notebook_id : json;
  nb_session_id : json;
  nb_messages : json;
  nb_ai_answer : json
}.

(** [msgs[-1]] for a [msgs] that is true. *)
Definition last_message (msgs : json) : result json :=
  match msgs with
  | JList l =>
      match rev l with
      | m :: _ => Ok m
      | [] => Raise IndexError
      end
  | JStr s => Ok (JStr (PyStr.drop (String.length s - 1) s))
  | JDict _ => Raise KeyError
  | _ => Raise TypeError
  end.

(** The answer that [notebook_ask] reads off the messages. *)
Definition extract_answer (msgs : json) : result json :=
  if truthy msgs then
    (last_msg <- last_message msgs ;;
     ty <- py_get last_msg "type" ;;
     if eq_str ty "ai" then py_get_or last_msg "content" (JStr "")
     else Ok (JStr ""))%result
  else Ok (JStr "").

Definition notebook_ask `{B : Builtins} `{K : Backend}
    (source_id message : string) (model_override notebook_id session_id : option string)
  : IO NotebookAnswer :=
  ((* 1) default models *)
   defaults <- fetch_defaults ;;
   (* 2) the notebook, created when none is given *)
   notebook_id <-
     (if negb (truthy (of_opt notebook_id)) then
        now <- time_time ;;
        let nb_payload :=
          JDict [("name", JStr ("temp-notebook-" ++ PyStr.of_int now));
                 ("description", JStr "Temporary notebook for source-scoped query")] in
        nb_resp <- requests_post Notebooks nb_payload None ;;
        lift (raise_for_status nb_resp) ;;;
        created_nb <- lift (resp_json nb_resp) ;;
        lift (py_get created_nb "id")
      else ret (of_opt notebook_id)) ;;
   (* 3) link the source *)
   lresp <- requests_post (NotebookSource notebook_id source_id) JNull None ;;
   lift (raise_for_status lresp) ;;;
   (* 4) build the context *)
   let context_config :=
     JDict [("sources", JDict [(source_id, JStr "full content")]);
            ("notes", JDict [])] in
   let ctx_payload :=
     JDict [("notebook_id", notebook_id); ("context_config", context_config)] in
   ctx_resp <- requests_post ChatContext ctx_payload None ;;
   lift (raise_for_status ctx_resp) ;;;
   context_data <- lift (resp_json ctx_resp) ;;
   built_context <- lift (py_get context_data "context") ;;
   (* 5) the chat session, created when none is given *)
   session_id <-
     (if negb (truthy (of_opt session_id)) then
        now <- time_time ;;
        let sess_payload :=
          JDict [("notebook_id", notebook_id);
                 ("title", JStr ("nb-session-" ++ PyStr.of_int now))] in
        sresp <- requests_post ChatSessions sess_payload None ;;
        lift (raise_for_status sresp) ;;;
        created_session <- lift (resp_json sresp) ;;
        lift (py_get created_session "id")
      else ret (of_opt session_id)) ;;
   (* 6) execute the chat *)
   chat_model <-
     lift (if truthy (of_opt model_override) then Ok (of_opt model_override)
           else py_get defaults "default_chat_model") ;;
   let exec_payload :=
     JDict [("session_id", session_id); ("message", JStr message);
            ("context", built_context); ("model_override", chat_model)] in
   exec_resp <- requests_post ChatExecute exec_payload None ;;
   lift (raise_for_status exec_resp) ;;;
   resp_data <- lift (resp_json exec_resp) ;;
   msgs <- lift (py_get_or resp_data "messages" (JList [])) ;;
   ai_answer <- lift (extract_answer msgs) ;;
   ret {| nb_notebook_id := notebook_id;
          nb_session_id := session_id;
          nb_messages := msgs;
          nb_ai_answer := ai_answer |})%io.

(* ================================================================== *)
(** * File names that differ by a numbered suffix *)

(** A directory prefix: nothing, or text that ends in a slash. *)
Definition dir_prefix (d : string) : Prop :=
  d = "" \/ exists d', d = (d' ++ "/")%string.



(* ================================================================== *)
(** * Shapes of a payload *)

(** The sequence under the field [results], when there is one. *)
Definition results_list (d : list (string * json)) : option (list json) :=
  match lookup "results" d with
  | Some (JList l) => Some l
  | _ => None
  end.

(** A dict that counts as a single source: its [id] or its [title] is
    true. *)
Definition names_a_source (d : list (string * json)) : bool :=
  truthy (py_or (dict_get "id" d) (dict_get "title" d)).

Definition is_dict (v : json) : bool :=
  match v with
  | JDict _ => true
  | _ => false
  end.

(* ================================================================== *)
(** * The tiers of the matcher, in the words of the specification *)

(** A document record as the data model has it: the stored path, the title
    and the two timestamps are strings or absent. *)
Definition str_or_null (v : json) : bool :=
  match v with
  | JStr _ | JNull => true
  | _ => false
  end.

Definition well_typed (s : Source) : bool :=
  str_or_null (asset_file_path s) && str_or_null (title s)
  && str_or_null (updated s) && str_or_null (created s).

(** The text of a field, empty when the field is absent. *)
Definition text_of (v : json) : string :=
  match v with
  | JStr s => s
  | _ => ""
  end.

Definition has_text (v : json) : bool := negb (String.eqb (text_of v) "").

(** Tier 1: the stored path is the target, verbatim. *)
Definition exact_tier (target : string) (s : Source) : bool :=
  has_text (asset_file_path s) && String.eqb (text_of (asset_file_path s)) target.

(** Tier 2: the last component of the stored path, or the title, is the last
    component of the target, case aside. *)
Definition basename_tier (target : string) (s : Source) : bool :=
  (has_text (asset_file_path s)
   && String.eqb (PyStr.lower (PyStr.path_name (text_of (asset_file_path s))))
                 (PyStr.lower (PyStr.path_name target)))
  || (has_text (title s)
      && String.eqb (PyStr.lower (text_of (title s)))
                    (PyStr.lower (PyStr.path_name target))).

(** Tier 3: the title and the target have the same normalization. *)
Definition normalized_tier (target : string) (s : Source) : bool :=
  has_text (title s)
  && String.eqb (normalize_filename (text_of (title s))) (normalize_filename target).

(** The highest tier that some candidate falls into, as the candidates of
    the listing that fall into it. *)
Definition best_tier (target : string) (candidates : list Source) : list Source :=
  match filter (exact_tier target) candidates with
  | (_ :: _) as l => l
  | [] =>
      match filter (basename_tier target) candidates with
      | (_ :: _) as l => l
      | [] => filter (normalized_tier target) candidates
      end
  end.

(** The three lists after the loop over typed candidates, started from [m]. *)
Definition filed (target : string) (candidates : list Source) (m : Matches) : Matches :=
  {| exact_matches := exact_matches m ++ filter (exact_tier target) candidates;
     basename_matches :=
       basename_matches m
       ++ filter (fun s => negb (exact_tier target s) && basename_tier target s)
            candidates;
     normalized_matches :=
       normalized_matches m
       ++ filter (fun s => negb (exact_tier target s) && negb (basename_tier target s)
                           && normalized_tier target s)
            candidates |}.

(** The timestamp that breaks ties: [updated], else [created], else the
    empty string. *)
Definition timestamp (s : Source) : string :=
  if has_text (updated s) then text_of (updated s) else text_of (created s).

(** Insertion into, and sorting by, descending timestamps. *)
Fixpoint insert_by_timestamp (x : Source) (l : list Source) : list Source :=
  match l with
  | [] => [x]
  | y :: r =>
      if String.ltb (timestamp x) (timestamp y) then y :: insert_by_timestamp x r
      else x :: y :: r
  end.

Fixpoint sort_by_timestamp (l : list Source) : list Source :=
  match l with
  | [] => []
  | x :: r => insert_by_timestamp x (sort_by_timestamp r)
  end.

(** The first of a list is the latest of it. *)
Definition latest_first (l : list Source) : Prop :=
  match l with
  | [] => True
  | r :: _ => forall x, In x l -> String.leb (timestamp x) (timestamp r) = true
  end.

(* ================================================================== *)
(** * The requests of the uploader *)

(** The listing request of [find_source_for_file]. *)
Definition list_sources_request (notebook_id : option string) : request :=
  {| meth := GET;
     url := Sources;
     payload :=
       JDict (if truthy (of_opt notebook_id)
              then [("notebook_id", of_opt notebook_id)] else []);
     attached := None |}.

(** The listing request is answered and accepted, and the normalizer reads
    these candidates from its body. *)
Definition listed `{B : Builtins} `{K : Backend}
    (w : world) (notebook_id : option string) (candidates : list Source) : Prop :=
  exists resp,
    server (sent w) (list_sources_request notebook_id) = Some resp /\
    resp_ok resp = true /\
    _normalize_sources (w_data (_wrap_response resp)) = Ok candidates.

(** The status request of [poll_source_status]. *)
Definition status_request (source_id : string) : request :=
  {| meth := GET; url := SourceStatus source_id; payload := JNull; attached := None |}.

(** A world with one more request sent. *)
Definition and_sent (rq : request) (w : world) : world :=
  {| sent := sent w ++ [rq]; clock_reads := clock_reads w; slept := slept w |}.

(** The answer to the status request number [k] (from 0) of a poll that
    starts in [w], and the time that has passed when the loop looks at the
    clock after it. *)
Definition poll_response `{K : Backend} (source_id : string) (w : world) (k : nat)
  : option response :=
  server (sent w ++ repeat (status_request source_id) k) (status_request source_id).

Definition poll_elapsed `{K : Backend} (w : world) (k : nat) : Z :=
  (clock (S (clock_reads w) + k) - clock (clock_reads w))%Z.

(** A status response that reports [completed] or [failed], with the result
    that the poll returns for it; and one after which the poll goes on. *)
Definition reports_terminal `{B : Builtins} (resp : response) (r : PollResult) : Prop :=
  poll_look (_wrap_response resp) = Ok (Some r).

Definition reports_nothing `{B : Builtins} (resp : response) : Prop :=
  poll_look (_wrap_response resp) = Ok None.

(** The first [n] status responses report nothing, each before the
    timeout has passed. *)
Definition keeps_polling `{B : Builtins} `{K : Backend}
    (source_id : string) (timeout : Z) (w : world) (n : nat) : Prop :=
  forall k, k < n ->
    exists resp,
      poll_response source_id w k = Some resp /\
      reports_nothing resp /\
      (poll_elapsed w k <= timeout)%Z.

(** The world after [n] turns of the loop that went on: the reading of the
    start time, and [n] requests, readings and sleeps. *)
Definition after_turns (source_id : string) (poll_interval : Z) (n : nat) (w : world)
  : world :=
  {| sent := sent w ++ repeat (status_request source_id) n;
     clock_reads := S (clock_reads w) + n;
     slept := slept w ++ repeat poll_interval n |}.

(** Inside the loop: the world when the loop starts, after the reading of
    the start time, and the world [n] turns later. *)
Definition started (w : world) : world :=
  {| sent := sent w; clock_reads := S (clock_reads w); slept := slept w |}.

Definition loop_turns (source_id : string) (poll_interval : Z) (n : nat) (w : world)
  : world :=
  {| sent := sent w ++ repeat (status_request source_id) n;
     clock_reads := clock_reads w + n;
     slept := slept w ++ repeat poll_interval n |}.

Definition loop_keeps `{B : Builtins} `{K : Backend}
    (source_id : string) (timeout start : Z) (w : world) (n : nat) : Prop :=
  forall k, k < n ->
    exists resp,
      server (sent w ++ repeat (status_request source_id) k) (status_request source_id)
      = Some resp /\
      reports_nothing resp /\
      (clock (clock_reads w + k) - start <= timeout)%Z.


(* ================================================================== *)
(** * Counting the requests of a method *)

(** An optional argument that is given: not [None], and not empty. *)
Definition supplied (o : option string) : bool := truthy (of_opt o).

(** [adds m u n c]: whatever the world and however it ends, [c] sends
    exactly [n] requests of method [m] to the endpoints [u]. *)
Definition adds (m : method) (u : endpoint -> bool) (n : nat) {A : Type} (c : IO A)
  : Prop :=
  forall w, count_requests m u (sent (snd (c w))) = count_requests m u (sent w) + n.

(** [adds_once m u c]: [c] sends one such request when it returns, and at
    most one when it raises. *)
Definition adds_once (m : method) (u : endpoint -> bool) {A : Type} (c : IO A) : Prop :=
  forall w,
    count_requests m u (sent (snd (c w))) <= count_requests m u (sent w) + 1 /\
    (forall a, fst (c w) = Ok a ->
               count_requests m u (sent (snd (c w))) = count_requests m u (sent w) + 1).

(* ================================================================== *)
(** * The event stream, in the words of the specification *)

(** The tag of an event is its [type], or else its [event]; the text it
    carries is its [content], or else its [data]. *)
Definition event_tag (ev : json) : json :=
  match ev with
  | JDict d => py_or (dict_get "type" d) (dict_get "event" d)
  | _ => JNull
  end.

Definition is_ai_message (ev : json) : bool := eq_str (event_tag ev) "ai_message".



(** The events of a stream, in the order of arrival: one per line that is
    not empty, decoded, or as a plain-text event when it does not decode. *)
Definition decoded_event `{B : Builtins} (raw_line : string) : list json :=
  if String.eqb raw_line "" then []
  else match json_loads (line_body raw_line) with
       | Some ev => [ev]
       | None => [text_event (line_body raw_line)]
       end.

Definition decoded_events `{B : Builtins} (lines : list string) : list json :=
  flat_map decoded_event lines.


(* ================================================================== *)
(** * Examples: an interpreter, a listing *)

Module Demo.

(** The records of a listing: a title with a numbered suffix, updated last;
    a stored path, updated before; a title in capitals, only created. *)
Definition records : list json :=
  [JDict [("id", JStr "source:1"); ("title", JStr "a (2).pdf");
          ("updated", JStr "2024-02-01")];
   JDict [("id", JStr "source:2"); ("asset", JDict [("file_path", JStr "/x/a.pdf")]);
          ("updated", JStr "2024-01-01")];
   JDict [("id", JStr "source:3"); ("title", JStr "A.PDF");
          ("created", JStr "2023-12-31")]].

Definition candidates : list Source :=
  match mapM _normalize_source_item records with
  | Ok l => l
  | Raise _ => []
  end.

(** A decoder that knows a few bodies by name, and a [<] that refuses
    whatever is not a pair of strings. *)
Definition loads (text : string) : option json :=
  if String.eqb text "completed" then Some (JDict [("status", JStr "completed")])
  else if String.eqb text "running" then Some (JDict [("status", JStr "running")])
  else if String.eqb text "listing" then Some (JList records)
  else if String.eqb text "created" then Some (JDict [("id", JStr "new:1")])
  else if String.eqb text "context" then Some (JDict [("context", JStr "text")])
  else if String.eqb text "messages" then
    Some (JDict [("messages", JList [JDict [("type", JStr "ai");
                                            ("content", JStr "done")]])])
  else if String.eqb text "partial" then
    Some (JDict [("type", JStr "ai_message"); ("content", JStr "partial-")])
  else if String.eqb text "answer" then
    Some (JDict [("event", JStr "ai_message"); ("data", JStr "answer")])
  else if String.eqb text "ping" then Some (JDict [("type", JStr "ping")])
  else None.

Definition builtins : Builtins :=
  {| json_loads := loads;
     json_dumps := fun _ => "";
     lt_other := fun _ _ => Raise TypeError |}.

Definition source (i t path c u : json) : Source :=
  {| id := i; title := t; asset_file_path := path; asset_url := JNull;
     embedded := JBool false; embedded_chunks := JNum 0; insights_count := JNum 0;
     created := c; updated := u; file_available := JNull; command_id := JNull;
     status := JNull; processing_info := JNull; raw := JNull |}.

(** A title with a numbered suffix, updated last; a stored path, updated
    first. *)
Definition by_title : Source :=
  source (JStr "source:1") (JStr "a (2).pdf") JNull JNull (JStr "2024-02-01").

Definition by_path : Source :=
  source (JStr "source:2") JNull (JStr "/x/a.pdf") JNull (JStr "2024-01-01").

Definition by_title_older : Source :=
  source (JStr "source:3") (JStr "A.PDF") JNull (JStr "2023-12-31") JNull.

Definition by_title_undated : Source :=
  source (JStr "source:4") (JStr "a.pdf") JNull JNull JNull.

(** A backend that lists the three records, reports [running] twice and then
    [completed], and answers every creation. *)
Definition answer (text : string) : response :=
  {| resp_status_code := 200; resp_ok := true; resp_text := text; resp_lines := [] |}.

Definition is_status_request (rq : request) : bool :=
  match meth rq, url rq with
  | GET, SourceStatus _ => true
  | _, _ => false
  end.

Definition serve (history : list request) (rq : request) : option response :=
  match meth rq, url rq with
  | GET, Sources => Some (answer "listing")
  | GET, SourceStatus _ =>
      Some (answer (if (2 <=? length (filter is_status_request history))%nat
                    then "completed" else "running"))
  | POST, Sources => Some (answer "created")
  | POST, Notebooks => Some (answer "created")
  | POST, NotebookSource _ _ => Some (answer "")
  | POST, ChatContext => Some (answer "context")
  | POST, ChatSessions => Some (answer "created")
  | POST, ChatExecute => Some (answer "messages")
  | POST, SourceChatSessions _ => Some (answer "created")
  | POST, SourceChatMessages _ _ =>
      Some {| resp_status_code := 200; resp_ok := true; resp_text := "";
              resp_lines := ["data: ping"; "data: partial"; "not json"; ""; "answer"] |}
  | _, _ => Some {| resp_status_code := 404; resp_ok := false;
                    resp_text := "not found"; resp_lines := [] |}
  end.

Definition backend : Backend :=
  {| server := serve;
     clock := fun n => Z.of_nat n;
     file_exists := fun _ => true |}.

(** The same backend with its listing refused: the body still lists the
    three records. *)
(** The same backend without its context endpoint. *)
Definition no_context : Backend :=
  {| server := fun history rq =>
       match meth rq, url rq with
       | POST, ChatContext =>
           Some {| resp_status_code := 500; resp_ok := false;
                   resp_text := "error"; resp_lines := [] |}
       | _, _ => serve history rq
       end;
     clock := fun n => Z.of_nat n;
     file_exists := fun _ => true |}.

Definition refusing : Backend :=
  {| server := fun history rq =>
       match meth rq, url rq with
       | GET, Sources =>
           Some {| resp_status_code := 503; resp_ok := false;
                   resp_text := "listing"; resp_lines := [] |}
       | _, _ => serve history rq
       end;
     clock := fun n => Z.of_nat n;
     file_exists := fun _ => true |}.

End Demo.

(* ================================================================== *)
(** * Application *)

(** [register_and_process_file] of the class [Application]: it uploads a
    local file or registers a file of the server, and wants one of the two
    paths. *)
Definition path_arg (o : option string) : string :=
  match o with
  | Some s => s
  | None => ""
  end.

Definition register_and_process_file `{B : Builtins} `{K : Backend}
    (local_path server_path title : option string) (notebooks : option (list json))
    (embed async_processing : bool) : IO UploadResult :=
  if supplied local_path && supplied server_path then raise ValueError
  else if supplied local_path then
    upload_file_and_process (path_arg local_path) title notebooks embed async_processing
  else if supplied server_path then
    reference_existing_file (path_arg server_path) title notebooks embed async_processing
  else raise ValueError.

(* ================================================================== *)
(** * The requests of the other methods *)

(** The creation request of [upload_file_and_process]: the form fields and
    the file. *)
Definition upload_request `{B : Builtins}
    (file_path : string) (title : option string) (notebooks : option (list json))
    (embed async_processing : bool) : request :=
  {| meth := POST;
     url := Sources;
     payload :=
       JDict ([("type", JStr "upload");
               ("title", JStr (opt_or title (PyStr.path_name file_path)));
               ("embed", bool_lower embed);
               ("async_processing", bool_lower async_processing)]
              ++ (if given_list notebooks
                  then [("notebooks",
                         JStr (json_dumps (JList (match notebooks with
                                                  | Some l => l
                                                  | None => []
                                                  end))))]
                  else []));
     attached := Some file_path |}.

(** The creation request of [reference_existing_file]: a JSON body that
    names the path on the server. *)
Definition reference_request
    (server_file_path : string) (title : option string) (notebooks : option (list json))
    (embed async_processing : bool) : request :=
  {| meth := POST;
     url := Sources;
     payload :=
       JDict ([("type", JStr "upload");
               ("title", JStr (opt_or title (PyStr.path_name server_file_path)));
               ("file_path", JStr server_file_path);
               ("embed", JBool embed);
               ("async_processing", JBool async_processing)]
              ++ (if given_list notebooks
                  then [("notebooks",
                         JList (match notebooks with Some l => l | None => [] end))]
                  else []));
     attached := None |}.

(** The request for the default models. *)
Definition defaults_request : request :=
  {| meth := GET; url := ModelsDefaults; payload := JNull; attached := None |}.

(** Where a request goes. *)
Definition route (rq : request) : method * endpoint := (meth rq, url rq).

Definition to_messages (u : endpoint) : bool :=
  match u with SourceChatMessages _ _ => true | _ => false end.

(** The records of the three lists. *)
Definition filed_in (m : Matches) (x : Source) : Prop :=
  In x (exact_matches m) \/ In x (basename_matches m) \/ In x (normalized_matches m).

(** A record that has a stored path or a title. *)
Definition named (s : Source) : bool :=
  truthy (asset_file_path s) || truthy (title s).

(** A line of the stream that is not empty. *)
Definition not_empty (line : string) : bool := negb (String.eqb line "").

(** The requests of the session-scoped [ask]: the creation of the session,
    and the message, which names the model of the session when there is
    one. *)
Definition session_request (source_id : string) (now : Z) (model : json) : request :=
  {| meth := POST;
     url := SourceChatSessions source_id;
     payload := JDict [("source_id", JStr source_id);
                       ("title", JStr ("query-" ++ PyStr.of_int now));
                       ("model_override", model)];
     attached := None |}.

Definition message_request (source_id : string) (session_id : json) (prompt : string)
    (model : json) : request :=
  {| meth := POST;
     url := SourceChatMessages source_id session_id;
     payload := JDict (("message", JStr prompt)
                       :: (if truthy model then [("model_override", model)] else []));
     attached := None |}.

(** The request of the [ask] without sources. *)
Definition simple_request (prompt : string) (strategy answer final : json) : request :=
  {| meth := POST;
     url := SearchAskSimple;
     payload := JDict [("question", JStr prompt); ("strategy_model", strategy);
                       ("answer_model", answer); ("final_answer_model", final)];
     attached := None |}.

(** A field of the body of a request. *)
Definition payload_field (k : string) (rq : request) : json :=
  match payload rq with
  | JDict d => dict_get k d
  | _ => JNull
  end.

(** What the stream loop keeps of an event tagged [ai_message]. *)
Definition chunk_of (ev : json) : json :=
  match ev with
  | JDict d => py_or (py_or (dict_get "content" d) (dict_get "data" d)) (JStr "")
  | _ => JNull
  end.

(* ================================================================== *)
(** * More examples: backends that fail *)

Module Cases.

Definition empty_listing : response :=
  {| resp_status_code := 200; resp_ok := true; resp_text := ""; resp_lines := [] |}.

Definition refusal : response :=
  {| resp_status_code := 422; resp_ok := false; resp_text := "unprocessable";
     resp_lines := [] |}.

(** Nothing is listed, and every other request is refused. *)
Definition refuses_creation : Backend :=
  {| server := fun _ rq =>
       match meth rq, url rq with
       | GET, Sources => Some empty_listing
       | _, _ => Some refusal
       end;
     clock := fun n => Z.of_nat n;
     file_exists := fun _ => true |}.

(** The backend of the examples, on a machine without the local file. *)
Definition no_local_file : Backend :=
  {| server := Demo.serve;
     clock := fun n => Z.of_nat n;
     file_exists := fun _ => false |}.

(** A listing that is accepted and is no JSON. *)
Definition html_listing : Backend :=
  {| server := fun _ _ =>
       Some {| resp_status_code := 200; resp_ok := true;
               resp_text := "<html>"; resp_lines := [] |};
     clock := fun n => Z.of_nat n;
     file_exists := fun _ => true |}.

(** A status endpoint that answers [running] once and is then out of
    reach. *)
Definition drops_connection : Backend :=
  {| server := fun history rq =>
       match history with
       | [] => Some (Demo.answer "running")
       | _ => None
       end;
     clock := fun n => Z.of_nat n;
     file_exists := fun _ => true |}.

(** A status endpoint that answers [running] once and then with a page that
    is no JSON. *)
Definition answers_html : Backend :=
  {| server := fun history rq =>
       match history with
       | [] => Some (Demo.answer "running")
       | _ => Some (Demo.answer "<html>")
       end;
     clock := fun n => Z.of_nat n;
     file_exists := fun _ => true |}.

(** The backend of the examples with [null] for default models. *)
Definition null_defaults : Backend :=
  {| server := fun history rq =>
       match meth rq, url rq with
       | GET, ModelsDefaults => Some (Demo.answer "null")
       | _, _ => Demo.serve history rq
       end;
     clock := fun n => Z.of_nat n;
     file_exists := fun _ => true |}.

(** The backend of the examples with default models and an answer to the
    plain question. *)
Definition with_models : Backend :=
  {| server := fun history rq =>
       match meth rq, url rq with
       | GET, ModelsDefaults => Some (Demo.answer "models")
       | POST, SearchAskSimple => Some (Demo.answer "messages")
       | _, _ => Demo.serve history rq
       end;
     clock := fun n => Z.of_nat n;
     file_exists := fun _ => true |}.

(** A decoder that also knows [null], the default models and a number. *)
Definition builtins : Builtins :=
  {| json_loads := fun text =>
       if String.eqb text "null" then Some JNull
       else if String.eqb text "models" then
         Some (JDict [("default_chat_model", JStr "model:chat");
                      ("default_transformation_model", JStr "model:transform")])
       else if String.eqb text "7" then Some (JNum 7)
       else Demo.loads text;
     json_dumps := fun _ => "";
     lt_other := fun _ _ => Raise TypeError |}.

End Cases.

(* ================================================================== *)
(* ================================================================== *)
(** * Properties *)

(** ** Strings *)

Module PyStrFacts.
Import PyStr.

Lemma append_nil_r (s : string) : (s ++ "")%string = s.
Proof. induction s as [|c s IH]; simpl; congruence. Qed.

Lemma append_assoc (a b c : string) :
  ((a ++ b) ++ c)%string = (a ++ (b ++ c))%string.
Proof. induction a as [|x a IH]; simpl; congruence. Qed.


(** Every fact about one character is settled by running through the
    256 characters. *)
Ltac by_cases_on_char c :=
  destruct c as [[] [] [] [] [] [] [] []]; vm_compute; try reflexivity; try congruence;
  try (intros; congruence); try tauto.


Lemma eqb_lower_slash (c : ascii) : Ascii.eqb (lower_char c) "/" = Ascii.eqb c "/".
Proof. by_cases_on_char c. Qed.


Lemma contains_lower_slash (s : string) : contains "/" (lower s) = contains "/" s.
Proof.
  induction s as [|c s IH]; simpl; [reflexivity|].
  now rewrite eqb_lower_slash, IH.
Qed.



Lemma contains_append (c : ascii) (a b : string) :
  contains c (a ++ b) = contains c a || contains c b.
Proof.
  induction a as [|x a IH]; simpl; [reflexivity|].
  now rewrite IH, orb_assoc.
Qed.




(** *** [strip] *)

Lemma rstrip_empty (s : string) : rstrip s = "" <-> all_space s = true.
Proof.
  induction s as [|c s IH]; simpl; [tauto|].
  destruct (rstrip s) eqn:E.
  - assert (Hs : all_space s = true) by (apply IH; reflexivity).
    rewrite Hs, andb_true_r. destruct (is_space c); split; congruence.
  - assert (Hs : all_space s = false).
    { destruct (all_space s); [|reflexivity].
      assert (String a s0 = "") by (apply IH; reflexivity). discriminate. }
    rewrite Hs, andb_false_r. split; discriminate.
Qed.

Lemma rstrip_cons (c : ascii) (s : string) :
  rstrip (String c s) =
  if all_space (String c s) then "" else String c (rstrip s).
Proof.
  simpl. destruct (rstrip s) eqn:E.
  - assert (Hs : all_space s = true) by (apply rstrip_empty; exact E).
    rewrite Hs, andb_true_r. reflexivity.
  - assert (Hs : all_space s = false).
    { destruct (all_space s) eqn:A; [|reflexivity].
      apply rstrip_empty in A. congruence. }
    rewrite Hs, andb_false_r. reflexivity.
Qed.

Lemma all_space_rstrip (s : string) : all_space (rstrip s) = all_space s.
Proof.
  induction s as [|c s IH]; [reflexivity|].
  rewrite rstrip_cons. destruct (all_space (String c s)) eqn:E; [reflexivity|].
  simpl. rewrite IH. exact E.
Qed.

Lemma rstrip_idem (s : string) : rstrip (rstrip s) = rstrip s.
Proof.
  induction s as [|c s IH]; [reflexivity|].
  rewrite rstrip_cons. destruct (all_space (String c s)) eqn:E; [reflexivity|].
  rewrite rstrip_cons. simpl. rewrite all_space_rstrip.
  simpl in E. rewrite E, IH. reflexivity.
Qed.

Lemma lstrip_all_space (s : string) : all_space s = true -> lstrip s = "".
Proof.
  induction s as [|c s IH]; simpl; [reflexivity|].
  intros H. apply andb_true_iff in H as [Hc Hs]. rewrite Hc. auto.
Qed.

Lemma lstrip_rstrip (s : string) : lstrip (rstrip s) = rstrip (lstrip s).
Proof.
  induction s as [|c s IH]; [reflexivity|].
  rewrite rstrip_cons. destruct (all_space (String c s)) eqn:E.
  - rewrite (lstrip_all_space _ E). reflexivity.
  - simpl. destruct (is_space c) eqn:Hc; [exact IH|].
    rewrite rstrip_cons, E. reflexivity.
Qed.

Lemma strip_rstrip (s : string) : strip (rstrip s) = strip s.
Proof. unfold strip. now rewrite lstrip_rstrip, rstrip_idem. Qed.





(** *** [Path(s).name] *)

Lemma split_on_not_nil (sep : ascii) (s : string) : split_on sep s <> [].
Proof.
  induction s as [|c s IH]; simpl; [discriminate|].
  destruct (Ascii.eqb c sep); [discriminate|].
  destruct (split_on sep s); discriminate.
Qed.

Lemma split_on_absent (sep : ascii) (s : string) :
  contains sep s = false -> split_on sep s = [s].
Proof.
  induction s as [|c s IH]; simpl; [reflexivity|].
  intros H. apply orb_false_iff in H as [Hc Hs].
  rewrite Hc, (IH Hs). reflexivity.
Qed.

Lemma split_on_sep (sep : ascii) (a b : string) :
  split_on sep (a ++ String sep b) = split_on sep a ++ split_on sep b.
Proof.
  induction a as [|c a IH]; simpl.
  - now rewrite Ascii.eqb_refl.
  - destruct (Ascii.eqb c sep); [now rewrite IH|].
    rewrite IH. destruct (split_on sep a) eqn:E; [|reflexivity].
    now apply split_on_not_nil in E.
Qed.

Lemma last_snoc {A : Type} (l : list A) (x d : A) : last (l ++ [x]) d = x.
Proof.
  induction l as [|y l IH]; [reflexivity|].
  simpl. destruct (l ++ [x]) eqn:E; [|exact IH].
  now destruct l.
Qed.

(** The name of a path is its last component, when that is a name. *)
Lemma path_name_under (d base : string) :
  dir_prefix d -> contains "/" base = false -> path_part base = true ->
  path_name (d ++ base) = base.
Proof.
  intros [-> | [d' ->]] Hb Hp; unfold path_name.
  - simpl. rewrite (split_on_absent _ _ Hb). simpl. now rewrite Hp.
  - rewrite append_assoc. simpl.
    rewrite split_on_sep, (split_on_absent _ _ Hb), filter_app. simpl.
    rewrite Hp. apply last_snoc.
Qed.


(** *** [rsplit] *)



(** *** The numbered suffix *)

Lemma sub_numbered_suffix_eq (s : string) :
  sub_numbered_suffix s =
  if suffix_here s then ""
  else match s with
       | EmptyString => ""
       | String c t => String c (sub_numbered_suffix t)
       end.
Proof. destruct s; reflexivity. Qed.








End PyStrFacts.

(** ** The matcher's file-name normalization *)

Section NormalizeFilename.
Import PyStr PyStrFacts.






End NormalizeFilename.

(** ** The response normalizer *)

Lemma mapM_item_total (l : list json) :
  forallb is_dict l = true ->
  exists r, mapM _normalize_source_item l = Ok r /\ length r = length l.
Proof.
  induction l as [|v l IH]; simpl; intros H.
  - now exists [].
  - apply andb_true_iff in H as [Hv Hl].
    destruct (IH Hl) as [r [Hr Hlen]].
    destruct v; try discriminate. simpl. rewrite Hr. simpl.
    eexists. split; [reflexivity|]. simpl. now rewrite Hlen.
Qed.

(** C6 (as amended).  A payload with a field [results] that is a sequence is
    normalized as that sequence, whatever else it holds; a dict without such
    a field whose [id] or [title] is true is normalized as the one-element
    list that holds it. *)
Theorem _normalize_sources_shapes (d : list (string * json)) (l : list json) :
  (results_list d = Some l ->
   _normalize_sources (JDict d) = _normalize_sources (JList l)) /\
  (results_list d = None -> names_a_source d = true ->
   _normalize_sources (JDict d) = _normalize_sources (JList [JDict d])).
Proof.
  unfold results_list, names_a_source. split.
  - intros H. simpl.
    destruct (lookup "results" d) as [[]|]; try discriminate.
    now injection H as ->.
  - intros H T. cbn [_normalize_sources]. rewrite T.
    destruct (lookup "results" d) as [[]|]; try discriminate;
      cbn [mapM]; destruct (_normalize_source_item (JDict d)); reflexivity.
Qed.

Lemma _normalize_sources_shapes_witness :
  _normalize_sources
    (JDict [("results", JList [JDict [("id", JStr "source:1")];
                               JDict [("title", JStr "b.pdf")]])]) =
  _normalize_sources (JList [JDict [("id", JStr "source:1")];
                             JDict [("title", JStr "b.pdf")]])
  /\
  _normalize_sources (JDict [("id", JStr "source:1"); ("title", JStr "a.pdf")]) =
  _normalize_sources (JList [JDict [("id", JStr "source:1"); ("title", JStr "a.pdf")]]).
Proof.
  split.
  - exact (proj1 (_normalize_sources_shapes
                    [("results", JList [JDict [("id", JStr "source:1")];
                                        JDict [("title", JStr "b.pdf")]])]
                    [JDict [("id", JStr "source:1")]; JDict [("title", JStr "b.pdf")]])
                 eq_refl).
  - exact (proj2 (_normalize_sources_shapes
                    [("id", JStr "source:1"); ("title", JStr "a.pdf")] [])
                 eq_refl eq_refl).
Defined.

(** C6 (as stated) fails: the field [results] is looked at before [id] and
    [title], so a dict with an [id] and a [results] list is not wrapped; and
    a dict whose only [title] is empty is not wrapped either. *)
Lemma _normalize_sources_results_first :
  _normalize_sources (JDict [("id", JStr "source:1"); ("results", JList [])]) = Ok []
  /\
  _normalize_sources (JDict [("id", JStr "source:1"); ("results", JList [])]) <>
  _normalize_sources (JList [JDict [("id", JStr "source:1"); ("results", JList [])]])
  /\
  _normalize_sources (JDict [("title", JStr "")]) = Ok []
  /\
  _normalize_sources (JDict [("title", JStr "")]) <>
  _normalize_sources (JList [JDict [("title", JStr "")]]).
Proof.
  repeat split; try reflexivity; vm_compute; discriminate.
Qed.

(** C7.  A sequence with an element that is no dict makes the normalizer
    raise, directly or under [results]. *)
Theorem _normalize_sources_raises :
  _normalize_sources (JList [JNum 1]) = Raise AttributeError /\
  _normalize_sources (JDict [("results", JList [JStr "a.pdf"])]) = Raise AttributeError /\
  _normalize_sources
    (JDict [("items", JList [JDict [("id", JStr "source:1")]; JNull])]) =
  Raise AttributeError.
Proof. repeat split. Qed.

(** Where the normalizer does return: on a payload whose sequences hold
    dicts only. *)
Lemma _normalize_sources_returns (data : json) :
  match data with
  | JList l => forallb is_dict l = true
  | JDict d =>
      match results_list d with
      | Some l => forallb is_dict l = true
      | None =>
          names_a_source d = true \/
          forall v, find nested_source_list (dict_values d) = Some (JList v) ->
                    forallb is_dict v = true
      end
  | _ => True
  end ->
  exists r, _normalize_sources data = Ok r.
Proof.
  destruct data as [| | | |l|d]; simpl; try (intros _; eexists; reflexivity).
  - intros H. destruct (mapM_item_total l H) as [r [Hr _]]. eauto.
  - unfold results_list, names_a_source.
    destruct (lookup "results" d) as [[]|] eqn:E;
      try (intros [T | F];
           [ rewrite T; eexists; reflexivity
           | destruct (truthy _); [eexists; reflexivity|];
             destruct (find _ _) as [[]|]; try (eexists; reflexivity);
             destruct (mapM_item_total _ (F _ eq_refl)) as [r [Hr _]]; eauto ]).
    intros H. destruct (mapM_item_total _ H) as [r [Hr _]]. eauto.
Qed.

(** ** The order of the timestamps *)

Lemma ltb_leb (a b : string) : String.ltb a b = true -> String.leb a b = true.
Proof.
  unfold String.ltb, String.leb. now destruct (String.compare a b).
Qed.

Lemma not_ltb_leb (a b : string) : String.ltb a b = false -> String.leb b a = true.
Proof.
  unfold String.ltb, String.leb. rewrite (String.compare_antisym a b).
  now destruct (String.compare b a).
Qed.

Lemma leb_cases (a b : string) :
  String.leb a b = true <-> a = b \/ OrderedTypeEx.String_as_OT.lt a b.
Proof.
  unfold String.leb. split.
  - destruct (String.compare a b) eqn:E; intros H; try discriminate.
    + left. now apply OrderedTypeEx.String_as_OT.cmp_eq.
    + right. now apply OrderedTypeEx.String_as_OT.cmp_lt.
  - intros [-> | L].
    + assert (E : String.compare b b = Eq)
        by now apply OrderedTypeEx.String_as_OT.cmp_eq.
      now rewrite E.
    + apply OrderedTypeEx.String_as_OT.cmp_lt in L.
      unfold OrderedTypeEx.String_as_OT.cmp in L. now rewrite L.
Qed.

Lemma leb_refl (a : string) : String.leb a a = true.
Proof. apply leb_cases. now left. Qed.

Lemma leb_trans (a b c : string) :
  String.leb a b = true -> String.leb b c = true -> String.leb a c = true.
Proof.
  rewrite !leb_cases. intros [-> | L1] [-> | L2]; auto.
  right. eapply OrderedTypeEx.String_as_OT.lt_trans; eassumption.
Qed.

Lemma leb_empty (a : string) : String.leb "" a = true.
Proof. now destruct a. Qed.

Lemma leb_empty_inv (a : string) : String.leb a "" = true -> a = "".
Proof. now destruct a. Qed.

(** ** Sorting by timestamp *)

Lemma insert_by_timestamp_In (x z : Source) (l : list Source) :
  In z (insert_by_timestamp x l) <-> z = x \/ In z l.
Proof.
  induction l as [|y r IH]; simpl.
  - intuition.
  - destruct (String.ltb (timestamp x) (timestamp y)); simpl; [rewrite IH|]; intuition.
Qed.

Lemma sort_by_timestamp_In (z : Source) (l : list Source) :
  In z (sort_by_timestamp l) <-> In z l.
Proof.
  induction l as [|x r IH]; simpl; [tauto|].
  rewrite insert_by_timestamp_In, IH. intuition.
Qed.

Lemma insert_by_timestamp_latest (x : Source) (l : list Source) :
  latest_first l -> latest_first (insert_by_timestamp x l).
Proof.
  destruct l as [|y r]; simpl.
  - intros _ z [<- | []]. apply leb_refl.
  - intros H. destruct (String.ltb (timestamp x) (timestamp y)) eqn:E; simpl.
    + intros z [<- | Hz]; [apply leb_refl|].
      apply insert_by_timestamp_In in Hz as [-> | Hz]; [now apply ltb_leb | auto].
    + apply not_ltb_leb in E.
      intros z [<- | [<- | Hz]]; [apply leb_refl | exact E |].
      eapply leb_trans; [apply H; now right | exact E].
Qed.

Lemma sort_by_timestamp_latest (l : list Source) : latest_first (sort_by_timestamp l).
Proof.
  induction l as [|x r IH]; simpl; [exact I|].
  now apply insert_by_timestamp_latest.
Qed.

Lemma sort_by_timestamp_head (l : list Source) :
  l <> [] ->
  exists r rest,
    sort_by_timestamp l = r :: rest /\ In r l /\
    forall x, In x l -> String.leb (timestamp x) (timestamp r) = true.
Proof.
  intros Hl. destruct (sort_by_timestamp l) as [|r rest] eqn:E.
  - destruct l as [|x l]; [congruence|].
    assert (H : In x (sort_by_timestamp (x :: l)))
      by (apply sort_by_timestamp_In; now left).
    rewrite E in H. destruct H.
  - exists r, rest. split; [reflexivity|]. split.
    + apply sort_by_timestamp_In. rewrite E. now left.
    + intros x Hx. pose proof (sort_by_timestamp_latest l) as L.
      rewrite E in L. apply L. rewrite <- E. now apply sort_by_timestamp_In.
Qed.

(** ** The document matcher *)

Section Matcher.
Context `{B : Builtins}.

Lemma str_or_null_cases (v : json) :
  str_or_null v = true -> v = JNull \/ exists t, v = JStr t.
Proof. destruct v; simpl; try discriminate; eauto. Qed.

(** On a typed record the sort key is the timestamp. *)
Lemma sort_key_typed (s : Source) :
  well_typed s = true -> sort_key s = JStr (timestamp s).
Proof.
  unfold well_typed, sort_key, timestamp, has_text.
  intros W. apply andb_true_iff in W as [W Hc]. apply andb_true_iff in W as [_ Hu].
  destruct (str_or_null_cases _ Hu) as [-> | [u ->]];
    destruct (str_or_null_cases _ Hc) as [-> | [c ->]];
    unfold py_or; cbn;
    repeat match goal with
      | |- context [String.eqb ?a ""] => destruct (String.eqb_spec a ""); subst; cbn
      end; congruence.
Qed.

(** One turn of the loop files a typed candidate under the first tier it
    falls into. *)
Lemma match_step_typed (target : string) (s : Source) (m : Matches) :
  well_typed s = true ->
  match_step target s m =
  Ok (if exact_tier target s then add_exact s m
      else if basename_tier target s then add_basename s m
      else if normalized_tier target s then add_normalized s m
      else m).
Proof.
  unfold well_typed. intros W.
  apply andb_true_iff in W as [W _]. apply andb_true_iff in W as [W _].
  apply andb_true_iff in W as [Hp Ht].
  unfold match_step, exact_tier, basename_tier, normalized_tier, has_text.
  destruct (str_or_null_cases _ Hp) as [-> | [p ->]];
    destruct (str_or_null_cases _ Ht) as [-> | [t ->]];
    unfold py_or; cbn -[String.eqb normalize_filename PyStr.lower PyStr.path_name];
    rewrite ?String.eqb_refl;
    cbn -[String.eqb normalize_filename PyStr.lower PyStr.path_name];
    repeat match goal with
      | |- context [String.eqb ?a ""] =>
          destruct (String.eqb_spec a ""); subst;
          cbn -[String.eqb normalize_filename PyStr.lower PyStr.path_name]
      end;
    repeat match goal with
      | |- context [String.eqb ?a ?b] =>
          destruct (String.eqb a b);
          cbn -[String.eqb normalize_filename PyStr.lower PyStr.path_name]
      end; try reflexivity; congruence.
Qed.

Lemma match_loop_typed (target : string) (candidates : list Source) (m : Matches) :
  forallb well_typed candidates = true ->
  match_loop target candidates m = Ok (filed target candidates m).
Proof.
  revert m. induction candidates as [|s rest IH]; intros m W.
  - unfold filed. simpl. rewrite !app_nil_r. now destruct m.
  - simpl in W. apply andb_true_iff in W as [Ws Wr].
    cbn [match_loop]. rewrite (match_step_typed target s m Ws). cbn [rbind].
    rewrite (IH _ Wr). f_equal. unfold filed. cbn [filter].
    destruct (exact_tier target s); [|destruct (basename_tier target s);
      [|destruct (normalized_tier target s)]]; simpl;
      rewrite <- ?app_assoc; reflexivity.
Qed.

Lemma filter_none {A : Type} (f : A -> bool) (l : list A) :
  filter f l = [] -> forall x, In x l -> f x = false.
Proof.
  induction l as [|y l IH]; simpl; [tauto|].
  destruct (f y) eqn:E; [discriminate|].
  intros F x [<- | Hx]; auto.
Qed.

(** The list that the matcher sorts is the highest tier that is not empty. *)
Lemma results_best_tier (target : string) (candidates : list Source) :
  let m := filed target candidates no_matches in
  list_or (exact_matches m)
    (list_or (basename_matches m) (list_or (normalized_matches m) []))
  = best_tier target candidates.
Proof.
  unfold filed, best_tier. simpl.
  destruct (filter (exact_tier target) candidates) as [|e le] eqn:E; [|reflexivity].
  pose proof (filter_none _ _ E) as NE. simpl.
  assert (Fb : filter (fun s => negb (exact_tier target s) && basename_tier target s)
                candidates = filter (basename_tier target) candidates).
  { apply filter_ext_in. intros x Hx. now rewrite (NE x Hx). }
  rewrite Fb.
  destruct (filter (basename_tier target) candidates) as [|b lb] eqn:EB; [|reflexivity].
  pose proof (filter_none _ _ EB) as NB. simpl.
  assert (N : filter (fun s => negb (exact_tier target s)
                               && negb (basename_tier target s)
                               && normalized_tier target s) candidates
              = filter (normalized_tier target) candidates).
  { apply filter_ext_in. intros x Hx. now rewrite (NE x Hx), (NB x Hx). }
  rewrite N. now destruct (filter (normalized_tier target) candidates).
Qed.

(** On typed records the sort is the sort by timestamp. *)
Lemma insert_desc_typed (x : Source) (l : list Source) :
  well_typed x = true -> forallb well_typed l = true ->
  insert_desc x l = Ok (insert_by_timestamp x l).
Proof.
  intros Wx. induction l as [|y r IH]; simpl; [reflexivity|].
  intros W. apply andb_true_iff in W as [Wy Wr].
  rewrite (sort_key_typed x Wx), (sort_key_typed y Wy). simpl.
  destruct (String.ltb (timestamp x) (timestamp y)); [|reflexivity].
  now rewrite (IH Wr).
Qed.

Lemma insert_by_timestamp_typed (x : Source) (l : list Source) :
  well_typed x = true -> forallb well_typed l = true ->
  forallb well_typed (insert_by_timestamp x l) = true.
Proof.
  intros Wx W. apply forallb_forall. intros z Hz.
  apply insert_by_timestamp_In in Hz as [-> | Hz]; [exact Wx|].
  now apply (proj1 (forallb_forall _ _) W).
Qed.

Lemma sort_desc_typed (l : list Source) :
  forallb well_typed l = true ->
  sort_desc l = Ok (sort_by_timestamp l) /\
  forallb well_typed (sort_by_timestamp l) = true.
Proof.
  induction l as [|x r IH]; simpl; [auto|].
  intros W. apply andb_true_iff in W as [Wx Wr].
  destruct (IH Wr) as [E T]. rewrite E. simpl. split.
  - now apply insert_desc_typed.
  - now apply insert_by_timestamp_typed.
Qed.

Lemma best_tier_incl (target : string) (candidates : list Source) (x : Source) :
  In x (best_tier target candidates) -> In x candidates.
Proof.
  unfold best_tier.
  destruct (filter (exact_tier target) candidates) eqn:E1;
    [destruct (filter (basename_tier target) candidates) eqn:E2|];
    rewrite <- ?E1, <- ?E2; intros Hx; apply filter_In in Hx; tauto.
Qed.

Lemma best_tier_typed (target : string) (candidates : list Source) :
  forallb well_typed candidates = true ->
  forallb well_typed (best_tier target candidates) = true.
Proof.
  intros W. apply forallb_forall. intros x Hx.
  apply (proj1 (forallb_forall _ _) W). eapply best_tier_incl; eassumption.
Qed.

(** What the matcher returns on typed records: nothing when no candidate
    falls into a tier, else the first of the best tier sorted by timestamp. *)
Lemma find_best_match_typed (target : string) (candidates : list Source) :
  forallb well_typed candidates = true ->
  find_best_match target candidates =
  Ok (match sort_by_timestamp (best_tier target candidates) with
      | [] => None
      | r :: _ => Some r
      end).
Proof.
  intros W. unfold find_best_match.
  rewrite (match_loop_typed target candidates no_matches W). cbn [rbind].
  rewrite (results_best_tier target candidates).
  destruct (best_tier target candidates) as [|b l] eqn:E; [reflexivity|].
  destruct (sort_desc_typed (b :: l)) as [S _].
  { rewrite <- E. now apply best_tier_typed. }
  rewrite S. cbn [rbind].
  destruct (sort_by_timestamp (b :: l)) eqn:F; [|reflexivity].
  destruct (sort_by_timestamp_head (b :: l)) as [r [rest [F' _]]]; congruence.
Qed.

(** On typed records the choice is a candidate of the highest tier that some
    candidate falls into, and [None] when there is no such tier. *)
Lemma find_best_match_highest_tier (target : string) (candidates : list Source) :
  forallb well_typed candidates = true ->
  (existsb (exact_tier target) candidates = true ->
   exists r, find_best_match target candidates = Ok (Some r) /\
             In r candidates /\ exact_tier target r = true) /\
  (existsb (exact_tier target) candidates = false ->
   existsb (basename_tier target) candidates = true ->
   exists r, find_best_match target candidates = Ok (Some r) /\
             In r candidates /\ basename_tier target r = true) /\
  (existsb (exact_tier target) candidates = false ->
   existsb (basename_tier target) candidates = false ->
   existsb (normalized_tier target) candidates = true ->
   exists r, find_best_match target candidates = Ok (Some r) /\
             In r candidates /\ normalized_tier target r = true) /\
  (existsb (exact_tier target) candidates = false ->
   existsb (basename_tier target) candidates = false ->
   existsb (normalized_tier target) candidates = false ->
   find_best_match target candidates = Ok None).
Proof.
  intros W. rewrite (find_best_match_typed target candidates W).
  assert (Some_tier : forall f,
             existsb f candidates = true -> best_tier target candidates = filter f candidates ->
             exists r, Ok (match sort_by_timestamp (best_tier target candidates) with
                           | [] => None
                           | r :: _ => Some r
                           end) = Ok (Some r) /\
                       In r candidates /\ f r = true).
  { intros f Ex Eq.
    assert (Hne : best_tier target candidates <> []).
    { rewrite Eq. apply existsb_exists in Ex as [x [Hx Fx]].
      intros E. assert (Hin : In x (filter f candidates)) by (apply filter_In; auto).
      rewrite E in Hin. destruct Hin. }
    destruct (sort_by_timestamp_head _ Hne) as [r [rest [S [Hr _]]]].
    exists r. rewrite S. split; [reflexivity|].
    rewrite Eq in Hr. apply filter_In in Hr. exact Hr. }
  assert (None_of : forall f, existsb f candidates = false -> filter f candidates = []).
  { intros f Ex. destruct (filter f candidates) as [|x l] eqn:E; [reflexivity|].
    assert (Hin : In x (filter f candidates)) by (rewrite E; now left).
    apply filter_In in Hin as [Hx Fx].
    assert (existsb f candidates = true) by (apply existsb_exists; eauto).
    congruence. }
  assert (Some_of : forall f, existsb f candidates = true -> filter f candidates <> []).
  { intros f Ex E. apply existsb_exists in Ex as [x [Hx Fx]].
    assert (Hin : In x (filter f candidates)) by (apply filter_In; auto).
    rewrite E in Hin. destruct Hin. }
  repeat split.
  - intros E1. apply Some_tier; [exact E1|].
    unfold best_tier. pose proof (Some_of _ E1).
    now destruct (filter (exact_tier target) candidates).
  - intros E1 E2. apply Some_tier; [exact E2|].
    unfold best_tier. rewrite (None_of _ E1). pose proof (Some_of _ E2).
    now destruct (filter (basename_tier target) candidates).
  - intros E1 E2 E3. apply Some_tier; [exact E3|].
    unfold best_tier. now rewrite (None_of _ E1), (None_of _ E2).
  - intros E1 E2 E3. unfold best_tier.
    now rewrite (None_of _ E1), (None_of _ E2), (None_of _ E3).
Qed.

(** On typed records the choice has the greatest timestamp of its tier. *)
Lemma find_best_match_latest (target : string) (candidates : list Source) :
  forallb well_typed candidates = true ->
  best_tier target candidates <> [] ->
  exists r,
    find_best_match target candidates = Ok (Some r) /\
    In r (best_tier target candidates) /\
    sort_key r = JStr (timestamp r) /\
    (forall x, In x (best_tier target candidates) ->
               sort_key x = JStr (timestamp x) /\
               String.leb (timestamp x) (timestamp r) = true) /\
    (timestamp r = "" ->
     forall x, In x (best_tier target candidates) -> timestamp x = "").
Proof.
  intros W Hne. rewrite (find_best_match_typed target candidates W).
  destruct (sort_by_timestamp_head _ Hne) as [r [rest [S [Hr Hmax]]]].
  pose proof (best_tier_typed target candidates W) as WT.
  pose proof (proj1 (forallb_forall _ _) WT) as Wt.
  exists r. rewrite S. repeat split; auto.
  - apply sort_key_typed. auto.
  - apply sort_key_typed. auto.
  - intros E x Hx. apply leb_empty_inv. rewrite <- E. auto.
Qed.

End Matcher.

Section MatcherExamples.
#[local] Existing Instance Demo.builtins.

(** The listing of the specification: the record matched by its path wins
    over the record matched by its normalized title, though it comes second
    and was updated first. *)
Example find_best_match_path_over_title :
  forallb well_typed [Demo.by_title; Demo.by_path] = true /\
  existsb (exact_tier "a.pdf") [Demo.by_title; Demo.by_path] = false /\
  existsb (basename_tier "a.pdf") [Demo.by_title; Demo.by_path] = true /\
  exists r,
    find_best_match "a.pdf" [Demo.by_title; Demo.by_path] = Ok (Some r) /\
    In r [Demo.by_title; Demo.by_path] /\ basename_tier "a.pdf" r = true.
Proof.
  split; [reflexivity | split; [reflexivity | split; [reflexivity|]]].
  exact (proj1 (proj2 (find_best_match_highest_tier (B := Demo.builtins) "a.pdf"
                         [Demo.by_title; Demo.by_path] eq_refl))
           eq_refl eq_refl).
Defined.

(** Three titles that are the target up to case: the one updated last is
    returned, before the one that was only created and the undated one. *)
Example find_best_match_latest_of_three :
  forallb well_typed
    [Demo.by_title_undated; Demo.by_title_older;
     Demo.source (JStr "source:5") (JStr "a.pdf") JNull JNull (JStr "2024-03-01")] = true /\
  exists r,
    find_best_match "a.pdf"
      [Demo.by_title_undated; Demo.by_title_older;
       Demo.source (JStr "source:5") (JStr "a.pdf") JNull JNull (JStr "2024-03-01")]
    = Ok (Some r) /\
    In r (best_tier "a.pdf"
            [Demo.by_title_undated; Demo.by_title_older;
             Demo.source (JStr "source:5") (JStr "a.pdf") JNull JNull (JStr "2024-03-01")]) /\
    sort_key r = JStr (timestamp r) /\
    (forall x,
        In x (best_tier "a.pdf"
                [Demo.by_title_undated; Demo.by_title_older;
                 Demo.source (JStr "source:5") (JStr "a.pdf") JNull JNull
                   (JStr "2024-03-01")]) ->
        sort_key x = JStr (timestamp x) /\
        String.leb (timestamp x) (timestamp r) = true) /\
    (timestamp r = "" ->
     forall x,
       In x (best_tier "a.pdf"
               [Demo.by_title_undated; Demo.by_title_older;
                Demo.source (JStr "source:5") (JStr "a.pdf") JNull JNull
                  (JStr "2024-03-01")]) ->
       timestamp x = "").
Proof.
  split; [reflexivity|].
  apply (find_best_match_latest (B := Demo.builtins) "a.pdf"
           [Demo.by_title_undated; Demo.by_title_older;
            Demo.source (JStr "source:5") (JStr "a.pdf") JNull JNull (JStr "2024-03-01")]).
  - reflexivity.
  - vm_compute. discriminate.
Defined.

(** The matcher run on the two listings. *)
Example find_best_match_by_path :
  find_best_match "a.pdf" [Demo.by_title; Demo.by_path]
  = Ok (Some Demo.by_path).
Proof. reflexivity. Qed.

Example find_best_match_by_title_only :
  find_best_match "a.pdf" [Demo.by_title] = Ok (Some Demo.by_title).
Proof. reflexivity. Qed.

Example find_best_match_updated_last :
  find_best_match "a.pdf"
    [Demo.by_title_undated; Demo.by_title_older;
     Demo.source (JStr "source:5") (JStr "a.pdf") JNull JNull (JStr "2024-03-01")]
  = Ok (Some (Demo.source (JStr "source:5") (JStr "a.pdf") JNull JNull
                (JStr "2024-03-01"))).
Proof. reflexivity. Qed.

(** Outside the typed records the matcher may raise: a title that is a
    number has no [lower]. *)
Example find_best_match_untyped_title :
  find_best_match "a.pdf"
    [Demo.source (JStr "source:6") (JNum 7) JNull JNull JNull]
  = Raise AttributeError.
Proof. reflexivity. Qed.

End MatcherExamples.

(** ** The uploader *)

Section Uploader.
Context `{B : Builtins} `{K : Backend}.

Lemma count_requests_app (m : method) (u : endpoint -> bool) (a b : list request) :
  count_requests m u (a ++ b) = count_requests m u a + count_requests m u b.
Proof. unfold count_requests. now rewrite filter_app, length_app. Qed.

(** [find_source_for_file] sends the listing request, and nothing else. *)
Lemma find_source_for_file_sent (filename : string) (notebook_id : option string)
    (w : world) :
  snd (find_source_for_file filename notebook_id w)
  = and_sent (list_sources_request notebook_id) w.
Proof.
  unfold find_source_for_file, requests_get, bind, send, lift, ret.
  fold (list_sources_request notebook_id).
  destruct (server (sent w) (list_sources_request notebook_id)) as [resp|];
    [|reflexivity].
  destruct (negb (w_ok (_wrap_response resp))); [reflexivity|].
  destruct (_normalize_sources (w_data (_wrap_response resp))); reflexivity.
Qed.

(** With a listing that the server answers and the normalizer reads, the
    method returns what the matcher chooses among its records. *)
Lemma find_source_for_file_listing (filename : string) (notebook_id : option string)
    (w : world) (resp : response) (candidates : list Source) :
  server (sent w) (list_sources_request notebook_id) = Some resp ->
  resp_ok resp = true ->
  _normalize_sources (w_data (_wrap_response resp)) = Ok candidates ->
  find_source_for_file filename notebook_id w
  = (find_best_match filename candidates,
     and_sent (list_sources_request notebook_id) w).
Proof.
  intros Hs Ho Hn.
  unfold find_source_for_file, requests_get, bind, send, lift, ret.
  fold (list_sources_request notebook_id). rewrite Hs. cbn [w_ok _wrap_response].
  rewrite Ho. cbn [negb]. rewrite Hn. reflexivity.
Qed.

(** C1.  For every target and every listing of document records that the
    server returns, [find_source_for_file] returns a candidate of the highest
    tier that some candidate falls into: of the exact tier when there is an
    exact match, else of the basename tier when there is a basename or title
    match, else of the normalized tier; wherever that candidate stands in
    the listing and whatever the timestamps.  When no candidate falls into a
    tier it returns [None], and raises nothing. *)
Theorem find_source_for_file_highest_tier
    (target : string) (notebook_id : option string) (w : world)
    (candidates : list Source) :
  listed w notebook_id candidates ->
  forallb well_typed candidates = true ->
  (existsb (exact_tier target) candidates = true ->
   exists r, fst (find_source_for_file target notebook_id w) = Ok (Some r) /\
             In r candidates /\ exact_tier target r = true) /\
  (existsb (exact_tier target) candidates = false ->
   existsb (basename_tier target) candidates = true ->
   exists r, fst (find_source_for_file target notebook_id w) = Ok (Some r) /\
             In r candidates /\ basename_tier target r = true) /\
  (existsb (exact_tier target) candidates = false ->
   existsb (basename_tier target) candidates = false ->
   existsb (normalized_tier target) candidates = true ->
   exists r, fst (find_source_for_file target notebook_id w) = Ok (Some r) /\
             In r candidates /\ normalized_tier target r = true) /\
  (existsb (exact_tier target) candidates = false ->
   existsb (basename_tier target) candidates = false ->
   existsb (normalized_tier target) candidates = false ->
   fst (find_source_for_file target notebook_id w) = Ok None).
Proof.
  intros [resp [Hs [Ho Hn]]] W.
  rewrite (find_source_for_file_listing target notebook_id w resp candidates Hs Ho Hn).
  cbn [fst]. exact (find_best_match_highest_tier target candidates W).
Qed.

(** C3.  Among the candidates of the tier it returns from,
    [find_source_for_file] returns one whose sort key ([updated], else
    [created], else the empty string) is the greatest in the order of
    strings; a record without timestamps is returned only when the tier has
    no record with one. *)
Theorem find_source_for_file_latest
    (target : string) (notebook_id : option string) (w : world)
    (candidates : list Source) :
  listed w notebook_id candidates ->
  forallb well_typed candidates = true ->
  best_tier target candidates <> [] ->
  exists r,
    fst (find_source_for_file target notebook_id w) = Ok (Some r) /\
    In r (best_tier target candidates) /\
    sort_key r = JStr (timestamp r) /\
    (forall x, In x (best_tier target candidates) ->
               sort_key x = JStr (timestamp x) /\
               String.leb (timestamp x) (timestamp r) = true) /\
    (timestamp r = "" ->
     forall x, In x (best_tier target candidates) -> timestamp x = "").
Proof.
  intros [resp [Hs [Ho Hn]]] W Hne.
  rewrite (find_source_for_file_listing target notebook_id w resp candidates Hs Ho Hn).
  cbn [fst]. exact (find_best_match_latest target candidates W Hne).
Qed.

(** C5.  When the matcher, asked first with the title (or, without a title,
    with the last component of the local path), finds a record, the upload
    returns that record alone as a success, and has sent the listing request
    and no creation request. *)
Theorem upload_file_and_process_existing
    (file_path : string) (title : option string) (notebooks : option (list json))
    (embed async_processing : bool) (w w' : world) (found : Source) :
  find_source_for_file (opt_or title (PyStr.path_name file_path)) None w
  = (Ok (Some found), w') ->
  upload_file_and_process file_path title notebooks embed async_processing w
  = (Ok (Uploaded 200 [found] JNull), w') /\
  upload_ok (Uploaded 200 [found] JNull) = true /\
  upload_sources (Uploaded 200 [found] JNull) = [found] /\
  sent w' = sent w ++ [list_sources_request None] /\
  count_requests POST to_sources (sent w') = count_requests POST to_sources (sent w).
Proof.
  intros F.
  pose proof (find_source_for_file_sent (opt_or title (PyStr.path_name file_path))
                None w) as Hw.
  rewrite F in Hw. cbn [snd] in Hw. subst w'.
  repeat split.
  - unfold upload_file_and_process, bind. rewrite F. reflexivity.
  - cbn [and_sent sent]. rewrite count_requests_app. cbn. lia.
Qed.

(** C10.  When the listing request is refused, [find_source_for_file]
    returns [None] and raises nothing, whatever the body of the response
    lists; so [source_exists] says [False], and [upload_file_and_process]
    goes on to send the file in a creation request. *)
Theorem find_source_for_file_refused
    (filename : string) (notebook_id : option string) (w : world) (resp : response) :
  server (sent w) (list_sources_request notebook_id) = Some resp ->
  resp_ok resp = false ->
  find_source_for_file filename notebook_id w
  = (Ok None, and_sent (list_sources_request notebook_id) w) /\
  (notebook_id = None ->
   source_exists filename w = (Ok false, and_sent (list_sources_request None) w)) /\
  (notebook_id = None ->
   forall file_path title notebooks embed async_processing,
     opt_or title (PyStr.path_name file_path) = filename ->
     file_exists file_path = true ->
     exists body outcome,
       upload_file_and_process file_path title notebooks embed async_processing w
       = (outcome,
          and_sent {| meth := POST; url := Sources; payload := body;
                      attached := Some file_path |}
            (and_sent (list_sources_request None) w)) /\
       dict_get "title" match body with JDict d => d | _ => [] end = JStr filename).
Proof.
  intros Hs Ho.
  assert (F : forall f, find_source_for_file f notebook_id w
                        = (Ok None, and_sent (list_sources_request notebook_id) w)).
  { intros f. unfold find_source_for_file, requests_get, bind, send, lift, ret.
    fold (list_sources_request notebook_id). rewrite Hs. cbn [w_ok _wrap_response].
    rewrite Ho. reflexivity. }
  split; [apply F|]. split.
  - intros ->. unfold source_exists, bind, ret. now rewrite F.
  - intros -> file_path title notebooks embed async_processing Hname Hfile.
    unfold upload_file_and_process, bind, raise, ret, lift.
    rewrite Hname, F, Hfile. cbn [negb].
    unfold requests_post, send. eexists.
    match goal with
    | |- context [server ?h ?rq] => destruct (server h rq) as [r|]
    end.
    + destruct (negb (w_ok (_wrap_response r)));
        [eexists; split; reflexivity|].
      destruct (_normalize_sources (w_data (_wrap_response r)));
        eexists; split; reflexivity.
    + eexists. split; reflexivity.
Qed.

End Uploader.

(** ** The status poll *)

Section Poll.
Context `{B : Builtins} `{K : Backend}.
Variables (source_id : string) (poll_interval timeout : Z).

Local Notation "'rq'" := (status_request source_id).

Lemma loop_turns_0 (w : world) : loop_turns source_id poll_interval 0 w = w.
Proof.
  unfold loop_turns. cbn [repeat]. rewrite !app_nil_r, Nat.add_0_r. now destruct w.
Qed.

Lemma repeat_snoc {A : Type} (x : A) (n : nat) : repeat x n ++ [x] = x :: repeat x n.
Proof. induction n as [|n IH]; simpl; congruence. Qed.

Lemma loop_turns_S (n : nat) (w : world) :
  loop_turns source_id poll_interval n
    {| sent := sent w ++ [rq]; clock_reads := S (clock_reads w);
       slept := slept w ++ [poll_interval] |}
  = loop_turns source_id poll_interval (S n) w.
Proof.
  unfold loop_turns. cbn [sent clock_reads slept repeat].
  rewrite <- !app_assoc. cbn [app]. f_equal. lia.
Qed.

(** One turn on a response that reports nothing, in time: the loop sleeps
    and goes on. *)
Lemma poll_loop_goes_on (fuel : nat) (start : Z) (w : world) (resp : response) :
  server (sent w) rq = Some resp ->
  reports_nothing resp ->
  (clock (clock_reads w) - start <= timeout)%Z ->
  poll_loop (S fuel) source_id poll_interval timeout start w
  = poll_loop fuel source_id poll_interval timeout start
      {| sent := sent w ++ [rq]; clock_reads := S (clock_reads w);
         slept := slept w ++ [poll_interval] |}.
Proof.
  intros Hs N T. cbn [poll_loop].
  unfold bind, requests_get, send, lift, time_time, time_sleep, raise.
  fold (status_request source_id). rewrite Hs.
  unfold reports_nothing in N. rewrite N. cbn [sent clock_reads slept].
  destruct (Z.gtb_spec (clock (clock_reads w) - start) timeout) as [G|_]; [lia|].
  reflexivity.
Qed.



Lemma loop_keeps_shift (start : Z) (w : world) (n : nat) :
  loop_keeps source_id timeout start w (S n) ->
  loop_keeps source_id timeout start
    {| sent := sent w ++ [rq]; clock_reads := S (clock_reads w);
       slept := slept w ++ [poll_interval] |} n.
Proof.
  intros H k Hk. destruct (H (S k)) as [resp [Hs [N T]]]; [lia|].
  exists resp. cbn [sent clock_reads]. rewrite <- app_assoc. cbn [app].
  cbn [repeat] in Hs.
  replace (S (clock_reads w) + k) with (clock_reads w + S k) by lia.
  auto.
Qed.

Lemma loop_keeps_unshift (start : Z) (w : world) (n : nat) (resp : response) :
  server (sent w) rq = Some resp ->
  reports_nothing resp ->
  (clock (clock_reads w) - start <= timeout)%Z ->
  loop_keeps source_id timeout start
    {| sent := sent w ++ [rq]; clock_reads := S (clock_reads w);
       slept := slept w ++ [poll_interval] |} n ->
  loop_keeps source_id timeout start w (S n).
Proof.
  intros Hs N T H [|k] Hk.
  - exists resp. cbn [repeat]. rewrite app_nil_r, Nat.add_0_r. auto.
  - destruct (H k) as [resp' [Hs' [N' T']]]; [lia|].
    exists resp'. cbn [sent clock_reads] in Hs', T'.
    rewrite <- app_assoc in Hs'. cbn [app] in Hs'.
    replace (clock_reads w + S k) with (S (clock_reads w) + k) by lia.
    auto.
Qed.

(** After [n] turns that went on, the loop is where it would be had it
    started [n] turns later. *)
Lemma poll_loop_turns (n fuel : nat) (start : Z) (w : world) :
  loop_keeps source_id timeout start w n ->
  poll_loop (n + fuel) source_id poll_interval timeout start w
  = poll_loop fuel source_id poll_interval timeout start
      (loop_turns source_id poll_interval n w).
Proof.
  revert w. induction n as [|n IH]; intros w H.
  - now rewrite loop_turns_0.
  - destruct (H 0) as [resp [Hs [N T]]]; [lia|].
    cbn [repeat] in Hs. rewrite app_nil_r in Hs. rewrite Nat.add_0_r in T.
    cbn [Nat.add]. rewrite (poll_loop_goes_on (n + fuel) start w resp Hs N T).
    rewrite IH by now apply loop_keeps_shift.
    now rewrite loop_turns_S.
Qed.

(** A poll that returns has seen a terminal status, after turns that went
    on. *)
Lemma poll_loop_returned (fuel : nat) (start : Z) (w w' : world) (r : PollResult) :
  poll_loop fuel source_id poll_interval timeout start w = (Ok (Some r), w') ->
  exists n resp,
    n < fuel /\ loop_keeps source_id timeout start w n /\
    server (sent w ++ repeat rq n) rq = Some resp /\ reports_terminal resp r.
Proof.
  revert w. induction fuel as [|fuel IH]; intros w R.
  - discriminate.
  - cbn [poll_loop] in R.
    unfold bind, requests_get, send, lift, time_time, time_sleep, raise, ret in R.
    fold (status_request source_id) in R.
    destruct (server (sent w) rq) as [resp|] eqn:Hs; [|discriminate].
    destruct (poll_look (_wrap_response resp)) as [[r'|]|] eqn:L; [| |discriminate].
    + injection R as -> _. exists 0, resp. cbn [repeat]. rewrite app_nil_r.
      repeat split; [lia | intros k Hk; lia | exact Hs | exact L].
    + cbn [sent clock_reads slept] in R.
      destruct (Z.gtb_spec (clock (clock_reads w) - start) timeout) as [G|G];
        [discriminate|].
      apply IH in R as [n [resp' [Hn [Hk [Hs' T']]]]].
      exists (S n), resp'. repeat split; [lia | | | exact T'].
      * eapply loop_keeps_unshift; eauto.
      * cbn [sent] in Hs'. rewrite <- app_assoc in Hs'. exact Hs'.
Qed.



(** A response reports a terminal status when it is accepted and its body
    is a dict whose [status] is [completed] or [failed]. *)
Lemma reports_terminal_iff (resp : response) (r : PollResult) :
  reports_terminal resp r <->
  resp_ok resp = true /\
  exists d,
    py_or (w_data (_wrap_response resp)) (JDict []) = JDict d /\
    (dict_get "status" d = JStr "completed" \/ dict_get "status" d = JStr "failed") /\
    r = {| poll_status_code := resp_status_code resp;
           poll_status := dict_get "status" d;
           poll_processing_info := dict_get "processing_info" d;
           poll_raw := JDict d |}.
Proof.
  unfold reports_terminal, poll_look. cbn [w_ok w_status_code _wrap_response].
  set (data := py_or _ (JDict [])).
  assert (St : forall v s, eq_str v s = true <-> v = JStr s).
  { intros v s0. destruct v; cbn; try (split; [discriminate | discriminate]).
    rewrite String.eqb_eq. split; [now intros -> | now intros [= ->]]. }
  destruct (resp_ok resp).
  - split.
    + destruct data as [| | | | |d]; cbn [py_get rbind]; try discriminate.
      destruct (eqb_spec (eq_str (dict_get "status" d) "completed"
                          || eq_str (dict_get "status" d) "failed") true) as [E|E].
      * rewrite E. intros [= <-]. split; [reflexivity|]. exists d.
        apply orb_true_iff in E. rewrite !St in E. auto.
      * apply not_true_is_false in E. rewrite E. discriminate.
    + intros [_ [d [-> [E ->]]]]. cbn [py_get rbind].
      rewrite <- !St in E. apply orb_true_iff in E. now rewrite E.
  - split; [discriminate | intros [E _]; discriminate].
Qed.

Lemma poll_source_status_loop (fuel : nat) (w : world) :
  poll_source_status fuel source_id poll_interval timeout w
  = poll_loop fuel source_id poll_interval timeout (clock (clock_reads w)) (started w).
Proof. reflexivity. Qed.

Lemma sent_after_turns (n : nat) (w : world) :
  sent (and_sent rq (after_turns source_id poll_interval n w))
  = sent w ++ repeat rq (S n).
Proof.
  cbn [and_sent after_turns sent]. rewrite <- app_assoc. now rewrite repeat_snoc.
Qed.


End Poll.

Section PollExamples.
#[local] Existing Instance Demo.builtins.
#[local] Existing Instance Demo.backend.



Example poll_source_status_third_call :
  fst (poll_source_status 10 "source:1" 2 600 start_world)
  = Ok (Some {| poll_status_code := 200; poll_status := JStr "completed";
                poll_processing_info := JNull;
                poll_raw := JDict [("status", JStr "completed")] |})
  /\ length (sent (snd (poll_source_status 10 "source:1" 2 600 start_world))) = 3.
Proof. split; reflexivity. Qed.

(** With a timeout that the first reading of the clock exceeds, the same
    poll raises after one request. *)
Example poll_source_status_timeout :
  fst (poll_source_status 10 "source:1" 2 0 start_world) = Raise TimeoutError
  /\ length (sent (snd (poll_source_status 10 "source:1" 2 0 start_world))) = 1.
Proof. split; reflexivity. Qed.

End PollExamples.

(** ** The notebook pipeline *)

Section NotebookAsk.
Context `{B : Builtins} `{K : Backend}.
Variables (m : method) (u : endpoint -> bool).

Lemma adds_ret {A : Type} (a : A) : adds m u 0 (ret a).
Proof. intros w. unfold ret. cbn [snd]. lia. Qed.

Lemma adds_raise {A : Type} (e : exn) : adds m u 0 (raise (A := A) e).
Proof. intros w. unfold raise. cbn [snd]. lia. Qed.

Lemma adds_lift {A : Type} (r : result A) : adds m u 0 (lift r).
Proof. intros w. unfold lift. cbn [snd]. lia. Qed.

Lemma adds_time_time : adds m u 0 time_time.
Proof. intros w. unfold time_time. cbn [snd sent]. lia. Qed.

Lemma adds_send (rq : request) :
  adds m u (if is_request m u rq then 1 else 0) (send rq).
Proof.
  intros w. unfold send.
  destruct (server (sent w) rq); cbn [snd sent];
    rewrite count_requests_app; unfold count_requests; cbn [filter];
    destruct (is_request m u rq); reflexivity.
Qed.

(** A step that sends [n], before steps that send none. *)
Lemma adds_bind {A C : Type} (n : nat) (c : IO A) (k : A -> IO C) :
  adds m u n c -> (forall a, adds m u 0 (k a)) -> adds m u n (bind c k).
Proof.
  intros Hc Hk w. unfold bind. specialize (Hc w).
  destruct (c w) as [[a|e] w1]; cbn [snd] in *; [|exact Hc].
  rewrite (Hk a w1). lia.
Qed.

(** A step that sends none and returns, before a step that sends [n]. *)
Lemma adds_after {A C : Type} (n : nat) (c : IO A) (k : A -> IO C) :
  adds m u 0 c -> (forall w, exists a, fst (c w) = Ok a) ->
  (forall a, adds m u n (k a)) -> adds m u n (bind c k).
Proof.
  intros Hc Ht Hk w. unfold bind. specialize (Hc w). destruct (Ht w) as [a Ha].
  destruct (c w) as [r w1]; cbn [fst snd] in *. subst r.
  rewrite (Hk a w1). lia.
Qed.

Lemma adds_try_except {A : Type} (c h : IO A) :
  adds m u 0 c -> adds m u 0 h -> adds m u 0 (try_except c h).
Proof.
  intros Hc Hh w. unfold try_except. specialize (Hc w).
  destruct (c w) as [[a|e] w1]; cbn [snd] in *; [exact Hc|].
  rewrite (Hh w1). lia.
Qed.

Lemma adds_once_bind {A C : Type} (c : IO A) (k : A -> IO C) :
  adds_once m u c -> (forall a, adds m u 0 (k a)) -> adds_once m u (bind c k).
Proof.
  intros Hc Hk w. unfold bind. specialize (Hc w).
  destruct (c w) as [[a|e] w1]; cbn [fst snd] in *.
  - rewrite (Hk a w1). destruct Hc as [_ Hc]. rewrite (Hc a eq_refl).
    split; [lia | intros; lia].
  - split; [apply Hc | discriminate].
Qed.

Lemma adds_once_after {A C : Type} (c : IO A) (k : A -> IO C) :
  adds m u 0 c -> (forall a, adds_once m u (k a)) -> adds_once m u (bind c k).
Proof.
  intros Hc Hk w. unfold bind. specialize (Hc w).
  destruct (c w) as [[a|e] w1]; cbn [fst snd] in *.
  - destruct (Hk a w1) as [Hle Heq]. split; [lia|].
    intros b Hb. rewrite (Heq b Hb). lia.
  - split; [lia | discriminate].
Qed.

Lemma adds_once_of_one {A : Type} (c : IO A) : adds m u 1 c -> adds_once m u c.
Proof. intros H w. rewrite (H w). split; [lia | reflexivity]. Qed.

End NotebookAsk.

Section NotebookAskCounts.
Context `{B : Builtins} `{K : Backend}.

Lemma adds_send_none (m : method) (u : endpoint -> bool) (rq : request) :
  is_request m u rq = false -> adds m u 0 (send rq).
Proof. intros H. pose proof (adds_send m u rq) as S. now rewrite H in S. Qed.

Lemma adds_send_one (m : method) (u : endpoint -> bool) (rq : request) :
  is_request m u rq = true -> adds m u 1 (send rq).
Proof. intros H. pose proof (adds_send m u rq) as S. now rewrite H in S. Qed.

(** Steps that send no request of the kind counted. *)
Ltac quiet :=
  repeat first
    [ apply adds_ret
    | apply adds_raise
    | apply adds_lift
    | apply adds_time_time
    | apply adds_send_none; reflexivity
    | apply adds_try_except
    | apply adds_bind; [|intros]
    | match goal with
      | |- adds _ _ 0 (if ?b then _ else _) => destruct b
      end ].

(** An id is given when it is a string that is not empty. *)
Lemma supplied_spec (o : option string) :
  supplied o = true <-> exists s, o = Some s /\ s <> "".
Proof.
  unfold supplied. destruct o as [s|]; cbn.
  - rewrite negb_true_iff, String.eqb_neq. split; [eauto | now intros [t [[= ->] N]]].
  - split; [discriminate | now intros [s [E _]]].
Qed.

Lemma fetch_defaults_returns (w : world) : exists a, fst (fetch_defaults w) = Ok a.
Proof.
  unfold fetch_defaults, try_except, bind, requests_get, send, lift, ret.
  destruct (server _ _) as [r|]; cbn [fst snd]; [|eauto].
  destruct (raise_for_status r); cbn [fst snd]; [|eauto].
  destruct (resp_json r); cbn [fst snd]; eauto.
Qed.

Lemma time_time_returns (w : world) : exists a, fst (time_time w) = Ok a.
Proof. unfold time_time. cbn [fst]. eauto. Qed.

Lemma notebook_ask_notebooks
    (source_id message : string) (model_override notebook_id session_id : option string) :
  adds POST to_notebooks (if supplied notebook_id then 0 else 1)
    (notebook_ask source_id message model_override notebook_id session_id).
Proof.
  unfold notebook_ask, requests_post, requests_get, supplied. cbv zeta.
  apply adds_after; [unfold fetch_defaults, requests_get; quiet
                    | apply fetch_defaults_returns | intros defaults].
  apply adds_bind; [|intros; quiet].
  destruct (truthy (of_opt notebook_id)); cbn [negb]; [apply adds_ret|].
  apply adds_after; [apply adds_time_time | apply time_time_returns | intros now].
  apply adds_bind; [apply adds_send_one; reflexivity | intros; quiet].
Qed.

Lemma notebook_ask_sessions_supplied
    (source_id message : string) (model_override notebook_id session_id : option string) :
  supplied session_id = true ->
  adds POST to_chat_sessions 0
    (notebook_ask source_id message model_override notebook_id session_id).
Proof.
  unfold notebook_ask, requests_post, requests_get, fetch_defaults, supplied. cbv zeta.
  intros ->. cbn [negb]. quiet.
Qed.

Lemma notebook_ask_sessions_omitted
    (source_id message : string) (model_override notebook_id session_id : option string) :
  supplied session_id = false ->
  adds_once POST to_chat_sessions
    (notebook_ask source_id message model_override notebook_id session_id).
Proof.
  unfold notebook_ask, requests_post, requests_get, supplied. cbv zeta.
  intros ->. cbn [negb].
  apply adds_once_after; [unfold fetch_defaults, requests_get; quiet | intros defaults].
  apply adds_once_after; [quiet | intros nb].
  apply adds_once_after; [quiet | intros lresp].
  apply adds_once_after; [quiet | intros _].
  apply adds_once_after; [quiet | intros ctx_resp].
  apply adds_once_after; [quiet | intros _].
  apply adds_once_after; [quiet | intros context_data].
  apply adds_once_after; [quiet | intros built_context].
  apply adds_once_bind; [|intros; quiet].
  apply adds_once_after; [quiet | intros now].
  apply adds_once_of_one.
  apply adds_bind; [apply adds_send_one; reflexivity | intros; quiet].
Qed.

(** C9 (as amended).  On every run [notebook_ask] sends the notebook
    creation request once when no notebook id is given and never when one
    is; it never sends the session creation request when a session id is
    given; without one it sends it once on every run that returns, and at
    most once on a run that raises. *)
Theorem notebook_ask_creations
    (source_id message : string) (model_override notebook_id session_id : option string)
    (w : world) :
  let run := notebook_ask source_id message model_override notebook_id session_id w in
  count_requests POST to_notebooks (sent (snd run))
  = count_requests POST to_notebooks (sent w) + (if supplied notebook_id then 0 else 1)
  /\
  (supplied session_id = true ->
   count_requests POST to_chat_sessions (sent (snd run))
   = count_requests POST to_chat_sessions (sent w))
  /\
  (supplied session_id = false ->
   count_requests POST to_chat_sessions (sent (snd run))
   <= count_requests POST to_chat_sessions (sent w) + 1
   /\
   forall a, fst run = Ok a ->
             count_requests POST to_chat_sessions (sent (snd run))
             = count_requests POST to_chat_sessions (sent w) + 1).
Proof.
  cbv zeta. split; [apply notebook_ask_notebooks | split].
  - intros S. rewrite (notebook_ask_sessions_supplied _ _ _ _ _ S w). lia.
  - intros S. apply (notebook_ask_sessions_omitted _ _ _ _ _ S w).
Qed.

End NotebookAskCounts.

Section BackendExamples.
#[local] Existing Instance Demo.builtins.

Lemma demo_listed : listed (K := Demo.backend) start_world None Demo.candidates.
Proof. exists (Demo.answer "listing"). repeat split. Defined.

(** The listing of the examples, asked for [a.pdf]: no stored path is the
    target verbatim; the records stored as [/x/a.pdf] and titled [A.PDF] are
    in the basename tier, and one of them is returned, not the record whose
    title only normalizes to the target, which comes first and was updated
    last. *)
Lemma find_source_for_file_highest_tier_witness :
  listed (K := Demo.backend) start_world None Demo.candidates /\
  forallb well_typed Demo.candidates = true /\
  existsb (exact_tier "a.pdf") Demo.candidates = false /\
  existsb (basename_tier "a.pdf") Demo.candidates = true /\
  exists r,
    fst (find_source_for_file (K := Demo.backend) "a.pdf" None start_world)
    = Ok (Some r) /\
    In r Demo.candidates /\ basename_tier "a.pdf" r = true.
Proof.
  split; [exact demo_listed | split; [reflexivity | split; [reflexivity | split;
    [reflexivity|]]]].
  exact (proj1 (proj2 (find_source_for_file_highest_tier (K := Demo.backend)
                         "a.pdf" None start_world Demo.candidates demo_listed eq_refl))
           eq_refl eq_refl).
Defined.

Lemma demo_tier : best_tier "a.pdf" Demo.candidates <> [].
Proof. vm_compute. discriminate. Defined.

(** Of the two records of the basename tier the one updated on 2024-01-01
    is returned, before the one created on 2023-12-31. *)
Lemma find_source_for_file_latest_witness :
  listed (K := Demo.backend) start_world None Demo.candidates /\
  forallb well_typed Demo.candidates = true /\
  length (best_tier "a.pdf" Demo.candidates) = 2 /\
  exists r,
    fst (find_source_for_file (K := Demo.backend) "a.pdf" None start_world)
    = Ok (Some r) /\
    In r (best_tier "a.pdf" Demo.candidates) /\
    sort_key r = JStr (timestamp r) /\
    (forall x, In x (best_tier "a.pdf" Demo.candidates) ->
               sort_key x = JStr (timestamp x) /\
               String.leb (timestamp x) (timestamp r) = true) /\
    (timestamp r = "" ->
     forall x, In x (best_tier "a.pdf" Demo.candidates) -> timestamp x = "").
Proof.
  split; [exact demo_listed | split; [reflexivity | split; [reflexivity|]]].
  exact (find_source_for_file_latest (K := Demo.backend) "a.pdf" None start_world
           Demo.candidates demo_listed eq_refl demo_tier).
Defined.

Example find_source_for_file_demo :
  match fst (find_source_for_file (K := Demo.backend) "a.pdf" None start_world) with
  | Ok (Some r) => id r = JStr "source:2" /\ timestamp r = "2024-01-01"
  | _ => False
  end.
Proof. split; reflexivity. Qed.

(** The backend of the examples lists a record stored as [/x/a.pdf]: the
    upload of [/tmp/a.pdf] returns it and creates nothing. *)
Lemma upload_file_and_process_existing_witness :
  exists found w',
    find_source_for_file (K := Demo.backend) "a.pdf" None start_world
    = (Ok (Some found), w') /\
    (upload_file_and_process (K := Demo.backend) "/tmp/a.pdf" None None true true
       start_world
     = (Ok (Uploaded 200 [found] JNull), w') /\
     upload_ok (Uploaded 200 [found] JNull) = true /\
     upload_sources (Uploaded 200 [found] JNull) = [found] /\
     sent w' = sent start_world ++ [list_sources_request None] /\
     count_requests POST to_sources (sent w')
     = count_requests POST to_sources (sent start_world)).
Proof.
  eexists. eexists. split.
  - reflexivity.
  - apply (upload_file_and_process_existing (K := Demo.backend)
             "/tmp/a.pdf" None None true true).
    reflexivity.
Defined.

Example upload_file_and_process_finds_by_path :
  match fst (upload_file_and_process (K := Demo.backend) "/tmp/a.pdf" None None true true
               start_world) with
  | Ok (Uploaded 200 [found] JNull) => id found = JStr "source:2"
  | _ => False
  end.
Proof. reflexivity. Qed.

(** The same listing, refused: nothing is found, and the upload sends the
    file. *)
Lemma find_source_for_file_refused_witness :
  find_source_for_file (K := Demo.refusing) "a.pdf" None start_world
  = (Ok None, and_sent (list_sources_request None) start_world) /\
  source_exists (K := Demo.refusing) "a.pdf" start_world
  = (Ok false, and_sent (list_sources_request None) start_world) /\
  exists body outcome,
    upload_file_and_process (K := Demo.refusing) "/tmp/a.pdf" None None true true
      start_world
    = (outcome,
       and_sent {| meth := POST; url := Sources; payload := body;
                   attached := Some "/tmp/a.pdf" |}
         (and_sent (list_sources_request None) start_world)) /\
    dict_get "title" match body with JDict d => d | _ => [] end = JStr "a.pdf".
Proof.
  pose proof (find_source_for_file_refused (K := Demo.refusing) "a.pdf" None start_world
                {| resp_status_code := 503; resp_ok := false;
                   resp_text := "listing"; resp_lines := [] |}
                eq_refl eq_refl) as [F [E U]].
  split; [exact F | split; [exact (E eq_refl)|]].
  exact (U eq_refl "/tmp/a.pdf" None None true true eq_refl eq_refl).
Defined.

Example upload_file_and_process_after_refusal :
  count_requests POST to_sources
    (sent (snd (upload_file_and_process (K := Demo.refusing) "/tmp/a.pdf" None None
                  true true start_world))) = 1.
Proof. reflexivity. Qed.

(** A run of the pipeline that creates its notebook and its session. *)
Lemma notebook_ask_creations_witness :
  count_requests POST to_notebooks
    (sent (snd (notebook_ask (K := Demo.backend) "source:1" "question" None None None
                  start_world))) = 1 /\
  count_requests POST to_chat_sessions
    (sent (snd (notebook_ask (K := Demo.backend) "source:1" "question" None None None
                  start_world))) = 1.
Proof.
  pose proof (notebook_ask_creations (K := Demo.backend) "source:1" "question"
                None None None start_world) as [N [_ S]].
  split; [exact N|].
  destruct (S eq_refl) as [_ E].
  exact (E {| nb_notebook_id := JStr "new:1"; nb_session_id := JStr "new:1";
              nb_messages := JList [JDict [("type", JStr "ai");
                                           ("content", JStr "done")]];
              nb_ai_answer := JStr "done" |} eq_refl).
Defined.

Example notebook_ask_with_ids :
  count_requests POST to_notebooks
    (sent (snd (notebook_ask (K := Demo.backend) "source:1" "question" None
                  (Some "notebook:1") (Some "session:1") start_world))) = 0 /\
  count_requests POST to_chat_sessions
    (sent (snd (notebook_ask (K := Demo.backend) "source:1" "question" None
                  (Some "notebook:1") (Some "session:1") start_world))) = 0.
Proof. split; reflexivity. Qed.

(** C9 (as stated) fails on a run that stops before the session step: the
    context request is refused, and no session is created though no session
    id was given. *)
Lemma notebook_ask_stops_before_session :
  supplied None = false /\
  fst (notebook_ask (K := Demo.no_context) "source:1" "question" None None None
         start_world) = Raise HTTPError /\
  count_requests POST to_chat_sessions
    (sent (snd (notebook_ask (K := Demo.no_context) "source:1" "question" None None None
                  start_world))) = 0 /\
  count_requests POST to_chat_sessions
    (sent (snd (notebook_ask (K := Demo.no_context) "source:1" "question" None None None
                  start_world))) <> 1.
Proof. repeat split; vm_compute; discriminate. Qed.

End BackendExamples.

(** ** The session-scoped ask *)

Section AskStream.
Context `{B : Builtins}.

Lemma join_cons (x : string) (l : list string) :
  PyStr.join (x :: l) = (x ++ PyStr.join l)%string.
Proof.
  unfold PyStr.join. destruct l as [|y l]; cbn [String.concat].
  - now rewrite PyStrFacts.append_nil_r.
  - reflexivity.
Qed.

(** The two lists that the loop appends to only grow. *)
Lemma read_stream_acc (lines : list string) (events chunks : list json) :
  read_stream lines events chunks =
  match read_stream lines [] [] with
  | Ok (e, c) => Ok (events ++ e, chunks ++ c)
  | Raise x => Raise x
  end.
Proof.
  revert events chunks. induction lines as [|raw_line rest IH]; intros events chunks.
  - cbn. now rewrite !app_nil_r.
  - cbn [read_stream]. destruct (String.eqb raw_line ""); [apply IH|].
    destruct (json_loads (line_body raw_line)) as [ev|].
    + destruct (event_type ev) as [t|x]; cbn [rbind]; [|reflexivity].
      destruct (eq_str t "ai_message").
      * destruct (event_content ev) as [c|x]; cbn [rbind]; [|reflexivity].
        rewrite (IH (events ++ [ev]) (chunks ++ [c])), (IH ([] ++ [ev]) ([] ++ [c])).
        destruct (read_stream rest [] []) as [[e c']|x]; [|reflexivity].
        now rewrite <- !app_assoc.
      * rewrite (IH (events ++ [ev]) chunks), (IH ([] ++ [ev]) []).
        destruct (read_stream rest [] []) as [[e c']|x]; [|reflexivity].
        now rewrite <- !app_assoc.
    + rewrite (IH (events ++ [text_event (line_body raw_line)]) chunks),
        (IH ([] ++ [text_event (line_body raw_line)]) []).
      destruct (read_stream rest [] []) as [[e c']|x]; [|reflexivity].
      now rewrite <- !app_assoc.
Qed.

(** What the loop makes of one decoded event. *)
Lemma event_type_ai (ev : json) (t : json) :
  event_type ev = Ok t -> eq_str t "ai_message" = is_ai_message ev.
Proof.
  unfold event_type, is_ai_message, event_tag, py_get.
  destruct ev as [| | | | |d]; cbn [rbind]; try discriminate.
  unfold py_or. destruct (truthy (dict_get "type" d)).
  - now intros [= ->].
  - intros [= <-]. destruct (truthy (dict_get "event" d)) eqn:E; [reflexivity|].
    destruct (dict_get "event" d) as [| | |e| |]; try reflexivity.
    cbn in E. apply negb_false_iff, String.eqb_eq in E. now subst e.
Qed.


Lemma text_event_not_ai (body : string) : is_ai_message (text_event body) = false.
Proof. reflexivity. Qed.


Lemma event_content_dict (d : list (string * json)) :
  event_content (JDict d)
  = Ok (py_or (py_or (dict_get "content" d) (dict_get "data" d)) (JStr "")).
Proof.
  unfold event_content, py_get, py_or. cbn [rbind].
  destruct (truthy (dict_get "content" d)) eqn:E; [now rewrite E | reflexivity].
Qed.

Lemma event_type_dict (d : list (string * json)) :
  exists t, event_type (JDict d) = Ok t.
Proof.
  unfold event_type, py_get. cbn [rbind].
  destruct (truthy (dict_get "type" d)); eauto.
Qed.


End AskStream.

Section Ask.
Context `{B : Builtins} `{K : Backend}.

Lemma bind_Ok {A C : Type} (c : IO A) (k : A -> IO C) (w w' : world) (b : C) :
  bind c k w = (Ok b, w') ->
  exists a w1, c w = (Ok a, w1) /\ k a w1 = (Ok b, w').
Proof.
  unfold bind. destruct (c w) as [[a|e] w1]; [eauto | discriminate].
Qed.

Lemma lift_Ok {A : Type} (r : result A) (w w' : world) (a : A) :
  lift r w = (Ok a, w') -> r = Ok a /\ w' = w.
Proof. unfold lift. now intros [= -> ->]. Qed.



End Ask.

Section AskExamples.
#[local] Existing Instance Demo.builtins.
#[local] Existing Instance Demo.backend.

(** The stream of the examples: a ping, a first part, a line that does not
    decode, an empty line and a second part. *)
Example ask_run :
  fst (ask "question" (Some ["source:1"]) None start_world)
  = Ok (SessionAnswer 2 "partial-answer"
          [JDict [("type", JStr "ping")];
           JDict [("type", JStr "ai_message"); ("content", JStr "partial-")];
           text_event "not json";
           JDict [("event", JStr "ai_message"); ("data", JStr "answer")]]).
Proof. reflexivity. Qed.


End AskExamples.

(* ================================================================== *)
(** * Further properties of the code *)

(** ** The normalizer keeps what it is given *)

Lemma mapM_item_raw (l : list json) (ss : list Source) :
  mapM _normalize_source_item l = Ok ss -> map raw ss = l.
Proof.
  revert ss. induction l as [|v l IH]; intros ss; cbn [mapM].
  - now intros [= <-].
  - destruct (_normalize_source_item v) as [s|] eqn:E; cbn [rbind]; [|discriminate].
    destruct (mapM _normalize_source_item l) as [r|]; cbn [rbind]; [|discriminate].
    intros [= <-]. cbn [map]. rewrite (IH r eq_refl). f_equal.
    destruct v; try discriminate. cbn in E. now injection E as <-.
Qed.

Lemma mapM_item_again (l : list json) (ss : list Source) :
  mapM _normalize_source_item l = Ok ss ->
  mapM _normalize_source_item (map raw ss) = Ok ss.
Proof. intros H. now rewrite (mapM_item_raw l ss H). Qed.

(** X1.  A list payload is normalized element by element: the result has
    one record for each element, in the order of the payload, and each
    record keeps its element under [raw]. *)
Theorem _normalize_sources_keeps_raw (l : list json) (ss : list Source) :
  _normalize_sources (JList l) = Ok ss ->
  map raw ss = l /\ length ss = length l.
Proof.
  cbn [_normalize_sources]. intros H. pose proof (mapM_item_raw l ss H) as R.
  split; [exact R|]. now rewrite <- R, length_map.
Qed.

Lemma _normalize_sources_keeps_raw_witness :
  exists ss,
    _normalize_sources (JList Demo.records) = Ok ss /\
    map raw ss = Demo.records /\ length ss = 3.
Proof.
  eexists. split; [reflexivity|].
  exact (_normalize_sources_keeps_raw Demo.records _ eq_refl).
Defined.

(** X2.  Whatever the shape of the payload, normalizing the list of the
    [raw] fields of its records gives the same records again. *)
Theorem _normalize_sources_again (data : json) (ss : list Source) :
  _normalize_sources data = Ok ss ->
  _normalize_sources (JList (map raw ss)) = Ok ss.
Proof.
  assert (Rest : forall d,
             (if truthy (py_or (dict_get "id" d) (dict_get "title" d))
              then (s <- _normalize_source_item (JDict d) ;; Ok [s])%result
              else match find nested_source_list (dict_values d) with
                   | Some (JList v) => mapM _normalize_source_item v
                   | _ => Ok []
                   end) = Ok ss ->
             mapM _normalize_source_item (map raw ss) = Ok ss).
  { intros d. destruct (truthy _).
    - destruct (_normalize_source_item (JDict d)) as [s|] eqn:E; cbn [rbind];
        [|discriminate].
      intros [= <-]. apply (mapM_item_again [JDict d]). cbn [mapM]. now rewrite E.
    - destruct (find _ _) as [[| | | |v|]|]; try (now intros [= <-]).
      apply mapM_item_again. }
  destruct data as [| | | |l|d]; cbn [_normalize_sources];
    try (now intros [= <-]).
  - apply mapM_item_again.
  - destruct (lookup "results" d) as [[| | | |l|]|]; try apply Rest.
    apply mapM_item_again.
Qed.

Lemma _normalize_sources_again_witness :
  exists ss,
    _normalize_sources
      (JDict [("count", JNum 1);
              ("items", JList [JDict [("id", JStr "source:1")]])]) = Ok ss /\
    length ss = 1 /\
    _normalize_sources (JList (map raw ss)) = Ok ss.
Proof.
  eexists. split; [reflexivity | split; [reflexivity|]].
  exact (_normalize_sources_again
           (JDict [("count", JNum 1);
                   ("items", JList [JDict [("id", JStr "source:1")]])]) _ eq_refl).
Defined.

(** ** The matcher on any listing *)

Section MatcherAnyListing.
Context `{B : Builtins}.

Lemma truthy_or_empty (v : json) :
  truthy (py_or (py_or v (JStr "")) (JStr "")) = truthy v.
Proof. unfold py_or. destruct (truthy v) eqn:E; [now rewrite E | reflexivity]. Qed.

(** One turn of the loop leaves the three lists as they are, or adds the
    candidate to one of them; it adds only a candidate that has a stored
    path or a title. *)
Lemma match_step_adds (target : string) (s : Source) (m m' : Matches) :
  match_step target s m = Ok m' ->
  m' = m \/
  (named s = true /\
   (m' = add_exact s m \/ m' = add_basename s m \/ m' = add_normalized s m)).
Proof.
  unfold match_step, named. rewrite <- (truthy_or_empty (asset_file_path s)).
  rewrite <- (truthy_or_empty (title s)).
  set (file_path := py_or (py_or (asset_file_path s) (JStr "")) (JStr "")).
  set (ttl := py_or (py_or (title s) (JStr "")) (JStr "")).
  destruct (truthy file_path) eqn:Tp; cbn [andb orb].
  - destruct (eq_str file_path target); [intros [= <-]; auto|].
    destruct (as_path file_path) as [p|]; cbn [rbind]; [|discriminate].
    destruct (String.eqb _ _); [intros [= <-]; auto|].
    destruct (truthy ttl); cbn [rbind].
    + destruct (str_lower ttl) as [t|]; cbn [rbind]; [|discriminate].
      destruct (String.eqb t _); [intros [= <-]; auto|].
      destruct (as_path ttl) as [t'|]; cbn [rbind]; [|discriminate].
      destruct (String.eqb _ _); intros [= <-]; auto.
    + intros [= <-]. auto.
  - destruct (truthy ttl); cbn [rbind].
    + destruct (str_lower ttl) as [t|]; cbn [rbind]; [|discriminate].
      destruct (String.eqb t _); [intros [= <-]; auto|].
      destruct (as_path ttl) as [t'|]; cbn [rbind]; [|discriminate].
      destruct (String.eqb _ _); intros [= <-]; auto.
    + intros [= <-]. auto.
Qed.

Lemma match_loop_adds (target : string) (candidates : list Source) (m m' : Matches) :
  match_loop target candidates m = Ok m' ->
  forall x, filed_in m' x -> filed_in m x \/ (In x candidates /\ named x = true).
Proof.
  revert m. induction candidates as [|s rest IH]; intros m; cbn [match_loop].
  - intros [= <-] x Hx. now left.
  - destruct (match_step target s m) as [m1|] eqn:E; cbn [rbind]; [|discriminate].
    intros L x Hx. destruct (IH m1 L x Hx) as [Hm1 | [Hin Hn]];
      [|right; split; [now right | exact Hn]].
    destruct (match_step_adds target s m m1 E) as [-> | [Hn [-> | [-> | ->]]]];
      [now left | | |];
      unfold filed_in, add_exact, add_basename, add_normalized in Hm1;
      cbn [exact_matches basename_matches normalized_matches] in Hm1;
      rewrite in_app_iff in Hm1; cbn [In] in Hm1; unfold filed_in;
      intuition (subst; auto using in_eq).
Qed.

Lemma insert_desc_In (x : Source) (l l' : list Source) :
  insert_desc x l = Ok l' -> forall z, In z l' -> z = x \/ In z l.
Proof.
  revert l'. induction l as [|y r IH]; intros l'; cbn [insert_desc].
  - intros [= <-] z [<- | []]. now left.
  - destruct (py_lt (sort_key x) (sort_key y)) as [[]|]; cbn [rbind]; [| |discriminate].
    + destruct (insert_desc x r) as [r'|]; cbn [rbind]; [|discriminate].
      intros [= <-] z [<- | Hz]; [right; now left|].
      destruct (IH r' eq_refl z Hz); [now left | right; now right].
    + intros [= <-] z [<- | Hz]; [now left | now right].
Qed.

Lemma sort_desc_In (l l' : list Source) :
  sort_desc l = Ok l' -> forall z, In z l' -> In z l.
Proof.
  revert l'. induction l as [|x r IH]; intros l'; cbn [sort_desc].
  - now intros [= <-].
  - destruct (sort_desc r) as [r'|]; cbn [rbind]; [|discriminate].
    intros I z Hz. destruct (insert_desc_In x r' l' I z Hz) as [-> | Hr];
      [now left | right; now apply (IH r')].
Qed.

(** X3.  Whatever the types of the fields of the listing and whatever the
    interpreter makes of [<] on its sort keys, a record that the matcher
    returns is a record of the listing, and has a stored path or a title. *)
Theorem find_best_match_listed (target : string) (candidates : list Source) (r : Source) :
  find_best_match target candidates = Ok (Some r) ->
  In r candidates /\ named r = true.
Proof.
  unfold find_best_match.
  destruct (match_loop target candidates no_matches) as [m|] eqn:L; cbn [rbind];
    [|discriminate].
  set (results := list_or _ _).
  assert (R : forall x, In x results -> In x candidates /\ named x = true).
  { intros x Hx.
    assert (F : filed_in m x).
    { unfold results, list_or, filed_in in *.
      destruct (exact_matches m); [|now left].
      destruct (basename_matches m); [|right; now left].
      destruct (normalized_matches m); [destruct Hx | right; now right]. }
    destruct (match_loop_adds target candidates no_matches m L x F) as [N | N];
      [|exact N].
    unfold filed_in, no_matches in N. cbn in N. tauto. }
  destruct results as [|x l] eqn:E; [discriminate|].
  destruct (sort_desc (x :: l)) as [sorted|] eqn:S; cbn [rbind]; [|discriminate].
  destruct sorted as [|r0 rest]; [discriminate|].
  intros [= <-]. apply R. apply (sort_desc_In (x :: l) (r0 :: rest) S). now left.
Qed.

End MatcherAnyListing.

Section MatcherAnyListingExamples.
#[local] Existing Instance Demo.builtins.

Lemma find_best_match_listed_witness :
  exists r,
    find_best_match "a.pdf"
      [Demo.source (JStr "source:7") JNull JNull JNull (JStr "2024-05-01");
       Demo.by_title] = Ok (Some r) /\
    In r [Demo.source (JStr "source:7") JNull JNull JNull (JStr "2024-05-01");
          Demo.by_title] /\
    named r = true.
Proof.
  eexists. split; [reflexivity|].
  exact (find_best_match_listed "a.pdf"
           [Demo.source (JStr "source:7") JNull JNull JNull (JStr "2024-05-01");
            Demo.by_title] _ eq_refl).
Defined.

End MatcherAnyListingExamples.

(** ** Ties between timestamps *)

(** The first of the sorted list is the first of the latest. *)
Lemma sort_by_timestamp_empty (l : list Source) : sort_by_timestamp l = [] -> l = [].
Proof.
  destruct l as [|x r]; [reflexivity|]. cbn [sort_by_timestamp].
  destruct (sort_by_timestamp r) as [|y s]; cbn [insert_by_timestamp]; [discriminate|].
  destruct (String.ltb (timestamp x) (timestamp y)); discriminate.
Qed.

Lemma sort_by_timestamp_first (l : list Source) (r : Source) (rest : list Source) :
  sort_by_timestamp l = r :: rest ->
  exists before after,
    l = before ++ r :: after /\
    (forall x, In x before -> String.ltb (timestamp x) (timestamp r) = true) /\
    (forall x, In x after -> String.leb (timestamp x) (timestamp r) = true).
Proof.
  revert r rest. induction l as [|x l IH]; intros r rest; cbn [sort_by_timestamp];
    [discriminate|].
  destruct (sort_by_timestamp l) as [|y s] eqn:E.
  - apply sort_by_timestamp_empty in E. subst l. cbn [insert_by_timestamp].
    intros [= <- <-]. exists [], []. repeat split; intros z [].
  - destruct (IH y s eq_refl) as [before [after [-> [Hb Ha]]]].
    cbn [insert_by_timestamp].
    destruct (String.ltb (timestamp x) (timestamp y)) eqn:T.
    + intros [= <- _]. exists (x :: before), after. repeat split; [|exact Ha].
      intros z [<- | Hz]; [exact T | now apply Hb].
    + intros [= <- _]. exists [], (before ++ y :: after). repeat split; [intros z []|].
      apply not_ltb_leb in T. intros z Hz. apply in_app_iff in Hz as [Hz | [<- | Hz]].
      * eapply leb_trans; [apply ltb_leb, Hb, Hz | exact T].
      * exact T.
      * eapply leb_trans; [apply Ha, Hz | exact T].
Qed.

Section MatcherTies.
Context `{B : Builtins}.

(** X4.  Among the typed records of the tier it returns from, the matcher
    returns the first in the order of the listing whose timestamp is the
    greatest: every record before it in the tier is strictly older, no record
    after it is newer. *)
Theorem find_best_match_first_latest
    (target : string) (candidates : list Source) (r : Source) :
  forallb well_typed candidates = true ->
  find_best_match target candidates = Ok (Some r) ->
  exists before after,
    best_tier target candidates = before ++ r :: after /\
    (forall x, In x before -> String.ltb (timestamp x) (timestamp r) = true) /\
    (forall x, In x after -> String.leb (timestamp x) (timestamp r) = true).
Proof.
  intros W. rewrite (find_best_match_typed target candidates W).
  destruct (sort_by_timestamp (best_tier target candidates)) as [|r0 rest] eqn:E;
    [discriminate|].
  intros [= <-]. exact (sort_by_timestamp_first _ _ _ E).
Qed.

End MatcherTies.

Section MatcherTiesExamples.
#[local] Existing Instance Demo.builtins.

(** Two titles updated on the same day: the one listed first is returned. *)
Lemma find_best_match_first_latest_witness :
  exists before after,
    best_tier "a.pdf"
      [Demo.by_title_undated;
       Demo.source (JStr "source:8") (JStr "a.pdf") JNull JNull (JStr "2024-03-01");
       Demo.source (JStr "source:9") (JStr "A.pdf") JNull JNull (JStr "2024-03-01")]
    = before ++
      Demo.source (JStr "source:8") (JStr "a.pdf") JNull JNull (JStr "2024-03-01")
      :: after /\
    (forall x, In x before ->
       String.ltb (timestamp x)
         (timestamp (Demo.source (JStr "source:8") (JStr "a.pdf") JNull JNull
                       (JStr "2024-03-01"))) = true) /\
    (forall x, In x after ->
       String.leb (timestamp x)
         (timestamp (Demo.source (JStr "source:8") (JStr "a.pdf") JNull JNull
                       (JStr "2024-03-01"))) = true).
Proof.
  exact (find_best_match_first_latest "a.pdf"
           [Demo.by_title_undated;
            Demo.source (JStr "source:8") (JStr "a.pdf") JNull JNull (JStr "2024-03-01");
            Demo.source (JStr "source:9") (JStr "A.pdf") JNull JNull (JStr "2024-03-01")]
           (Demo.source (JStr "source:8") (JStr "a.pdf") JNull JNull (JStr "2024-03-01"))
           eq_refl eq_refl).
Defined.

End MatcherTiesExamples.

(** ** More on the normalization of file names *)

Module NormalizeFacts.
Import PyStr PyStrFacts.

Lemma lower_char_idem (c : ascii) : lower_char (lower_char c) = lower_char c.
Proof. by_cases_on_char c. Qed.




Lemma lower_idem (s : string) : lower (lower s) = lower s.
Proof.
  induction s as [|c s IH]; simpl; [reflexivity|].
  now rewrite lower_char_idem, IH.
Qed.










(** *** What the result is made of *)

Lemma split_on_parts (sep : ascii) (s : string) :
  Forall (fun c => contains sep c = false) (split_on sep s).
Proof.
  induction s as [|c s IH]; cbn [split_on]; [repeat constructor|].
  destruct (Ascii.eqb c sep) eqn:E; [now constructor|].
  destruct (split_on sep s) as [|h r]; [repeat constructor; cbn; now rewrite E|].
  inversion IH as [|? ? Hh Hr]; subst. constructor; [|exact Hr].
  cbn. now rewrite E, Hh.
Qed.

Lemma path_name_no_slash (s : string) : contains "/" (path_name s) = false.
Proof.
  unfold path_name.
  assert (F : Forall (fun c => contains "/" c = false)
                (filter path_part (split_on "/" s))).
  { apply Forall_forall. intros c Hc. apply filter_In in Hc as [Hc _].
    exact (proj1 (Forall_forall _ _) (split_on_parts "/" s) c Hc). }
  induction (filter path_part (split_on "/" s)) as [|c l IH]; [reflexivity|].
  inversion F as [|? ? Hc Hl]; subst. cbn [last].
  destruct l; [exact Hc | now apply IH].
Qed.

Lemma rsplit1_parts (sep : ascii) (s a b : string) :
  rsplit1 sep s = Some (a, b) -> s = (a ++ String sep b)%string.
Proof.
  revert a. induction s as [|c s IH]; intros a; cbn [rsplit1]; [discriminate|].
  destruct (rsplit1 sep s) as [[a' b']|].
  - intros [= <- <-]. cbn. now rewrite (IH a' eq_refl).
  - destruct (Ascii.eqb_spec c sep); [|discriminate].
    intros [= <- <-]. now subst.
Qed.

Lemma contains_sub_numbered_suffix (c : ascii) (s : string) :
  contains c s = false -> contains c (sub_numbered_suffix s) = false.
Proof.
  induction s as [|a s IH]; [reflexivity|].
  rewrite sub_numbered_suffix_eq. destruct (suffix_here (String a s)); [reflexivity|].
  cbn [contains]. intros H. apply orb_false_iff in H as [Ha Hs].
  now rewrite Ha, (IH Hs).
Qed.

Lemma contains_lstrip (c : ascii) (s : string) :
  contains c s = false -> contains c (lstrip s) = false.
Proof.
  induction s as [|a s IH]; [reflexivity|].
  cbn [lstrip]. destruct (is_space a); [|auto].
  cbn [contains]. intros H. apply orb_false_iff in H as [_ Hs]. auto.
Qed.

Lemma contains_rstrip (c : ascii) (s : string) :
  contains c s = false -> contains c (rstrip s) = false.
Proof.
  induction s as [|a s IH]; [reflexivity|].
  rewrite rstrip_cons. destruct (all_space (String a s)); [reflexivity|].
  cbn [contains]. intros H. apply orb_false_iff in H as [Ha Hs].
  now rewrite Ha, (IH Hs).
Qed.

End NormalizeFacts.

Section NormalizeFilenameMore.
Import PyStr PyStrFacts NormalizeFacts.

(** X5.  The normalization of a path is the normalization of its last
    component: the directories before it do not matter. *)
Theorem normalize_filename_any_directory (d base : string) :
  dir_prefix d -> contains "/" base = false -> path_part base = true ->
  normalize_filename (d ++ base) = normalize_filename base.
Proof.
  intros Hd Hb Hp. unfold normalize_filename.
  rewrite (path_name_under d base Hd Hb Hp).
  pose proof (path_name_under "" base (or_introl eq_refl) Hb Hp) as Here.
  cbn [append] in Here. now rewrite Here.
Qed.

Lemma normalize_filename_any_directory_witness :
  normalize_filename "/srv/uploads/Plan (3).PDF" = normalize_filename "Plan (3).PDF".
Proof.
  apply (normalize_filename_any_directory "/srv/uploads/" "Plan (3).PDF").
  - right. now exists "/srv/uploads".
  - reflexivity.
  - reflexivity.
Defined.


(** X7.  The normalized name holds no slash and no capital letter: it is
    left as it is by [lower]. *)
Theorem normalize_filename_plain (fname : string) :
  contains "/" (normalize_filename fname) = false /\
  lower (normalize_filename fname) = normalize_filename fname.
Proof.
  unfold normalize_filename. pose proof (path_name_no_slash fname) as N.
  destruct (contains "." (path_name fname));
    [|split; [now rewrite contains_lower_slash | apply lower_idem]].
  destruct (rsplit1 "." (path_name fname)) as [[name_part ext]|] eqn:E;
    [|split; [now rewrite contains_lower_slash | apply lower_idem]].
  split; [|apply lower_idem].
  apply rsplit1_parts in E. rewrite E, contains_append in N.
  apply orb_false_iff in N as [Hn He]. cbn [contains] in He.
  rewrite contains_lower_slash, contains_append. unfold strip.
  rewrite (contains_rstrip _ _ (contains_lstrip _ _
             (contains_sub_numbered_suffix _ _ Hn))).
  exact He.
Qed.

End NormalizeFilenameMore.

(** ** The uploader, beyond the match *)

Section UploaderMore.
Context `{B : Builtins} `{K : Backend}.

Lemma send_world (rq : request) (w : world) : snd (send rq w) = and_sent rq w.
Proof. unfold send. now destruct (server (sent w) rq). Qed.

(** X8.  A listing that is accepted but whose body is empty, or is no JSON,
    is a listing without records: [find_source_for_file] returns [None] and
    raises nothing. *)
Theorem find_source_for_file_unreadable
    (filename : string) (notebook_id : option string) (w : world) (resp : response) :
  server (sent w) (list_sources_request notebook_id) = Some resp ->
  resp_ok resp = true ->
  resp_text resp = "" \/ json_loads (resp_text resp) = None ->
  find_source_for_file filename notebook_id w
  = (Ok None, and_sent (list_sources_request notebook_id) w).
Proof.
  intros Hs Ho Hbody.
  assert (N : _normalize_sources (w_data (_wrap_response resp)) = Ok []).
  { cbn [w_data _wrap_response]. destruct Hbody as [-> | ->]; [reflexivity|].
    now destruct (String.eqb (resp_text resp) ""). }
  now rewrite (find_source_for_file_listing filename notebook_id w resp [] Hs Ho N).
Qed.

Lemma upload_file_and_process_sent
    (file_path : string) (title : option string) (notebooks : option (list json))
    (embed async_processing : bool) (w : world) :
  let run := upload_file_and_process file_path title notebooks embed async_processing w in
  sent (snd run) = sent w ++ [list_sources_request None] \/
  sent (snd run)
  = sent w ++ [list_sources_request None;
               upload_request file_path title notebooks embed async_processing].
Proof.
  cbv zeta. unfold upload_file_and_process, bind.
  pose proof (find_source_for_file_sent (opt_or title (PyStr.path_name file_path))
                None w) as Hw.
  destruct (find_source_for_file _ None w) as [[[found|]|e] w1]; cbn [snd] in Hw;
    subst w1; [now left | | now left].
  destruct (file_exists file_path); cbn [negb]; [|now left].
  right. unfold requests_post. fold (upload_request file_path title notebooks embed
                                       async_processing).
  pose proof (send_world (upload_request file_path title notebooks embed
                            async_processing)
                (and_sent (list_sources_request None) w)) as Hp.
  destruct (send _ _) as [[resp|e] w2]; cbn [snd] in Hp; subst w2.
  - unfold ret, lift. destruct (negb (w_ok (_wrap_response resp)));
      [|destruct (_normalize_sources _)]; cbn [snd and_sent sent];
      now rewrite <- app_assoc.
  - cbn [snd and_sent sent]. now rewrite <- app_assoc.
Qed.

(** X9.  [upload_file_and_process] asks for the listing first and sends at
    most one creation request after it, the one that carries the file; it
    sends nothing else, however it ends. *)
Theorem upload_file_and_process_requests
    (file_path : string) (title : option string) (notebooks : option (list json))
    (embed async_processing : bool) (w : world) :
  let run := upload_file_and_process file_path title notebooks embed async_processing w in
  sent (snd run) = sent w ++ [list_sources_request None] \/
  sent (snd run)
  = sent w ++ [list_sources_request None;
               upload_request file_path title notebooks embed async_processing].
Proof.
  exact (upload_file_and_process_sent file_path title notebooks embed async_processing w).
Qed.

(** X10.  A creation request that the server refuses does not make
    [upload_file_and_process] raise: it returns the wrapped response, with
    [ok] false, the status and the text of the refusal, and no sources. *)
Theorem upload_file_and_process_refused
    (file_path : string) (title : option string) (notebooks : option (list json))
    (embed async_processing : bool) (w w1 : world) (resp : response) :
  find_source_for_file (opt_or title (PyStr.path_name file_path)) None w
  = (Ok None, w1) ->
  file_exists file_path = true ->
  server (sent w1) (upload_request file_path title notebooks embed async_processing)
  = Some resp ->
  resp_ok resp = false ->
  exists refused,
    upload_file_and_process file_path title notebooks embed async_processing w
    = (Ok (Refused refused),
       and_sent (upload_request file_path title notebooks embed async_processing) w1) /\
    upload_ok (Refused refused) = false /\
    upload_sources (Refused refused) = [] /\
    w_status_code refused = resp_status_code resp /\
    w_text refused = resp_text resp.
Proof.
  intros F E Hs Ho. exists (_wrap_response resp).
  unfold upload_file_and_process, bind. rewrite F, E. cbn [negb].
  unfold requests_post, send.
  fold (upload_request file_path title notebooks embed async_processing).
  rewrite Hs. cbn [w_ok _wrap_response]. rewrite Ho. cbn [negb].
  repeat split. cbn. exact Ho.
Qed.

(** X11.  The listing is asked before the local file is opened: without the
    local file, a document that the server already has is still returned,
    and only an upload that would be needed raises [OSError], with no
    creation request sent. *)
Theorem upload_file_and_process_no_file
    (file_path : string) (title : option string) (notebooks : option (list json))
    (embed async_processing : bool) (w w1 : world) (existing : option Source) :
  file_exists file_path = false ->
  find_source_for_file (opt_or title (PyStr.path_name file_path)) None w
  = (Ok existing, w1) ->
  upload_file_and_process file_path title notebooks embed async_processing w
  = (match existing with
     | Some found => Ok (Uploaded 200 [found] JNull)
     | None => Raise OSError
     end, w1) /\
  count_requests POST to_sources (sent w1) = count_requests POST to_sources (sent w).
Proof.
  intros E F. split.
  - unfold upload_file_and_process, bind. rewrite F.
    destruct existing; [reflexivity|]. now rewrite E.
  - pose proof (find_source_for_file_sent (opt_or title (PyStr.path_name file_path))
                  None w) as Hw.
    rewrite F in Hw. cbn [snd] in Hw. subst w1.
    cbn [and_sent sent]. rewrite count_requests_app. cbn. lia.
Qed.

(** X12.  [reference_existing_file] does not look for the document first: on
    every run it sends its creation request and nothing else, raises when the
    server cannot be reached, and returns the wrapped response of a refusal. *)
Theorem reference_existing_file_requests
    (server_file_path : string) (title : option string) (notebooks : option (list json))
    (embed async_processing : bool) (w : world) :
  let rq := reference_request server_file_path title notebooks embed async_processing in
  let run :=
    reference_existing_file server_file_path title notebooks embed async_processing w in
  snd run = and_sent rq w /\
  (server (sent w) rq = None -> fst run = Raise ConnectionError) /\
  (forall resp, server (sent w) rq = Some resp -> resp_ok resp = false ->
                fst run = Ok (Refused (_wrap_response resp))) /\
  (forall resp, server (sent w) rq = Some resp -> resp_ok resp = true ->
                fst run
                = rbind (_normalize_sources (w_data (_wrap_response resp)))
                    (fun sources =>
                       Ok (Uploaded (resp_status_code resp) sources
                             (w_data (_wrap_response resp))))).
Proof.
  cbv zeta. unfold reference_existing_file, bind, requests_post, send, lift, ret.
  fold (reference_request server_file_path title notebooks embed async_processing).
  destruct (server (sent w) _) as [resp|].
  - cbn [w_ok _wrap_response]. destruct (resp_ok resp) eqn:O; cbn [negb].
    + destruct (_normalize_sources _) eqn:N; cbn [fst snd];
        (split; [reflexivity|]); (split; [discriminate|]);
        (split; [intros r [= <-]; congruence|]);
        intros r [= <-] _; cbn [w_data _wrap_response] in N |- *; rewrite N;
        reflexivity.
    + cbn [fst snd]. split; [reflexivity|]. split; [discriminate|].
      split; [now intros r [= <-] | intros r [= <-]; congruence].
  - cbn [fst snd]. split; [reflexivity|]. split; [reflexivity|].
    split; intros r; discriminate.
Qed.

(** X13.  [source_exists] and [get_source_id] agree: they send the same
    request, one raises when the other does, an id that is true means the
    source exists, and where the source does not exist the id is [None]. *)
Theorem get_source_id_source_exists (filename : string) (w : world) :
  snd (get_source_id filename w) = snd (source_exists filename w) /\
  (forall e, fst (get_source_id filename w) = Raise e <->
             fst (source_exists filename w) = Raise e) /\
  (forall v, fst (get_source_id filename w) = Ok v -> truthy v = true ->
             fst (source_exists filename w) = Ok true) /\
  (fst (source_exists filename w) = Ok false ->
   fst (get_source_id filename w) = Ok JNull).
Proof.
  unfold get_source_id, source_exists, bind, ret.
  destruct (find_source_for_file filename None w) as [[[s|]|e] w1]; cbn [fst snd];
    repeat split; try discriminate; try tauto; try congruence.
  intros v [= <-]. discriminate.
Qed.

End UploaderMore.

Section UploaderMoreExamples.
#[local] Existing Instance Demo.builtins.

(** A page that is no JSON, served for the listing. *)
Lemma find_source_for_file_unreadable_witness :
  find_source_for_file (K := Cases.html_listing) "a.pdf" None start_world
  = (Ok None, and_sent (list_sources_request None) start_world).
Proof.
  apply (find_source_for_file_unreadable (K := Cases.html_listing) "a.pdf" None
           start_world
           {| resp_status_code := 200; resp_ok := true; resp_text := "<html>";
              resp_lines := [] |}).
  - reflexivity.
  - reflexivity.
  - right. reflexivity.
Defined.

(** Nothing is listed and the creation is refused with 422. *)
Lemma upload_file_and_process_refused_witness :
  exists refused,
    upload_file_and_process (K := Cases.refuses_creation) "/tmp/b.pdf" None None true true
      start_world
    = (Ok (Refused refused),
       and_sent (upload_request "/tmp/b.pdf" None None true true)
         (and_sent (list_sources_request None) start_world)) /\
    upload_ok (Refused refused) = false /\
    upload_sources (Refused refused) = [] /\
    w_status_code refused = 422%Z /\
    w_text refused = "unprocessable".
Proof.
  exact (upload_file_and_process_refused (K := Cases.refuses_creation)
           "/tmp/b.pdf" None None true true start_world
           (and_sent (list_sources_request None) start_world) Cases.refusal
           eq_refl eq_refl eq_refl eq_refl).
Defined.

(** Without the local file: [a.pdf] is on the server and is returned;
    [b.pdf] is not, and the upload raises. *)
Lemma upload_file_and_process_no_file_witness :
  (exists found,
     fst (upload_file_and_process (K := Cases.no_local_file) "/tmp/a.pdf" None None
            true true start_world)
     = Ok (Uploaded 200 [found] JNull) /\ id found = JStr "source:2") /\
  upload_file_and_process (K := Cases.no_local_file) "/tmp/b.pdf" None None true true
    start_world
  = (Raise OSError, and_sent (list_sources_request None) start_world).
Proof.
  split.
  - eexists. split.
    + set (run := find_source_for_file (K := Cases.no_local_file) "a.pdf" None
                    start_world).
      pose proof (proj1 (upload_file_and_process_no_file (K := Cases.no_local_file)
                           "/tmp/a.pdf" None None true true start_world (snd run)
                           (match fst run with Ok o => o | Raise _ => None end)
                           eq_refl eq_refl)) as U.
      rewrite U. reflexivity.
    + reflexivity.
  - exact (proj1 (upload_file_and_process_no_file (K := Cases.no_local_file)
                    "/tmp/b.pdf" None None true true start_world
                    (and_sent (list_sources_request None) start_world) None
                    eq_refl eq_refl)).
Defined.

(** The creation request of a reference, refused. *)
Lemma reference_existing_file_requests_witness :
  reference_existing_file (K := Cases.refuses_creation) "/uploads/b.pdf" None None
    true true start_world
  = (Ok (Refused (_wrap_response Cases.refusal)),
     and_sent (reference_request "/uploads/b.pdf" None None true true) start_world).
Proof.
  pose proof (reference_existing_file_requests (K := Cases.refuses_creation)
                "/uploads/b.pdf" None None true true start_world) as [W [_ [R _]]].
  rewrite (surjective_pairing (reference_existing_file _ _ _ _ _ _)).
  now rewrite W, (R Cases.refusal eq_refl eq_refl).
Defined.

Lemma get_source_id_source_exists_witness :
  fst (get_source_id (K := Demo.backend) "a.pdf" start_world) = Ok (JStr "source:2") /\
  fst (source_exists (K := Demo.backend) "a.pdf" start_world) = Ok true.
Proof.
  split; [reflexivity|].
  exact (proj1 (proj2 (proj2 (get_source_id_source_exists (K := Demo.backend) "a.pdf"
                                start_world)))
           (JStr "source:2") eq_refl eq_refl).
Defined.

End UploaderMoreExamples.

(** ** The status poll, beyond its outcomes *)

Section PollMore.
Context `{B : Builtins} `{K : Backend}.
Variables (source_id : string) (poll_interval timeout : Z).

(** X14.  What the poll returns carries a terminal status: [status] is
    [completed] or [failed], [raw] is the body of the response, a dict with
    that [status], and [processing_info] is read from it. *)
Theorem poll_source_status_result (fuel : nat) (w w' : world) (r : PollResult) :
  poll_source_status fuel source_id poll_interval timeout w = (Ok (Some r), w') ->
  (poll_status r = JStr "completed" \/ poll_status r = JStr "failed") /\
  exists d,
    poll_raw r = JDict d /\
    dict_get "status" d = poll_status r /\
    dict_get "processing_info" d = poll_processing_info r.
Proof.
  intros R. rewrite poll_source_status_loop in R.
  apply poll_loop_returned in R as [n [resp [_ [_ [_ T]]]]].
  apply reports_terminal_iff in T as [_ [d [_ [S ->]]]].
  cbn [poll_status poll_raw poll_processing_info]. split; [exact S|].
  now exists d.
Qed.

(** One turn on a request that is not answered, or on an accepted body that
    is true and no dict. *)
Lemma poll_loop_unreachable (fuel : nat) (start : Z) (w : world) :
  server (sent w) (status_request source_id) = None ->
  poll_loop (S fuel) source_id poll_interval timeout start w
  = (Raise ConnectionError, and_sent (status_request source_id) w).
Proof.
  intros Hs. cbn [poll_loop]. unfold bind, requests_get, send.
  fold (status_request source_id). now rewrite Hs.
Qed.

Lemma poll_look_no_dict (wr : Wrapped) :
  w_ok wr = true -> truthy (w_data wr) = true -> is_dict (w_data wr) = false ->
  poll_look wr = Raise AttributeError.
Proof.
  unfold poll_look, py_or. intros -> -> D. now destruct (w_data wr).
Qed.

Lemma poll_loop_no_dict (fuel : nat) (start : Z) (w : world) (resp : response) :
  server (sent w) (status_request source_id) = Some resp ->
  poll_look (_wrap_response resp) = Raise AttributeError ->
  poll_loop (S fuel) source_id poll_interval timeout start w
  = (Raise AttributeError, and_sent (status_request source_id) w).
Proof.
  intros Hs L. cbn [poll_loop]. unfold bind, requests_get, send, lift.
  fold (status_request source_id). now rewrite Hs, L.
Qed.

Lemma poll_after_turns (fuel n : nat) (w : world) :
  n < fuel -> keeps_polling source_id timeout w n ->
  poll_source_status fuel source_id poll_interval timeout w
  = poll_loop (S (fuel - n - 1)) source_id poll_interval timeout (clock (clock_reads w))
      (after_turns source_id poll_interval n w).
Proof.
  intros Hn Hk. rewrite poll_source_status_loop.
  replace fuel with (n + S (fuel - n - 1)) at 1 by lia.
  now rewrite poll_loop_turns by exact Hk.
Qed.

(** X15.  The poll does not retry a request that is not answered: when the
    server cannot be reached, after turns that went on, the poll raises the
    error of the transport. *)
Theorem poll_source_status_unreachable (fuel n : nat) (w : world) :
  n < fuel -> keeps_polling source_id timeout w n ->
  poll_response source_id w n = None ->
  exists w',
    poll_source_status fuel source_id poll_interval timeout w
    = (Raise ConnectionError, w') /\
    sent w' = sent w ++ repeat (status_request source_id) (S n).
Proof.
  intros Hn Hk Hs. rewrite (poll_after_turns fuel n w Hn Hk).
  rewrite poll_loop_unreachable by exact Hs.
  eexists. split; [reflexivity|].
  apply (sent_after_turns source_id poll_interval n w).
Qed.

(** X16.  An accepted status response whose body is true and is no dict (a
    page that is no JSON, a list) makes the poll raise [AttributeError]: it
    is neither waited out nor reported as a timeout. *)
Theorem poll_source_status_no_dict (fuel n : nat) (w : world) (resp : response) :
  n < fuel -> keeps_polling source_id timeout w n ->
  poll_response source_id w n = Some resp ->
  resp_ok resp = true ->
  truthy (w_data (_wrap_response resp)) = true ->
  is_dict (w_data (_wrap_response resp)) = false ->
  exists w',
    poll_source_status fuel source_id poll_interval timeout w
    = (Raise AttributeError, w') /\
    sent w' = sent w ++ repeat (status_request source_id) (S n).
Proof.
  intros Hn Hk Hs Ho Ht Hd. rewrite (poll_after_turns fuel n w Hn Hk).
  rewrite (poll_loop_no_dict _ _ _ resp) by (exact Hs || exact (poll_look_no_dict (_wrap_response resp) Ho Ht Hd)).
  eexists. split; [reflexivity|].
  apply (sent_after_turns source_id poll_interval n w).
Qed.



End PollMore.

Section PollMoreExamples.
#[local] Existing Instance Demo.builtins.

Lemma poll_source_status_result_witness :
  exists r w',
    poll_source_status (K := Demo.backend) 10 "source:1" 2 600 start_world
    = (Ok (Some r), w') /\
    (poll_status r = JStr "completed" \/ poll_status r = JStr "failed") /\
    exists d,
      poll_raw r = JDict d /\
      dict_get "status" d = poll_status r /\
      dict_get "processing_info" d = poll_processing_info r.
Proof.
  eexists. eexists. split; [reflexivity|].
  exact (poll_source_status_result (K := Demo.backend) "source:1" 2 600 10 start_world
           _ _ eq_refl).
Defined.

Lemma running_once (K : Backend) :
  server [] (status_request "source:1") = Some (Demo.answer "running") ->
  clock 1 = 1%Z -> clock 0 = 0%Z ->
  keeps_polling "source:1" 600 start_world 1.
Proof.
  intros Hs H1 H0 [|k] Hk; [|lia].
  exists (Demo.answer "running"). split; [exact Hs | split; [reflexivity|]].
  unfold poll_elapsed. cbn. rewrite H1, H0. lia.
Defined.

(** [running], and then no answer. *)
Lemma poll_source_status_unreachable_witness :
  exists w',
    poll_source_status (K := Cases.drops_connection) 10 "source:1" 2 600 start_world
    = (Raise ConnectionError, w') /\
    sent w' = sent start_world ++ repeat (status_request "source:1") 2.
Proof.
  apply (poll_source_status_unreachable (K := Cases.drops_connection)
           "source:1" 2 600 10 1 start_world).
  - lia.
  - now apply running_once.
  - reflexivity.
Defined.

(** [running], and then a page that is no JSON. *)
Lemma poll_source_status_no_dict_witness :
  exists w',
    poll_source_status (K := Cases.answers_html) 10 "source:1" 2 600 start_world
    = (Raise AttributeError, w') /\
    sent w' = sent start_world ++ repeat (status_request "source:1") 2.
Proof.
  apply (poll_source_status_no_dict (K := Cases.answers_html)
           "source:1" 2 600 10 1 start_world (Demo.answer "<html>")).
  - lia.
  - now apply running_once.
  - reflexivity.
  - reflexivity.
  - reflexivity.
  - reflexivity.
Defined.


End PollMoreExamples.

(** ** The requests of [ask] *)

Section AskMore.
Context `{B : Builtins} `{K : Backend}.

Lemma send_run (rq : request) (w w1 : world) (r : response) :
  send rq w = (Ok r, w1) -> server (sent w) rq = Some r /\ w1 = and_sent rq w.
Proof.
  unfold send, and_sent. destruct (server (sent w) rq); [|discriminate].
  now intros [= -> <-].
Qed.

Lemma time_run (w w1 : world) (now : Z) :
  time_time w = (Ok now, w1) -> now = clock (clock_reads w) /\ w1 = started w.
Proof. unfold time_time, started. now intros [= <- <-]. Qed.

Lemma ret_run {A : Type} (a b : A) (w w1 : world) :
  ret a w = (Ok b, w1) -> b = a /\ w1 = w.
Proof. unfold ret. now intros [= <- <-]. Qed.

Lemma raise_for_status_Ok (r : response) (u : unit) :
  raise_for_status r = Ok u -> resp_ok r = true.
Proof. unfold raise_for_status. now destruct (resp_ok r). Qed.

Lemma resp_json_Ok (r : response) (v : json) :
  resp_json r = Ok v -> json_loads (resp_text r) = Some v.
Proof. unfold resp_json. destruct (json_loads (resp_text r)); [now intros [= ->] | discriminate]. Qed.

Lemma fetch_defaults_world (w : world) :
  snd (fetch_defaults w) = and_sent defaults_request w.
Proof.
  unfold fetch_defaults, try_except, bind, requests_get, send, lift, ret, and_sent,
    defaults_request.
  destruct (server _ _) as [r|]; [|reflexivity].
  destruct (raise_for_status r); [|reflexivity].
  destruct (resp_json r); reflexivity.
Qed.

Lemma fetch_defaults_run (w w1 : world) (d : json) :
  fetch_defaults w = (Ok d, w1) -> w1 = and_sent defaults_request w.
Proof. intros R. rewrite <- fetch_defaults_world, R. reflexivity. Qed.

Lemma get_or_get_raises (defaults : json) (k1 k2 : string) (e : exn) :
  get_or_get defaults k1 k2 = Raise e -> e = AttributeError.
Proof.
  unfold get_or_get, py_get. destruct defaults; cbn [rbind]; try (now intros [= <-]).
  destruct (truthy _); discriminate.
Qed.

(** X18.  When the session-scoped [ask] returns it has sent three requests,
    in this order: the one for the default models, the creation of a chat
    session for the first source id, and the message, posted to the session
    whose id the creation answered.  The message names the model that the
    session was created with, and none when the session has none; a model
    that the caller gives is that model. *)
Theorem ask_session_requests
    (prompt src : string) (more : list string) (model_override : option string)
    (w w' : world) (a : AskResult) :
  ask prompt (Some (src :: more)) model_override w = (Ok a, w') ->
  exists model cresp session session_id,
    sent w' = sent w ++ [defaults_request;
                         session_request src (clock (clock_reads w)) model;
                         message_request src session_id prompt model] /\
    server (sent w ++ [defaults_request])
      (session_request src (clock (clock_reads w)) model) = Some cresp /\
    json_loads (resp_text cresp) = Some session /\
    py_get session "id" = Ok session_id /\
    (supplied model_override = true -> model = of_opt model_override).
Proof.
  intros R. unfold ask in R. cbv zeta in R.
  apply bind_Ok in R as [defaults [w1 [D R]]]. apply fetch_defaults_run in D. subst w1.
  apply bind_Ok in R as [model [w2 [M R]]]. apply lift_Ok in M as [M ->].
  apply bind_Ok in R as [now [w3 [T R]]]. apply time_run in T as [-> ->].
  apply bind_Ok in R as [cresp [w4 [C R]]]. unfold requests_post in C.
  apply send_run in C as [C ->].
  apply bind_Ok in R as [u1 [w5 [S1 R]]]. apply lift_Ok in S1 as [_ ->].
  apply bind_Ok in R as [session [w6 [J R]]]. apply lift_Ok in J as [J ->].
  apply bind_Ok in R as [session_id [w7 [I R]]]. apply lift_Ok in I as [I ->].
  apply bind_Ok in R as [r [w8 [P R]]]. unfold requests_post in P.
  apply send_run in P as [_ ->].
  apply bind_Ok in R as [u2 [w9 [S2 R]]]. apply lift_Ok in S2 as [_ ->].
  apply bind_Ok in R as [[ev ch] [w10 [Hread R]]]. apply lift_Ok in Hread as [_ ->].
  apply bind_Ok in R as [answer_text [w11 [Hjoin R]]]. apply lift_Ok in Hjoin as [_ ->].
  apply ret_run in R as [_ ->].
  exists model, cresp, session, session_id.
  cbn [and_sent started sent clock_reads] in C |- *.
  assert (Msg : JDict ([("message", JStr prompt)]
                       ++ (if truthy (of_opt model_override)
                           then [("model_override", of_opt model_override)]
                           else if truthy model then [("model_override", model)] else []))
                = payload (message_request src session_id prompt model)).
  { cbn [message_request payload app].
    destruct (truthy (of_opt model_override)) eqn:O; [|reflexivity].
    injection M as <-. now rewrite O. }
  split; [|split; [exact C | split; [now apply resp_json_Ok | split; [exact I|]]]].
  - rewrite <- !app_assoc. cbn [app] in Msg |- *. rewrite Msg. reflexivity.
  - unfold supplied. intros O. rewrite O in M. now injection M as <-.
Qed.

(** X19.  A failure to create the chat session is not swallowed as a failure
    to fetch the default models is: when the backend refuses to create
    sessions for the source, [ask] raises and posts no message. *)
Theorem ask_session_refused
    (prompt src : string) (more : list string) (model_override : option string)
    (w : world) :
  (forall history rq resp,
      url rq = SourceChatSessions src -> server history rq = Some resp ->
      resp_ok resp = false) ->
  exists e w',
    ask prompt (Some (src :: more)) model_override w = (Raise e, w') /\
    (e = AttributeError \/ e = ConnectionError \/ e = HTTPError) /\
    count_requests POST to_messages (sent w') = count_requests POST to_messages (sent w).
Proof.
  intros Refused. unfold ask. cbv zeta. unfold bind at 1.
  destruct (fetch_defaults_returns w) as [defaults Hd].
  pose proof (fetch_defaults_world w) as Hw.
  destruct (fetch_defaults w) as [r w1]. cbn [fst snd] in Hd, Hw. subst r w1.
  assert (Quiet : forall rq,
             meth rq = GET \/ to_messages (url rq) = false ->
             forall l, count_requests POST to_messages (l ++ [rq])
                       = count_requests POST to_messages l).
  { intros rq Hrq l. rewrite count_requests_app. unfold count_requests, is_request.
    cbn [filter]. destruct Hrq as [-> | Hu]; [cbn; lia|].
    rewrite Hu. destruct (meth rq); cbn; lia. }
  unfold bind at 1, lift at 1.
  destruct (if truthy (of_opt model_override) then Ok (of_opt model_override)
            else get_or_get defaults "default_transformation_model" "default_chat_model")
    as [model|e] eqn:M.
  - unfold bind at 1, time_time at 1. unfold bind at 1, requests_post at 1, send.
    cbn [sent clock_reads slept and_sent].
    match goal with
    | |- context [server ?h ?rq] =>
        pose proof (Refused h rq) as Here; destruct (server h rq) as [cresp|]
    end.
    + unfold bind at 1, lift at 1, raise_for_status.
      rewrite (Here cresp eq_refl eq_refl).
      eexists. eexists. split; [reflexivity|]. split; [auto|].
      cbn [sent]. rewrite Quiet by (right; reflexivity).
      apply Quiet. now left.
    + eexists. eexists. split; [reflexivity|]. split; [auto|].
      cbn [sent]. rewrite Quiet by (right; reflexivity).
      apply Quiet. now left.
  - eexists. eexists. split; [reflexivity|]. split.
    + left. destruct (truthy (of_opt model_override)); [discriminate|].
      now apply get_or_get_raises in M.
    + cbn [and_sent sent]. apply Quiet. now left.
Qed.

(** X20.  Without source ids the default models are read from whatever the
    endpoint answers: an accepted body that decodes to a value that is no
    dict ([null], a list) makes [ask] raise [AttributeError] before it posts
    the question. *)
Theorem ask_defaults_no_dict
    (prompt : string) (source_ids : option (list string)) (model_override : option string)
    (w : world) (resp : response) (v : json) :
  source_ids = None \/ source_ids = Some [] ->
  server (sent w) defaults_request = Some resp ->
  resp_ok resp = true ->
  json_loads (resp_text resp) = Some v ->
  is_dict v = false ->
  ask prompt source_ids model_override w
  = (Raise AttributeError, and_sent defaults_request w).
Proof.
  intros Hsrc Hs Ho Hv Hd.
  assert (E : ask prompt source_ids model_override w
              = ask prompt None model_override w) by now destruct Hsrc as [-> | ->].
  rewrite E. unfold ask. cbv zeta.
  unfold bind at 1, try_except, bind at 1, requests_get, send.
  fold defaults_request. rewrite Hs.
  unfold bind at 1, lift at 1, raise_for_status. rewrite Ho.
  unfold lift at 1, resp_json. rewrite Hv.
  unfold lift at 1, get_or_get, py_get.
  destruct v; try discriminate; reflexivity.
Qed.

(** X21.  When [ask] without source ids returns it has sent two requests,
    the one for the default models and the question, and its result is the
    decoded body of the accepted answer to the question.  The answer model
    and the final answer model of the question are always the same, and a
    model that the caller gives takes all three places. *)
Theorem ask_simple_requests
    (prompt : string) (source_ids : option (list string)) (model_override : option string)
    (w w' : world) (a : AskResult) :
  source_ids = None \/ source_ids = Some [] ->
  ask prompt source_ids model_override w = (Ok a, w') ->
  exists strategy answer resp data,
    sent w' = sent w ++ [defaults_request; simple_request prompt strategy answer answer] /\
    server (sent w ++ [defaults_request]) (simple_request prompt strategy answer answer)
    = Some resp /\
    resp_ok resp = true /\
    json_loads (resp_text resp) = Some data /\
    a = SimpleAnswer data /\
    (supplied model_override = true ->
     strategy = of_opt model_override /\ answer = of_opt model_override).
Proof.
  intros Hsrc R.
  assert (E : ask prompt source_ids model_override w
              = ask prompt None model_override w) by now destruct Hsrc as [-> | ->].
  rewrite E in R. clear E Hsrc. unfold ask in R. cbv zeta in R.
  apply bind_Ok in R as [defaults [w1 [D R]]].
  assert (W1 : w1 = and_sent defaults_request w).
  { revert D. unfold try_except, bind, requests_get, send, lift, ret, and_sent,
      defaults_request.
    destruct (server _ _) as [r|]; [|now intros [= _ <-]].
    destruct (raise_for_status r); [|now intros [= _ <-]].
    destruct (resp_json r); now intros [= _ <-]. }
  subst w1. clear D.
  apply bind_Ok in R as [strategy [w2 [S R]]]. apply lift_Ok in S as [_ ->].
  apply bind_Ok in R as [answer [w3 [A R]]]. apply lift_Ok in A as [A ->].
  apply bind_Ok in R as [final [w4 [F R]]]. apply lift_Ok in F as [F ->].
  assert (final = answer) by congruence. subst final.
  apply bind_Ok in R as [resp [w5 [P R]]]. unfold requests_post in P.
  apply send_run in P as [P ->].
  apply bind_Ok in R as [u1 [w6 [S1 R]]]. apply lift_Ok in S1 as [S1 ->].
  apply bind_Ok in R as [data [w7 [J R]]]. apply lift_Ok in J as [J ->].
  apply ret_run in R as [-> ->].
  cbn [and_sent sent] in P |- *. unfold supplied.
  destruct (truthy (of_opt model_override)).
  - exists (of_opt model_override), (of_opt model_override), resp, data.
    rewrite <- app_assoc. cbn [app].
    repeat split; [exact P | now apply raise_for_status_Ok in S1 | now apply resp_json_Ok].
  - exists strategy, answer, resp, data.
    rewrite <- app_assoc. cbn [app].
    repeat split; [exact P | now apply raise_for_status_Ok in S1 | now apply resp_json_Ok
                  | discriminate | discriminate].
Qed.

End AskMore.

Section AskMoreExamples.

(** Two source ids and a model of the caller's: the session is created for
    the first id with that model. *)
Lemma ask_session_requests_witness :
  exists a w',
    ask (B := Demo.builtins) (K := Demo.backend)
      "question" (Some ["source:1"; "source:2"]) (Some "model:mine") start_world
    = (Ok a, w') /\
    exists model cresp session session_id,
      sent w' = sent start_world
                ++ [defaults_request;
                    session_request "source:1" (clock (Backend := Demo.backend) 0) model;
                    message_request "source:1" session_id "question" model] /\
      server (Backend := Demo.backend) (sent start_world ++ [defaults_request])
        (session_request "source:1" (clock (Backend := Demo.backend) 0) model)
      = Some cresp /\
      json_loads (Builtins := Demo.builtins) (resp_text cresp) = Some session /\
      py_get session "id" = Ok session_id /\
      (supplied (Some "model:mine") = true -> model = of_opt (Some "model:mine")).
Proof.
  eexists. eexists. split; [vm_compute; reflexivity|].
  exact (ask_session_requests (B := Demo.builtins) (K := Demo.backend)
           "question" "source:1" ["source:2"] (Some "model:mine") start_world _ _ eq_refl).
Defined.

Lemma refuses_sessions (src : string) (history : list request) (rq : request)
    (resp : response) :
  url rq = SourceChatSessions src ->
  server (Backend := Cases.refuses_creation) history rq = Some resp ->
  resp_ok resp = false.
Proof.
  intros U S. cbn in S. rewrite U in S. destruct (meth rq); now injection S as <-.
Defined.

Lemma ask_session_refused_witness :
  exists e w',
    ask (B := Demo.builtins) (K := Cases.refuses_creation)
      "question" (Some ["source:1"]) None start_world = (Raise e, w') /\
    (e = AttributeError \/ e = ConnectionError \/ e = HTTPError) /\
    count_requests POST to_messages (sent w')
    = count_requests POST to_messages (sent start_world).
Proof.
  exact (ask_session_refused (B := Demo.builtins) (K := Cases.refuses_creation)
           "question" "source:1" [] None start_world (refuses_sessions "source:1")).
Defined.

(** Default models that are [null]. *)
Lemma ask_defaults_no_dict_witness :
  ask (B := Cases.builtins) (K := Cases.null_defaults) "question" None None start_world
  = (Raise AttributeError, and_sent defaults_request start_world).
Proof.
  apply (ask_defaults_no_dict (B := Cases.builtins) (K := Cases.null_defaults)
           "question" None None start_world (Demo.answer "null") JNull).
  - now left.
  - reflexivity.
  - reflexivity.
  - reflexivity.
  - reflexivity.
Defined.

Lemma ask_simple_requests_witness :
  exists a w',
    ask (B := Cases.builtins) (K := Cases.with_models)
      "question" (Some []) (Some "model:mine") start_world = (Ok a, w') /\
    exists strategy answer resp data,
      sent w' = sent start_world
                ++ [defaults_request; simple_request "question" strategy answer answer] /\
      server (Backend := Cases.with_models) (sent start_world ++ [defaults_request])
        (simple_request "question" strategy answer answer) = Some resp /\
      resp_ok resp = true /\
      json_loads (Builtins := Cases.builtins) (resp_text resp) = Some data /\
      a = SimpleAnswer data /\
      (supplied (Some "model:mine") = true ->
       strategy = of_opt (Some "model:mine") /\ answer = of_opt (Some "model:mine")).
Proof.
  eexists. eexists. split; [vm_compute; reflexivity|].
  refine (ask_simple_requests (B := Cases.builtins) (K := Cases.with_models)
            "question" (Some []) (Some "model:mine") start_world _ _ _ eq_refl).
  now right.
Defined.

End AskMoreExamples.

(** ** The stream loop as a whole *)

Section StreamMore.
Context `{B : Builtins}.

Lemma event_type_no_dict (ev : json) :
  is_dict ev = false -> event_type ev = Raise AttributeError.
Proof. now destruct ev. Qed.

Lemma decoded_events_length (lines : list string) :
  length (decoded_events lines) = length (filter not_empty lines).
Proof.
  induction lines as [|raw_line rest IH]; [reflexivity|].
  cbn [decoded_events flat_map filter]. fold (decoded_events rest).
  rewrite length_app, IH. unfold decoded_event, not_empty.
  destruct (String.eqb raw_line ""); cbn [negb]; [reflexivity|].
  now destruct (json_loads (line_body raw_line)).
Qed.

Lemma read_stream_closed (lines : list string) :
  read_stream lines [] []
  = if forallb is_dict (decoded_events lines)
    then Ok (decoded_events lines,
             map chunk_of (filter is_ai_message (decoded_events lines)))
    else Raise AttributeError.
Proof.
  induction lines as [|raw_line rest IH]; [reflexivity|].
  cbn [read_stream decoded_events flat_map]. fold (decoded_events rest).
  unfold decoded_event.
  destruct (String.eqb raw_line ""); [exact IH|].
  destruct (json_loads (line_body raw_line)) as [ev|]; cbn [app forallb filter].
  - destruct ev as [| | | | |d]; try reflexivity.
    destruct (event_type_dict d) as [t T]. rewrite T. cbn [rbind is_dict andb].
    rewrite (event_type_ai (JDict d) t T).
    destruct (is_ai_message (JDict d)).
    + rewrite event_content_dict. cbn [rbind]. rewrite read_stream_acc, IH.
      now destruct (forallb is_dict (decoded_events rest)).
    + rewrite read_stream_acc, IH.
      now destruct (forallb is_dict (decoded_events rest)).
  - rewrite text_event_not_ai. cbn [text_event is_dict andb].
    rewrite read_stream_acc, IH.
    now destruct (forallb is_dict (decoded_events rest)).
Qed.

(** X22.  The stream loop in closed form: it ends exactly when every line
    that decodes decodes to a dict, with the events of the lines and, for
    each event tagged [ai_message], its [content], else its [data], else the
    empty string; one decoded value that is no dict makes it raise
    [AttributeError], whatever the other lines are. *)
Theorem read_stream_all_dicts (lines : list string) :
  read_stream lines [] []
  = if forallb is_dict (decoded_events lines)
    then Ok (decoded_events lines,
             map chunk_of (filter is_ai_message (decoded_events lines)))
    else Raise AttributeError.
Proof. exact (read_stream_closed lines). Qed.

(** X23.  When the loop ends it has recorded one event for each line that is
    not empty, each of them a dict, and no more chunks than events. *)
Theorem read_stream_counts (lines : list string) (events chunks : list json) :
  read_stream lines [] [] = Ok (events, chunks) ->
  length events = length (filter not_empty lines) /\
  forallb is_dict events = true /\
  length chunks <= length events.
Proof.
  rewrite read_stream_closed.
  destruct (forallb is_dict (decoded_events lines)) eqn:D; [|discriminate].
  intros [= <- <-]. split; [apply decoded_events_length | split; [exact D|]].
  rewrite length_map. apply filter_length_le.
Qed.

(** The prefix [data:] is text, not space. *)
Lemma strip_data (s : string) :
  PyStr.strip ("data:" ++ s) = ("data:" ++ PyStr.rstrip s)%string.
Proof.
  unfold PyStr.strip. cbn [append PyStr.lstrip].
  change (PyStr.is_space "d") with false. cbv iota.
  now rewrite !PyStrFacts.rstrip_cons by reflexivity.
Qed.

(** X24.  The prefix [data:] of a line is optional: for a text that does
    not itself begin with [data:], with the prefix or without it, and
    whatever space surrounds the text, the body of the line is the text
    stripped. *)
Theorem line_body_data (s : string) :
  PyStr.startswith "data:" (PyStr.strip s) = false ->
  line_body ("data:" ++ s) = PyStr.strip s /\ line_body s = PyStr.strip s.
Proof.
  intros N. split.
  - unfold line_body. rewrite strip_data.
    assert (P : PyStr.startswith "data:" ("data:" ++ PyStr.rstrip s) = true)
      by now destruct (PyStr.rstrip s).
    rewrite P. change (PyStr.drop 5 ("data:" ++ PyStr.rstrip s)) with (PyStr.rstrip s).
    apply PyStrFacts.strip_rstrip.
  - unfold line_body. now rewrite N.
Qed.

End StreamMore.

Section StreamMoreExamples.
#[local] Existing Instance Cases.builtins.

(** A line that decodes to a number, after a line that is read. *)
Example read_stream_number :
  read_stream ["data: ping"; "data: 7"; "answer"] [] [] = Raise AttributeError.
Proof. reflexivity. Qed.

Lemma read_stream_counts_witness :
  length (decoded_events ["data: ping"; ""; "not json"; "answer"]) = 3 /\
  forallb is_dict (decoded_events ["data: ping"; ""; "not json"; "answer"]) = true /\
  length [JStr "answer"] <= length (decoded_events ["data: ping"; ""; "not json"; "answer"]).
Proof.
  exact (read_stream_counts ["data: ping"; ""; "not json"; "answer"]
           (decoded_events ["data: ping"; ""; "not json"; "answer"]) [JStr "answer"]
           eq_refl).
Defined.

Lemma line_body_data_witness :
  line_body ("data:" ++ "  ping ") = "ping"%string /\ line_body "  ping " = "ping"%string.
Proof. exact (line_body_data "  ping " eq_refl). Defined.

End StreamMoreExamples.

(** ** The requests of the notebook pipeline *)

Section NotebookAskMore.
Context `{B : Builtins} `{K : Backend}.

(** The step that creates what the caller did not name. *)
Lemma created_run (given : option string) (u : endpoint) (body : Z -> json)
    (w w1 : world) (v : json) :
  (if negb (truthy (of_opt given)) then
     now <- time_time ;;
     resp <- requests_post u (body now) None ;;
     lift (raise_for_status resp) ;;;
     created <- lift (resp_json resp) ;;
     lift (py_get created "id")
   else ret (of_opt given))%io w = (Ok v, w1) ->
  sent w1
  = sent w ++ (if supplied given then []
               else [{| meth := POST; url := u; payload := body (clock (clock_reads w));
                        attached := None |}]) /\
  (supplied given = true -> v = of_opt given).
Proof.
  unfold supplied. destruct (truthy (of_opt given)); cbn [negb]; intros R.
  - apply ret_run in R as [-> ->]. now rewrite app_nil_r.
  - apply bind_Ok in R as [now [w2 [T R]]]. apply time_run in T as [-> ->].
    apply bind_Ok in R as [resp [w3 [P R]]]. unfold requests_post in P.
    apply send_run in P as [_ ->].
    apply bind_Ok in R as [u1 [w4 [S1 R]]]. apply lift_Ok in S1 as [_ ->].
    apply bind_Ok in R as [created [w5 [J R]]]. apply lift_Ok in J as [_ ->].
    apply lift_Ok in R as [_ ->].
    split; [reflexivity | discriminate].
Qed.

(** X25.  When [notebook_ask] returns it has sent, in this order: the
    request for the default models, the creation of a notebook unless one
    was named, the link of the source to the notebook that it returns, the
    context request for that notebook, the creation of a session in that
    notebook unless one was named, and the execution in the session that it
    returns.  A notebook or a session that the caller names is the one
    returned, and the answer is the one read off the returned messages. *)
Theorem notebook_ask_requests
    (source_id message : string) (model_override notebook_id session_id : option string)
    (w w' : world) (a : NotebookAnswer) :
  notebook_ask source_id message model_override notebook_id session_id w = (Ok a, w') ->
  exists new,
    sent w' = sent w ++ new /\
    map route new
    = [(GET, ModelsDefaults)]
      ++ (if supplied notebook_id then [] else [(POST, Notebooks)])
      ++ [(POST, NotebookSource (nb_notebook_id a) source_id); (POST, ChatContext)]
      ++ (if supplied session_id then [] else [(POST, ChatSessions)])
      ++ [(POST, ChatExecute)] /\
    (forall rq, In rq new ->
       (url rq = ChatContext -> payload_field "notebook_id" rq = nb_notebook_id a) /\
       (url rq = ChatSessions -> payload_field "notebook_id" rq = nb_notebook_id a) /\
       (url rq = ChatExecute ->
        payload_field "session_id" rq = nb_session_id a /\
        payload_field "message" rq = JStr message)) /\
    (supplied notebook_id = true -> nb_notebook_id a = of_opt notebook_id) /\
    (supplied session_id = true -> nb_session_id a = of_opt session_id) /\
    extract_answer (nb_messages a) = Ok (nb_ai_answer a).
Proof.
  intros R. unfold notebook_ask in R. cbv zeta in R.
  apply bind_Ok in R as [defaults [w1 [D R]]]. apply fetch_defaults_run in D. subst w1.
  apply bind_Ok in R as [nid [w2 [N R]]].
  apply (created_run notebook_id Notebooks
           (fun now => JDict [("name", JStr ("temp-notebook-" ++ PyStr.of_int now));
                              ("description",
                               JStr "Temporary notebook for source-scoped query")]))
    in N as [N Nid].
  apply bind_Ok in R as [lresp [w3 [L R]]]. unfold requests_post in L.
  apply send_run in L as [_ ->].
  apply bind_Ok in R as [u1 [w4 [S1 R]]]. apply lift_Ok in S1 as [_ ->].
  apply bind_Ok in R as [ctx_resp [w5 [C R]]]. unfold requests_post in C.
  apply send_run in C as [_ ->].
  apply bind_Ok in R as [u2 [w6 [S2 R]]]. apply lift_Ok in S2 as [_ ->].
  apply bind_Ok in R as [context_data [w7 [J R]]]. apply lift_Ok in J as [_ ->].
  apply bind_Ok in R as [built [w8 [G R]]]. apply lift_Ok in G as [_ ->].
  apply bind_Ok in R as [sid [w9 [S R]]].
  apply (created_run session_id ChatSessions
           (fun now => JDict [("notebook_id", nid);
                              ("title", JStr ("nb-session-" ++ PyStr.of_int now))]))
    in S as [S Sid].
  apply bind_Ok in R as [chat_model [w10 [M R]]]. apply lift_Ok in M as [_ ->].
  apply bind_Ok in R as [exec_resp [w11 [E R]]]. unfold requests_post in E.
  apply send_run in E as [_ ->].
  apply bind_Ok in R as [u3 [w12 [S3 R]]]. apply lift_Ok in S3 as [_ ->].
  apply bind_Ok in R as [resp_data [w13 [J2 R]]]. apply lift_Ok in J2 as [_ ->].
  apply bind_Ok in R as [msgs [w14 [Ms R]]]. apply lift_Ok in Ms as [_ ->].
  apply bind_Ok in R as [ans [w15 [A R]]]. apply lift_Ok in A as [A ->].
  apply ret_run in R as [-> ->].
  cbn [nb_notebook_id nb_session_id nb_messages nb_ai_answer].
  cbn [and_sent sent clock_reads] in N, S |- *. rewrite S. cbn [and_sent sent]. rewrite N.
  eexists. split; [rewrite <- !app_assoc; reflexivity|].
  split; [|split; [|split; [exact Nid | split; [exact Sid | exact A]]]].
  - rewrite !map_app. cbn [map route meth url defaults_request app].
    now destruct (supplied notebook_id), (supplied session_id).
  - intros rq Hin.
    destruct (supplied notebook_id), (supplied session_id);
      cbn [app In] in Hin;
      repeat (destruct Hin as [<- | Hin]; [now repeat split|]);
      destruct Hin.
Qed.

(** X26.  The answer of [notebook_ask] is read off the last message alone:
    its [content] when its [type] is [ai] (the empty string when it has no
    [content]), the empty string otherwise, and also when there is no
    message; a last message that is no dict raises [AttributeError]. *)
Theorem extract_answer_last (before : list json) (last_msg : json) :
  extract_answer (JList []) = Ok (JStr "") /\
  (forall d, last_msg = JDict d ->
     extract_answer (JList (before ++ [last_msg]))
     = Ok (if eq_str (dict_get "type" d) "ai"
           then dict_get_or "content" (JStr "") d
           else JStr "")) /\
  (is_dict last_msg = false ->
   extract_answer (JList (before ++ [last_msg])) = Raise AttributeError).
Proof.
  assert (T : truthy (JList (before ++ [last_msg])) = true)
    by now destruct before.
  assert (L : last_message (JList (before ++ [last_msg])) = Ok last_msg).
  { unfold last_message. now rewrite rev_app_distr. }
  split; [reflexivity | split].
  - intros d ->. unfold extract_answer. rewrite T, L. cbn [rbind py_get py_get_or].
    now destruct (eq_str (dict_get "type" d) "ai").
  - intros D. unfold extract_answer. rewrite T, L. cbn [rbind].
    now destruct last_msg.
Qed.

End NotebookAskMore.

Section NotebookAskMoreExamples.
#[local] Existing Instance Demo.builtins.

(** A notebook of the caller's, and a session that the pipeline creates. *)
Lemma notebook_ask_requests_witness :
  exists a w',
    notebook_ask (K := Demo.backend) "source:1" "question" None (Some "notebook:7") None
      start_world = (Ok a, w') /\
    nb_ai_answer a = JStr "done" /\
    exists new,
      sent w' = sent start_world ++ new /\
      map route new
      = [(GET, ModelsDefaults)]
        ++ (if supplied (Some "notebook:7") then [] else [(POST, Notebooks)])
        ++ [(POST, NotebookSource (nb_notebook_id a) "source:1"); (POST, ChatContext)]
        ++ (if supplied None then [] else [(POST, ChatSessions)])
        ++ [(POST, ChatExecute)] /\
      (forall rq, In rq new ->
         (url rq = ChatContext -> payload_field "notebook_id" rq = nb_notebook_id a) /\
         (url rq = ChatSessions -> payload_field "notebook_id" rq = nb_notebook_id a) /\
         (url rq = ChatExecute ->
          payload_field "session_id" rq = nb_session_id a /\
          payload_field "message" rq = JStr "question")) /\
      (supplied (Some "notebook:7") = true ->
       nb_notebook_id a = of_opt (Some "notebook:7")) /\
      (supplied None = true -> nb_session_id a = of_opt None) /\
      extract_answer (nb_messages a) = Ok (nb_ai_answer a).
Proof.
  eexists. eexists. split; [vm_compute; reflexivity|]. split; [reflexivity|].
  exact (notebook_ask_requests (K := Demo.backend)
           "source:1" "question" None (Some "notebook:7") None start_world _ _ eq_refl).
Defined.

Lemma extract_answer_last_witness :
  extract_answer (JList [JDict [("type", JStr "human"); ("content", JStr "question")];
                         JDict [("type", JStr "ai"); ("content", JStr "done")]])
  = Ok (JStr "done") /\
  extract_answer (JList [JDict [("type", JStr "ai"); ("content", JStr "done")];
                         JStr "note"])
  = Raise AttributeError.
Proof.
  split.
  - exact (proj1 (proj2 (extract_answer_last
                           [JDict [("type", JStr "human"); ("content", JStr "question")]]
                           (JDict [("type", JStr "ai"); ("content", JStr "done")])))
             _ eq_refl).
  - exact (proj2 (proj2 (extract_answer_last
                           [JDict [("type", JStr "ai"); ("content", JStr "done")]]
                           (JStr "note")))
             eq_refl).
Defined.

End NotebookAskMoreExamples.

(** ** The application *)

Section ApplicationMore.
Context `{B : Builtins} `{K : Backend}.

Lemma reference_existing_file_world
    (server_file_path : string) (title : option string) (notebooks : option (list json))
    (embed async_processing : bool) (w : world) :
  snd (reference_existing_file server_file_path title notebooks embed async_processing w)
  = and_sent (reference_request server_file_path title notebooks embed async_processing) w.
Proof.
  unfold reference_existing_file, bind, requests_post, send, lift, ret.
  fold (reference_request server_file_path title notebooks embed async_processing).
  destruct (server (sent w) _) as [resp|]; [|reflexivity].
  destruct (negb (w_ok (_wrap_response resp))); [reflexivity|].
  now destruct (_normalize_sources _).
Qed.

(** X27.  [register_and_process_file] wants one path, and a path that is
    empty is no path.  With both or with none it raises [ValueError] before
    anything is sent.  With a local path it asks for the listing and sends
    at most the upload after it; with a path on the server it sends the
    registration and nothing else, without asking for the listing. *)
Theorem register_and_process_file_paths
    (local_path server_path title : option string) (notebooks : option (list json))
    (embed async_processing : bool) (w : world) :
  let run :=
    register_and_process_file local_path server_path title notebooks embed
      async_processing w in
  (supplied local_path = supplied server_path -> run = (Raise ValueError, w)) /\
  (supplied local_path = true -> supplied server_path = false ->
   run = upload_file_and_process (path_arg local_path) title notebooks embed
           async_processing w /\
   (sent (snd run) = sent w ++ [list_sources_request None] \/
    sent (snd run)
    = sent w ++ [list_sources_request None;
                 upload_request (path_arg local_path) title notebooks embed
                   async_processing])) /\
  (supplied local_path = false -> supplied server_path = true ->
   run = reference_existing_file (path_arg server_path) title notebooks embed
           async_processing w /\
   sent (snd run)
   = sent w ++ [reference_request (path_arg server_path) title notebooks embed
                  async_processing]).
Proof.
  cbv zeta. unfold register_and_process_file.
  destruct (supplied local_path), (supplied server_path); cbn [andb];
    (split; [|split]); try discriminate; try reflexivity; intros _ _.
  - split; [reflexivity|]. apply upload_file_and_process_sent.
  - split; [reflexivity|]. now rewrite reference_existing_file_world.
Qed.

End ApplicationMore.

Section ApplicationMoreExamples.
#[local] Existing Instance Demo.builtins.
#[local] Existing Instance Demo.backend.

(** Both paths, no path, an empty path beside a path on the server. *)
Lemma register_and_process_file_paths_witness :
  register_and_process_file (Some "/tmp/a.pdf") (Some "/x/a.pdf") None None true true
    start_world = (Raise ValueError, start_world) /\
  register_and_process_file None None None None true true start_world
  = (Raise ValueError, start_world) /\
  sent (snd (register_and_process_file (Some "") (Some "/x/a.pdf") None None true true
               start_world))
  = [reference_request "/x/a.pdf" None None true true].
Proof.
  split; [|split].
  - exact (proj1 (register_and_process_file_paths (Some "/tmp/a.pdf") (Some "/x/a.pdf")
                    None None true true start_world) eq_refl).
  - exact (proj1 (register_and_process_file_paths None None None None true true
                    start_world) eq_refl).
  - exact (proj2 (proj2 (proj2 (register_and_process_file_paths (Some "") (Some "/x/a.pdf")
                                  None None true true start_world))
                    eq_refl eq_refl)).
Defined.

End ApplicationMoreExamples.
